(** * Analysis_Script.py: the experiment-sweep orchestration, embedded and verified

    The script drives an external ns-3 simulation: it builds one shell
    command per configuration, runs it, reads three CSV artifacts back with
    pandas, and accumulates the per-run dictionaries of three sweeps into
    data frames.

    The embedding follows the script function by function.  Python objects
    that are mutated after they have been handed around (the result
    dictionaries) live in an explicit object store and are referred to by
    address; the operating system, the simulator and pandas' CSV reader are
    the fields of a [Platform]. *)

From Stdlib Require Import ZArith String Ascii List Lia DecimalString.
From Stdlib Require Import Floats.SpecFloat Sorting.Sorted.
From stdpp Require Import base option list gmap strings.

(** ** Strings *)

(** [w in s] on Python strings. *)
Fixpoint contains (w s : string) : bool :=
  String.prefix w s ||
  match s with
  | EmptyString => false
  | String _ s' => contains w s'
  end.

Fixpoint count_char (c : ascii) (s : string) : nat :=
  match s with
  | EmptyString => 0
  | String a s' => (if Ascii.eqb a c then 1 else 0) + count_char c s'
  end.

(** [s * n] on a Python string. *)
Fixpoint str_repeat (s : string) (n : nat) : string :=
  match n with
  | O => ""
  | S n' => s +:+ str_repeat s n'
  end.

(** [str(z)] of a Python int, as interpolated by an f-string. *)
Definition str_of_Z (z : Z) : string := NilZero.string_of_int (Z.to_int z).

Definition newline : string := String (ascii_of_nat 10) EmptyString.

(** ** Python values *)

(** IEEE 754 binary64, the format of Python and numpy floats. *)
Definition prec : Z := 53.
Definition emax : Z := 1024.
Abbreviation float := spec_float.

Definition float_of_Z (n : Z) : float := binary_normalize prec emax n 0 false.
Definition float_mul (x y : float) : float := SFmul prec emax x y.
Definition float_div (x y : float) : float := SFdiv prec emax x y.

(** Two's complement wrap-around of numpy's 64-bit integers. *)
Definition wrap64 (n : Z) : Z :=
  ((n + 2 ^ 63) mod 2 ^ 64 - 2 ^ 63)%Z.

Inductive pyval : Type :=
| PyInt (n : Z)            (* int *)
| NpInt64 (n : Z)          (* numpy.int64, a cell of an integer column *)
| NpFloat64 (x : float)    (* numpy.float64, a cell of a float column *)
| PyStr (s : string).      (* str: a label, or a cell of an object column *)

#[global] Instance spec_float_eq_dec : EqDecision spec_float.
Proof. solve_decision. Defined.

#[global] Instance pyval_eq_dec : EqDecision pyval.
Proof. solve_decision. Defined.

Definition is_numeric (v : pyval) : bool :=
  match v with
  | PyStr _ => false
  | _ => true
  end.

(** [v * 1000] with the int literal on the right. *)
Definition mul_1000 (v : pyval) : pyval :=
  match v with
  | PyInt n => PyInt (n * 1000)
  | NpInt64 n => NpInt64 (wrap64 (n * 1000))
  | NpFloat64 x => NpFloat64 (float_mul x (float_of_Z 1000))
  | PyStr s => PyStr (str_repeat s 1000)
  end.

(** A dict with string keys. *)
Abbreviation dict := (gmap string pyval).

(** [bool(d)] of a dict: it has at least one key. *)
Definition dict_truthy (d : dict) : bool := negb (Nat.eqb (size d) 0).

(** Exceptions.  [SystemExit] is not an [Exception]: [except Exception]
    lets it through. *)
Inductive exn : Type :=
| ReadError (msg : string)   (* whatever [pd.read_csv] raises *)
| KeyError (key : string)
| IndexError
| ValueError
| OSError
| SystemExit (code : Z).

Definition is_Exception (e : exn) : bool :=
  match e with
  | SystemExit _ => false
  | _ => true
  end.

(** [str(e)], as interpolated into the failure log line. *)
Definition exn_str (e : exn) : string :=
  match e with
  | ReadError msg => msg
  | KeyError key => "'" +:+ key +:+ "'"
  | IndexError => "single positional indexer is out-of-bounds"
  | ValueError => "Unknown format code 'f' for object of type 'str'"
  | OSError => "OSError"
  | SystemExit code => str_of_Z code
  end.

Inductive res (A : Type) : Type :=
| Ret (a : A)
| Raise (e : exn).
Arguments Ret {A} a.
Arguments Raise {A} e.

Definition returns {A} (r : res A) : bool :=
  match r with
  | Ret _ => true
  | Raise _ => false
  end.

(** ** Data frames read from CSV: named columns of cells *)

Definition CsvFrame : Type := list (string * list pyval).

(** [df[col]]: the column, or [KeyError]. *)
Fixpoint frame_getitem (df : CsvFrame) (col : string) : res (list pyval) :=
  match df with
  | [] => Raise (KeyError col)
  | (name, cells) :: df' =>
      if String.eqb name col then Ret cells else frame_getitem df' col
  end.

(** [series.iloc[0]]: the first cell, or [IndexError]. *)
Definition iloc0 (series : list pyval) : res pyval :=
  match series with
  | [] => Raise IndexError
  | v :: _ => Ret v
  end.

Definition first_cell (df : CsvFrame) (col : string) : res pyval :=
  match frame_getitem df col with
  | Ret series => iloc0 series
  | Raise e => Raise e
  end.

(** A data frame built from a list of dicts: its rows, in list order. *)
Abbreviation Table := (list dict).

(** ** The platform: operating system, simulator, pandas, float printing *)

Class Platform : Type := {
  Env : Type;
  (** [os.path.exists(path)] *)
  os_path_exists : string -> Env -> bool;
  (** [os.makedirs(path, exist_ok=True)]; [None] when it raises *)
  os_makedirs : string -> Env -> option Env;
  (** [subprocess.run(command, shell=True, cwd=cwd, ...)]: the return code
      and the world the process leaves behind; starting the shell is taken
      to succeed, and the process to end *)
  subprocess_run : string -> string -> Env -> Z * Env;
  (** [pd.read_csv(path)]: the frame, or the message of the exception *)
  pd_read_csv : string -> Env -> string + CsvFrame;
  (** [str(x)] of a float *)
  float_str : float -> string;
  (** [format(x, ".3f")] of a float *)
  float_format_3f : float -> string
}.

(** ** Configuration paths (lines 18-20) *)

(** [os.path.join(a, b)] for two components. *)
Definition os_path_join (a b : string) : string :=
  if String.prefix "/" b then b
  else if (String.eqb a "" || String.eqb (substring (String.length a - 1) 1 a) "/")%bool
       then a +:+ b
       else a +:+ "/" +:+ b.

Definition NS3_ROOT : string := "/home/chirag/acn_gowda/ns-3-dev-ecn".
Definition SCRATCH_DIR : string := os_path_join NS3_ROOT "scratch".
Definition OUTPUT_DIR : string := os_path_join NS3_ROOT "analysis_graphs".

(** The default of the keyword argument [win]: the double nearest to 1.2. *)
Definition win_default : float := S754_finite false 5404319552844595 (-52).

(** ** The interpreter state and the monad of script fragments *)

(** Address of a dict in the object store. *)
Abbreviation ref := nat.

Section Script.
Context {P : Platform}.

Record State : Type := mkState {
  env : Env;                 (* the world outside the interpreter *)
  heap : list dict;          (* the dicts allocated so far, by address *)
  stdout : list string;      (* one entry per [print] call *)
  trace : list string        (* the commands handed to [subprocess.run] *)
}.

Definition M (A : Type) : Type := State -> res A * State.

#[export] Instance M_ret : MRet M := fun A a st => (Ret a, st).

#[export] Instance M_bind : MBind M := fun A B f m st =>
  match m st with
  | (Ret a, st') => f a st'
  | (Raise e, st') => (Raise e, st')
  end.

Definition raise {A} (e : exn) : M A := fun st => (Raise e, st).

Definition lift_res {A} (r : res A) : M A := fun st => (r, st).

(** [try: body / except Exception as e: handler(e)] *)
Definition try_except {A} (body : M A) (handler : exn -> M A) : M A :=
  fun st =>
    match body st with
    | (Raise e, st') =>
        if is_Exception e then handler e st' else (Raise e, st')
    | r => r
    end.

Definition print (line : string) : M unit := fun st =>
  (Ret tt, mkState (env st) (heap st) (stdout st ++ [line]) (trace st)).

(** [exit(code)] *)
Definition exit {A} (code : Z) : M A := raise (SystemExit code).

Definition path_exists (path : string) : M bool := fun st =>
  (Ret (os_path_exists path (env st)), st).

Definition makedirs (path : string) : M unit := fun st =>
  match os_makedirs path (env st) with
  | Some e' => (Ret tt, mkState e' (heap st) (stdout st) (trace st))
  | None => (Raise OSError, st)
  end.

(** [subprocess.run(command, shell=True, cwd=cwd, capture_output=True,
    text=True).returncode] *)
Definition run_process (command cwd : string) : M Z := fun st =>
  let '(returncode, e') := subprocess_run command cwd (env st) in
  (Ret returncode,
   mkState e' (heap st) (stdout st) (trace st ++ [command])).

Definition read_csv (path : string) : M CsvFrame := fun st =>
  match pd_read_csv path (env st) with
  | inr df => (Ret df, st)
  | inl msg => (Raise (ReadError msg), st)
  end.

(** *** The object store *)

Definition deref (h : list dict) (r : ref) : dict := default ∅ (h !! r).

(** A dict display [{...}]: a new object. *)
Definition new_dict (d : dict) : M ref := fun st =>
  (Ret (length (heap st)),
   mkState (env st) (heap st ++ [d]) (stdout st) (trace st)).

(** [r[key] = v] *)
Definition setitem (r : ref) (key : string) (v : pyval) : M unit := fun st =>
  (Ret tt,
   mkState (env st) (alter (insert key v) r (heap st)) (stdout st) (trace st)).

(** [r[key]], or [KeyError] *)
Definition getitem (r : ref) (key : string) : M pyval := fun st =>
  match deref (heap st) r !! key with
  | Some v => (Ret v, st)
  | None => (Raise (KeyError key), st)
  end.

(** [r.copy()]: a new object with the same items. *)
Definition dict_copy (r : ref) : M ref := fun st =>
  new_dict (deref (heap st) r) st.

(** [if out: then_ else: else_] for [out] a dict or [None]. *)
Definition if_truthy {A} (out : option ref) (then_ : ref -> M A) (else_ : M A)
  : M A := fun st =>
  match out with
  | Some r => if dict_truthy (deref (heap st) r) then then_ r st else else_ st
  | None => else_ st
  end.

(** [pd.DataFrame(records)]: the rows are the dicts as they are now. *)
Definition pd_DataFrame (records : list ref) : M Table := fun st =>
  (Ret (map (deref (heap st)) records), st).

(** [for x in xs: body], threading the list the body appends to. *)
Fixpoint for_each {A S} (xs : list A) (body : A -> S -> M S) (acc : S) : M S :=
  match xs with
  | [] => mret acc
  | x :: xs' => acc' ← body x acc; for_each xs' body acc'
  end.

(** [format(v, ".3f")]: [ValueError] on a str. *)
Definition format_3f (v : pyval) : res string :=
  match v with
  | PyInt n | NpInt64 n => Ret (float_format_3f (float_of_Z n))
  | NpFloat64 x => Ret (float_format_3f x)
  | PyStr _ => Raise ValueError
  end.

(** ** [execute_ns3] (lines 34-72) *)

(** Lines 36-48: the command line. *)
Definition build_command (attack : bool) (attack_rate limit node_count : Z)
    (win : float) (duration : Z) : string :=
  if attack then
    "./ns3 run 'dioneighbour "
    +:+ "--attack=true --attackerPps=" +:+ str_of_Z attack_rate +:+ " --attackerPkt=120 "
    +:+ "--threshold=" +:+ str_of_Z limit +:+ " --windowSec=" +:+ float_str win
    +:+ " --nNodes=" +:+ str_of_Z node_count +:+ " "
    +:+ "--area=60 --rateKbps=16 --simTime=" +:+ str_of_Z duration +:+ "'"
  else
    "./ns3 run 'dioneighbour "
    +:+ "--attack=false --nNodes=" +:+ str_of_Z node_count +:+ " --area=60 "
    +:+ "--rateKbps=16 --simTime=" +:+ str_of_Z duration +:+ "'".

Definition pdr_csv : string := NS3_ROOT +:+ "/results/run1_pdr.csv".
Definition delay_csv : string := NS3_ROOT +:+ "/results/run1_delay.csv".
Definition overhead_csv : string := NS3_ROOT +:+ "/results/run1_overhead.csv".

(** Lines 57-69: the three reads and the dict display, evaluated in source
    order; the first exception wins. *)
Definition read_results : M dict :=
  pdr_df ← read_csv pdr_csv;
  delay_df ← read_csv delay_csv;
  over_df ← read_csv overhead_csv;
  pdr ← lift_res (first_cell pdr_df "pdr");
  tx ← lift_res (first_cell pdr_df "tx");
  rx ← lift_res (first_cell pdr_df "rx");
  delay ← lift_res (first_cell delay_df "avg_delay_s");
  ctrl_tx ← lift_res (first_cell over_df "control_tx");
  ctrl_rx ← lift_res (first_cell over_df "control_rx");
  ctrl_dropped ← lift_res (first_cell over_df "control_dropped");
  mret (<["ctrl_dropped" := ctrl_dropped]>
        (<["ctrl_rx" := ctrl_rx]>
         (<["ctrl_tx" := ctrl_tx]>
          (<["delay_ms" := mul_1000 delay]>
           (<["rx" := rx]>
            (<["tx" := tx]>
             (<["pdr" := pdr]> (∅ : dict)))))))).

Definition execute_ns3 (attack : bool) (attack_rate limit node_count : Z)
    (win : float) (duration : Z) : M (option ref) :=
  let command := build_command attack attack_rate limit node_count win duration in
  returncode ← run_process command NS3_ROOT;
  if negb (returncode =? 0)%Z then
    print "   ❌ Simulation failed.";;
    mret None
  else
    try_except
      (d ← read_results;
       r ← new_dict d;
       mret (Some r))
      (fun e =>
         print ("   ❌ Error reading result files: " +:+ exn_str e);;
         mret None).

End Script.

(** ** The sweep generators (lines 77-172)

    The generators call whatever the global name [execute_ns3] is bound to;
    a test rebinds it to a stub.  They are therefore written over an
    arbitrary executor and instantiated with [execute_ns3] below. *)

Definition executor {P : Platform} : Type :=
  bool -> Z -> Z -> Z -> float -> Z -> M (option ref).

Definition rates : list Z := [150; 300; 500; 700; 900; 1100]%Z.
Definition limits : list Z := [5; 15; 25; 35; 50; 70]%Z.

Section Sweeps.
Context {P : Platform}.
Variable execute : executor.

Definition banner (title : string) : M unit :=
  print (newline +:+ str_repeat "=" 70);;
  print title;;
  print (str_repeat "=" 70).

(** [print(f"{prefix}{out['pdr']:.3f}")] *)
Definition print_pdr (prefix : string) (out : ref) : M unit :=
  pdr ← getitem out "pdr";
  s ← lift_res (format_3f pdr);
  print (prefix +:+ s).

Definition gather_baselines_with : M Table :=
  banner "RUNNING BASELINE SIMULATIONS";;
  let records : list ref := [] in
  (* Case 1: Plain RPL (no attack) *)
  print "▶ Running Baseline RPL...";;
  out ← execute false 700%Z 25%Z 25%Z win_default 120%Z;
  records ← if_truthy out
    (fun out =>
       setitem out "scenario" (PyStr "RPL");;
       let records := records ++ [out] in
       print_pdr "   ✓ PDR = " out;;
       mret records)
    (mret records);
  (* Case 2: Unsecured RPL under attack *)
  print "▶ Running Insecure RPL (Attack without Mitigation)...";;
  out ← execute true 700%Z 999999999%Z 25%Z win_default 120%Z;
  records ← if_truthy out
    (fun out =>
       setitem out "scenario" (PyStr "InsecRPL");;
       let records := records ++ [out] in
       print_pdr "   ✓ PDR = " out;;
       mret records)
    (mret records);
  (* Case 3: Secure RPL (Attack + Mitigation) *)
  print "▶ Running Secure RPL (Mitigation Enabled)...";;
  out ← execute true 700%Z 25%Z 25%Z win_default 120%Z;
  records ← if_truthy out
    (fun out =>
       setitem out "scenario" (PyStr "SecRPL");;
       let records := records ++ [out] in
       print_pdr "   ✓ PDR = " out;;
       mret records)
    (mret records);
  pd_DataFrame records.

(** Lines 123-138: the body of [for r in rates]. *)
Definition attack_variants_body (r : Z) (combined : list ref) : M (list ref) :=
  print ("▶ Attacker frequency: " +:+ str_of_Z r +:+ " packets/s");;
  (* Insecure setup *)
  res ← execute true r 999999999%Z 25%Z win_default 120%Z;
  combined ← if_truthy res
    (fun res =>
       setitem res "scenario" (PyStr "InsecRPL");;
       setitem res "attack_pps" (PyInt r);;
       mret (combined ++ [res]))
    (mret combined);
  (* Secure setup *)
  res ← execute true r 25%Z 25%Z win_default 120%Z;
  if_truthy res
    (fun res =>
       setitem res "scenario" (PyStr "SecRPL");;
       setitem res "attack_pps" (PyInt r);;
       mret (combined ++ [res]))
    (mret combined).

(** Lines 143-147: the body of the second [for r in rates]. *)
Definition reference_body (ref_ : ref) (r : Z) (combined : list ref)
  : M (list ref) :=
  temp ← dict_copy ref_;
  setitem temp "scenario" (PyStr "RPL");;
  setitem temp "attack_pps" (PyInt r);;
  mret (combined ++ [temp]).

(** [gather_attack_variants] with its local list [rates] as an argument. *)
Definition attack_variants_over (rates : list Z) : M Table :=
  banner "RUNNING ATTACK RATE EXPERIMENTS";;
  let combined : list ref := [] in
  combined ← for_each rates attack_variants_body combined;
  (* Append RPL (no attack) as reference *)
  ref_ ← execute false 700%Z 25%Z 25%Z win_default 120%Z;
  combined ← if_truthy ref_
    (fun ref_ => for_each rates (reference_body ref_) combined)
    (mret combined);
  pd_DataFrame combined.

Definition gather_attack_variants_with : M Table := attack_variants_over rates.

(** Lines 163-170: the body of [for lim in limits]. *)
Definition threshold_body (lim : Z) (collected : list ref) : M (list ref) :=
  print ("▶ Evaluating Threshold: " +:+ str_of_Z lim);;
  out ← execute true 700%Z lim 25%Z win_default 120%Z;
  if_truthy out
    (fun out =>
       setitem out "scenario" (PyStr "SecRPL");;
       setitem out "threshold" (PyInt lim);;
       let collected := collected ++ [out] in
       print_pdr "   ✓ PDR: " out;;
       mret collected)
    (mret collected).

(** [gather_threshold_tests] with its local list [limits] as an argument. *)
Definition threshold_tests_over (limits : list Z) : M Table :=
  banner "RUNNING THRESHOLD EXPERIMENTS";;
  let collected : list ref := [] in
  collected ← for_each limits threshold_body collected;
  pd_DataFrame collected.

Definition gather_threshold_tests_with : M Table := threshold_tests_over limits.

End Sweeps.

Section Campaign.
Context {P : Platform}.

Definition gather_baselines : M Table := gather_baselines_with execute_ns3.
Definition gather_attack_variants : M Table := gather_attack_variants_with execute_ns3.
Definition gather_threshold_tests : M Table := gather_threshold_tests_with execute_ns3.

(** ** Start-up checks (lines 22-29) *)

Definition module_init : M unit :=
  makedirs OUTPUT_DIR;;
  found ← path_exists NS3_ROOT;
  (if negb found then
     print ("❌ ERROR: NS-3 directory not found at " +:+ NS3_ROOT);;
     exit 1%Z
   else mret tt);;
  found ← path_exists SCRATCH_DIR;
  (if negb found then
     print ("❌ ERROR: Scratch directory missing at " +:+ SCRATCH_DIR);;
     exit 1%Z
   else mret tt).

(** ** [main] (lines 365-382)

    The embedding stops after the three sweeps and returns their data
    frames, which the rest of [main] writes to disk and plots; [None] is the
    early [return]. *)

Definition code_file : string := os_path_join SCRATCH_DIR "dioneighbour.cc".

Definition main : M (option (Table * Table * Table)) :=
  print (newline +:+ "🚀==============================================================🚀");;
  print "   AUTOMATED RPL DAO ATTACK SIMULATION & PAPER-GRADE PLOTTING";;
  print ("🚀==============================================================🚀" +:+ newline);;
  print ("📁 NS-3 Root: " +:+ NS3_ROOT);;
  print ("📁 Scratch: " +:+ SCRATCH_DIR);;
  print ("📁 Output: " +:+ OUTPUT_DIR);;
  found ← path_exists code_file;
  if negb found then
    print (newline +:+ "❌ Could not locate simulation file: " +:+ code_file);;
    mret None
  else
    print ("✅ Simulation code found." +:+ newline);;
    base_df ← gather_baselines;
    rate_df ← gather_attack_variants;
    thresh_df ← gather_threshold_tests;
    mret (Some (base_df, rate_df, thresh_df)).

(** The script run as a program: the module body, then
    [if __name__ == "__main__": main()]. *)
Definition script : M (option (Table * Table * Table)) :=
  module_init;;
  main.

End Campaign.

(** ** One run, seen from outside

    What a call of [execute_ns3] amounts to as a function of the world it
    starts in: used to state what the sweeps produce. *)

Section Outcomes.
Context {P : Platform}.

(** The content of the [try] block of [execute_ns3] in world [e]. *)
Definition parse_results (e : Env) : res dict :=
  fst (read_results (mkState e [] [] [])).

(** The world the process leaves behind. *)
Definition world_after (command : string) (e : Env) : Env :=
  snd (subprocess_run command NS3_ROOT e).

(** The items of the dict a run returns, [None] when it returns [None]. *)
Definition run_result (command : string) (e : Env) : option dict :=
  if negb (fst (subprocess_run command NS3_ROOT e) =? 0)%Z then None
  else
    match parse_results (world_after command e) with
    | Ret d => Some d
    | Raise _ => None
    end.

(** The line a run prints, if any. *)
Definition run_log (command : string) (e : Env) : list string :=
  if negb (fst (subprocess_run command NS3_ROOT e) =? 0)%Z
  then ["   ❌ Simulation failed."]
  else
    match parse_results (world_after command e) with
    | Ret _ => []
    | Raise err => ["   ❌ Error reading result files: " +:+ exn_str err]
    end.

End Outcomes.

(** A frame cut down to its first data row. *)
Definition first_row (df : CsvFrame) : CsvFrame :=
  map (fun column => (fst column, take 1 (snd column))) df.

(** The seven fields of a run result. *)
Definition result_fields : list string :=
  ["pdr"; "tx"; "rx"; "delay_ms"; "ctrl_tx"; "ctrl_rx"; "ctrl_dropped"].

Definition numeric_record (d : dict) : bool :=
  forallb (fun key => from_option is_numeric false (d !! key)) result_fields.

(** Two records carry the same run result. *)
Definition same_result (d1 d2 : dict) : Prop :=
  Forall (fun key => d1 !! key = d2 !! key) result_fields.

Definition scenario_of (d : dict) : option pyval := d !! "scenario".

Definition has_label (label : string) (d : dict) : Prop :=
  scenario_of d = Some (PyStr label).

#[global] Instance has_label_dec label d : Decision (has_label label d).
Proof. unfold has_label. apply _. Defined.

Definition count_label (label : string) (table : Table) : nat :=
  length (filter (has_label label) table).

(** A row of the attack-intensity sweep: its label and its rate. *)
Definition rate_row (label : string) (r : Z) (d : dict) : Prop :=
  has_label label d /\ d !! "attack_pps" = Some (PyInt r).

(** The rows of one rate: at most one InsecRPL row, then at most one SecRPL
    row. *)
Definition rate_block (r : Z) (block : list dict) : Prop :=
  exists insec sec : list dict,
    block = insec ++ sec /\
    length insec <= 1 /\ length sec <= 1 /\
    Forall (rate_row "InsecRPL" r) insec /\
    Forall (rate_row "SecRPL" r) sec.

(** A row of the threshold sweep recorded for threshold [lim]: labelled
    SecRPL, annotated with [lim], and with no key besides the seven result
    fields, the label and the threshold. *)
Definition threshold_record (lim : Z) (d : dict) : Prop :=
  has_label "SecRPL" d /\
  d !! "threshold" = Some (PyInt lim) /\
  d !! "attack_pps" = None /\
  dom d = list_to_set (result_fields ++ ["scenario"; "threshold"]).

(** The commands of the sweeps. *)
Section Commands.
Context {P : Platform}.

Definition reference_command : string :=
  build_command false 700 25 25 win_default 120.
Definition insecure_command (r : Z) : string :=
  build_command true r 999999999 25 win_default 120.
Definition secure_command (r : Z) : string :=
  build_command true r 25 25 win_default 120.
Definition threshold_command (lim : Z) : string :=
  build_command true 700 lim 25 win_default 120.

(** A run that succeeds in the interface's sense: the process exits with
    code zero and the three artifacts are there, well-formed, with numeric
    first rows. *)
Definition run_succeeds (command : string) (e : Env) : bool :=
  from_option numeric_record false (run_result command e).

End Commands.

(** ** The rows of the sweeps, as functions of the world

    Each sweep is characterised below by the rows its data frame holds,
    computed from the outcomes of its runs in order. *)

(** The items a recorded dict ends up with. *)
Definition labelled (label : string) (d : dict) : dict :=
  <["scenario" := PyStr label]> d.

Definition annotated (label key : string) (value : Z) (d : dict) : dict :=
  <[key := PyInt value]> (labelled label d).

(** The addresses [records] hold the dicts [rows] in store [h]. *)
Definition rows_at (h : list dict) (records : list ref) (rows : list dict)
  : Prop :=
  Forall2 (fun r d => h !! r = Some d) records rows.

Section SweepRows.
Context {P : Platform}.

(** Attack-intensity sweep: the two runs of one rate. *)
Definition rate_rows (r : Z) (e : Env) : list dict :=
  option_list (annotated "InsecRPL" "attack_pps" r
                 <$> run_result (insecure_command r) e)
  ++ option_list (annotated "SecRPL" "attack_pps" r
                    <$> run_result (secure_command r)
                          (world_after (insecure_command r) e)).

Definition rate_world (r : Z) (e : Env) : Env :=
  world_after (secure_command r) (world_after (insecure_command r) e).

Fixpoint rates_rows (rates : list Z) (e : Env) : list (list dict) :=
  match rates with
  | [] => []
  | r :: rates' => rate_rows r e :: rates_rows rates' (rate_world r e)
  end.

Fixpoint rates_world (rates : list Z) (e : Env) : Env :=
  match rates with
  | [] => e
  | r :: rates' => rates_world rates' (rate_world r e)
  end.

Definition rates_commands (rates : list Z) : list string :=
  flat_map (fun r => [insecure_command r; secure_command r]) rates.

(** The replicated reference block. *)
Definition reference_rows (rates : list Z) (e : Env) : list dict :=
  match run_result reference_command e with
  | Some d => map (fun r => annotated "RPL" "attack_pps" r d) rates
  | None => []
  end.

Definition attack_rows (rates : list Z) (e : Env) : Table :=
  concat (rates_rows rates e) ++ reference_rows rates (rates_world rates e).

(** Threshold sweep: the row of one threshold, if its run is recorded. *)
Definition threshold_row (lim : Z) (e : Env) : option dict :=
  annotated "SecRPL" "threshold" lim <$> run_result (threshold_command lim) e.

Fixpoint limits_rows (limits : list Z) (e : Env) : list (option dict) :=
  match limits with
  | [] => []
  | lim :: limits' =>
      threshold_row lim e
      :: limits_rows limits' (world_after (threshold_command lim) e)
  end.

Definition limits_commands (limits : list Z) : list string :=
  map threshold_command limits.

(** Baseline sweep: the rows of its three runs. *)
Definition baseline_rows (e : Env) : list (option dict) :=
  let e1 := world_after reference_command e in
  let e2 := world_after (insecure_command 700) e1 in
  [labelled "RPL" <$> run_result reference_command e;
   labelled "InsecRPL" <$> run_result (insecure_command 700) e1;
   labelled "SecRPL" <$> run_result (secure_command 700) e2].

Definition baseline_commands : list string :=
  [reference_command; insecure_command 700; secure_command 700].

End SweepRows.

(** [print_pdr] goes through on the row: its pdr is a number. *)
Definition pdr_printable (d : dict) : bool :=
  from_option is_numeric false (d !! "pdr").

(** ... on every recorded row. *)
Definition all_printable (rows : list (option dict)) : bool :=
  forallb (from_option pdr_printable true) rows.

(** The rows that were recorded. *)
Definition recorded (rows : list (option dict)) : Table := omap id rows.

(** ** Failed runs *)

(** The columns [execute_ns3] reads, with the artifact each comes from. *)
Definition required_columns : list (string * string) :=
  [(pdr_csv, "pdr"); (pdr_csv, "tx"); (pdr_csv, "rx");
   (delay_csv, "avg_delay_s");
   (overhead_csv, "control_tx"); (overhead_csv, "control_rx");
   (overhead_csv, "control_dropped")].

Section Failures.
Context {P : Platform}.

(** An artifact cannot be read (it is missing, empty or malformed), or it
    lacks a required column, or that column has no first row. *)
Definition artifact_unreadable (e : Env) : Prop :=
  exists path col : string,
    In (path, col) required_columns /\
    match pd_read_csv path e with
    | inl _ => True
    | inr df => exists err, first_cell df col = Raise err
    end.

(** The run of [command] in world [e] fails: non-zero exit, or an
    unreadable artifact afterwards. *)
Definition run_fails (command : string) (e : Env) : Prop :=
  fst (subprocess_run command NS3_ROOT e) <> 0%Z \/
  artifact_unreadable (world_after command e).

End Failures.

(** ** What the start-up checks print *)

Definition root_missing_message : string :=
  "❌ ERROR: NS-3 directory not found at " +:+ NS3_ROOT.
Definition scratch_missing_message : string :=
  "❌ ERROR: Scratch directory missing at " +:+ SCRATCH_DIR.
Definition code_missing_message : string :=
  newline +:+ "❌ Could not locate simulation file: " +:+ code_file.

(** The six lines [main] prints before it looks for the simulation file. *)
Definition main_header : list string :=
  [newline +:+ "🚀==============================================================🚀";
   "   AUTOMATED RPL DAO ATTACK SIMULATION & PAPER-GRADE PLOTTING";
   "🚀==============================================================🚀" +:+ newline;
   "📁 NS-3 Root: " +:+ NS3_ROOT;
   "📁 Scratch: " +:+ SCRATCH_DIR;
   "📁 Output: " +:+ OUTPUT_DIR].

(** ** Stubbed executors

    A deterministic stand-in for [execute_ns3]: what it returns depends on
    the configuration only.  It may return [None], a dict it builds anew on
    every call, or one and the same dict object on every call. *)

Definition config : Type := bool * Z * Z * Z * float * Z.

Inductive stub_outcome : Type :=
| StubNone
| StubRecord (d : dict)    (* a new dict with these items *)
| StubShared (r : ref).    (* the dict the stub keeps at this address *)

Section Stubs.
Context {P : Platform}.

Definition stub_return (outcome : stub_outcome) : M (option ref) :=
  match outcome with
  | StubNone => mret None
  | StubRecord d => r ← new_dict d; mret (Some r)
  | StubShared r => mret (Some r)
  end.

Definition stub_executor (f : config -> stub_outcome) : executor :=
  fun attack attack_rate limit node_count win duration =>
    stub_return (f (attack, attack_rate, limit, node_count, win, duration)).

(** The [if out:] block of one case of the baseline sweep. *)
Definition baseline_block (label : string) (out : option ref)
    (records : list ref) : M (list ref) :=
  if_truthy out
    (fun out =>
       setitem out "scenario" (PyStr label);;
       let records := records ++ [out] in
       print_pdr "   ✓ PDR = " out;;
       mret records)
    (mret records).

End Stubs.

(** The dicts a stub keeps exist in store [h]. *)
Definition stub_valid (f : config -> stub_outcome) (h : list dict) : Prop :=
  forall (c : config) (r : ref), f c = StubShared r -> r < length h.

(** What [print_pdr] does on a dict, as far as control goes. *)
Definition pdr_check (d : dict) : res unit :=
  match d !! "pdr" with
  | None => Raise (KeyError "pdr")
  | Some v => if is_numeric v then Ret tt else Raise ValueError
  end.

(** One case of the baseline sweep on the store and the list of records:
    the call of the stub, then the [if out:] block. *)
Definition baseline_case (label : string) (outcome : stub_outcome)
    (hr : list dict * list ref) : res (list dict * list ref) :=
  let '(h, records) := hr in
  match outcome with
  | StubNone => Ret (h, records)
  | StubRecord d =>
      if dict_truthy d then
        match pdr_check d with
        | Ret _ => Ret (h ++ [labelled label d], records ++ [length h])
        | Raise e => Raise e
        end
      else Ret (h ++ [d], records)
  | StubShared r =>
      if dict_truthy (deref h r) then
        match pdr_check (deref h r) with
        | Ret _ => Ret (alter (labelled label) r h, records ++ [r])
        | Raise e => Raise e
        end
      else Ret (h, records)
  end.

Definition res_bind {A B} (x : res A) (k : A -> res B) : res B :=
  match x with
  | Ret a => k a
  | Raise e => Raise e
  end.

(** The three cases in order, and the rows of the data frame. *)
Definition baseline_cases (f : config -> stub_outcome) (h : list dict)
  : res (list dict * Table) :=
  res_bind (baseline_case "RPL" (f (false, 700, 25, 25, win_default, 120)%Z) (h, []))
    (fun hr1 =>
  res_bind (baseline_case "InsecRPL"
              (f (true, 700, 999999999, 25, win_default, 120)%Z) hr1)
    (fun hr2 =>
  res_bind (baseline_case "SecRPL" (f (true, 700, 25, 25, win_default, 120)%Z) hr2)
    (fun hr3 => Ret (fst hr3, map (deref (fst hr3)) (snd hr3))))).

(** Two dicts that differ at most in their label, and are both empty or
    both not. *)
Definition same_but_label (d d' : dict) : Prop :=
  dict_truthy d = dict_truthy d' /\
  delete "scenario" d = delete "scenario" d'.

(** Two stores that agree, up to labels, on the first [n] addresses: the
    dicts that exist before a sweep starts. *)
Definition store_sim (n : nat) (h g : list dict) : Prop :=
  n <= length h /\ n <= length g /\
  forall r : ref, r < n -> same_but_label (deref h r) (deref g r).

(** Two records, one in each store, that hold the same items: the same old
    dict, or two dicts made since. *)
Definition record_sim (n : nat) (h g : list dict) (r1 r2 : ref) : Prop :=
  deref h r1 = deref g r2 /\
  ((r1 < n /\ r2 = r1) \/ (n <= r1 < length h /\ n <= r2 < length g)).
(** ** The command line as the interface describes it

    "A single command-line-style string naming the simulation target and a
    fixed set of [--key=value] parameters." *)

Fixpoint render_params (params : list (string * string)) : string :=
  match params with
  | [] => ""
  | (key, value) :: params' =>
      " --" +:+ key +:+ "=" +:+ value +:+ render_params params'
  end.

Definition command_line (target : string) (params : list (string * string))
  : string :=
  "./ns3 run '" +:+ target +:+ render_params params +:+ "'".

(** ** A scripted platform, for concrete runs

    The world is a set of existing paths, the CSV artifacts currently on
    disk, and the outcomes of the process runs still to come: each run pops
    one outcome, a return code with the artifacts it leaves behind. *)

Definition artifact : Type := string + CsvFrame.

Record sim_env : Type := mkSimEnv {
  sim_paths : list string;
  sim_files : list (string * artifact);
  sim_pending : list (Z * list (string * artifact))
}.

Fixpoint assoc_find {A} (key : string) (l : list (string * A)) : option A :=
  match l with
  | [] => None
  | (k, a) :: l' => if String.eqb k key then Some a else assoc_find key l'
  end.

(** The directory prefixes of a path, the path itself last. *)
Fixpoint path_prefixes (seen rest : string) : list string :=
  match rest with
  | EmptyString => [seen]
  | String c rest' =>
      (if (Ascii.eqb c "/" && negb (String.eqb seen ""))%bool then [seen] else [])
      ++ path_prefixes (seen +:+ String c EmptyString) rest'
  end.

Definition sim_exists (path : string) (e : sim_env) : bool :=
  existsb (String.eqb path) (sim_paths e).

Definition sim_makedirs (path : string) (e : sim_env) : option sim_env :=
  Some (mkSimEnv (path_prefixes "" path ++ sim_paths e) (sim_files e) (sim_pending e)).

Definition sim_run (command cwd : string) (e : sim_env) : Z * sim_env :=
  match sim_pending e with
  | [] => (1%Z, e)
  | (returncode, files) :: pending' =>
      (returncode, mkSimEnv (sim_paths e) files pending')
  end.

Definition sim_read_csv (path : string) (e : sim_env) : artifact :=
  match assoc_find path (sim_files e) with
  | Some a => a
  | None => inl "[Errno 2] No such file or directory"
  end.

Definition sim_float_str (x : float) : string :=
  if decide (x = win_default) then "1.2" else "nan".

Definition sim_platform : Platform := {|
  Env := sim_env;
  os_path_exists := sim_exists;
  os_makedirs := sim_makedirs;
  subprocess_run := sim_run;
  pd_read_csv := sim_read_csv;
  float_str := sim_float_str;
  float_format_3f := fun _ => "0.950"
|}.

(** The doubles nearest to 0.045, 45 and 0.95. *)
Definition double_0_045 : float := S754_finite false 6485183463413514 (-57).
Definition double_45 : float := S754_finite false 6333186975989760 (-47).
Definition double_0_95 : float :=
  Eval vm_compute in float_div (float_of_Z 95) (float_of_Z 100).

(** The artifacts of one well-formed run. *)
Definition pdr_frame : CsvFrame :=
  [("pdr", [NpFloat64 double_0_95]); ("tx", [NpInt64 1000]); ("rx", [NpInt64 950])].
Definition delay_frame : CsvFrame :=
  [("avg_delay_s", [NpFloat64 double_0_045])].
Definition overhead_frame : CsvFrame :=
  [("control_tx", [NpInt64 400]); ("control_rx", [NpInt64 380]);
   ("control_dropped", [NpInt64 20])].

Definition good_files : list (string * artifact) :=
  [(pdr_csv, inr pdr_frame); (delay_csv, inr delay_frame);
   (overhead_csv, inr overhead_frame)].

(** A state of the scripted platform with nothing allocated or printed. *)
Definition sim_state (paths : list string) (files : list (string * artifact))
    (pending : list (Z * list (string * artifact))) : @State sim_platform :=
  @mkState sim_platform (mkSimEnv paths files pending) [] [] [].


(** A world in which the artifacts of a well-formed run are on disk. *)
Definition sim_good_state : @State sim_platform := sim_state [] good_files [].

(** A campaign world in which every run succeeds, except the runs whose
    position is listed in [failing], which exit with code 1. *)
Fixpoint scripted_runs (n : nat) (failing : list nat)
  : list (Z * list (string * artifact)) :=
  match n with
  | O => []
  | S n' =>
      scripted_runs n' failing
      ++ [if existsb (Nat.eqb n') failing then (1%Z, []) else (0%Z, good_files)]
  end.

Definition sim_campaign_state (n : nat) (failing : list nat)
  : @State sim_platform :=
  sim_state [] [] (scripted_runs n failing).

(** The artifacts of a run whose packet-delivery ratio is not a number.
    The text [abc] is no number and none of the reader's markers of a missing
    value (such as [n/a] or [nan], which it reads as the float NaN): the
    reader yields an object column, whose cells are strings. *)
Definition text_pdr_frame : CsvFrame :=
  [("pdr", [PyStr "abc"]); ("tx", [NpInt64 1000]); ("rx", [NpInt64 950])].

Definition text_files : list (string * artifact) :=
  [(pdr_csv, inr text_pdr_frame); (delay_csv, inr delay_frame);
   (overhead_csv, inr overhead_frame)].

(** One run that exits with code 0 and leaves [text_files] behind. *)
Definition sim_text_state : @State sim_platform :=
  sim_state [] [] [(0%Z, text_files)].

(** Two stubs: one returns the same dict object whatever the configuration,
    the other builds a new dict with the same items on every call. *)
Definition sample_record : dict :=
  <["ctrl_dropped" := NpInt64 20]>
   (<["ctrl_rx" := NpInt64 380]>
    (<["ctrl_tx" := NpInt64 400]>
     (<["delay_ms" := NpFloat64 double_45]>
      (<["rx" := NpInt64 950]>
       (<["tx" := NpInt64 1000]>
        (<["pdr" := NpFloat64 double_0_95]> ∅)))))).

Definition shared_stub : config -> stub_outcome := fun _ => StubShared 0.
Definition fresh_stub : config -> stub_outcome := fun _ => StubRecord sample_record.

(** A state whose store holds the dict of [shared_stub]. *)
Definition sim_stub_state : @State sim_platform :=
  @mkState sim_platform (mkSimEnv [] [] []) [sample_record] [] [].
From Stdlib Require DecimalZ.

(** ** One run in more detail, and the campaign as a whole *)

(** The three result files, in the order [execute_ns3] reads them. *)
Definition result_files : list string := [pdr_csv; delay_csv; overhead_csv].

(** The seven lookups of the dict display of [execute_ns3], in source
    order: the frame and the column each one reads. *)
Definition result_lookups (pdr_df delay_df over_df : CsvFrame)
  : list (CsvFrame * string) :=
  [(pdr_df, "pdr"); (pdr_df, "tx"); (pdr_df, "rx");
   (delay_df, "avg_delay_s");
   (over_df, "control_tx"); (over_df, "control_rx");
   (over_df, "control_dropped")].

(** The dict display of [execute_ns3], given the seven cells. *)
Definition result_record (pdr tx rx delay ctrl_tx ctrl_rx ctrl_dropped : pyval)
  : dict :=
  <["ctrl_dropped" := ctrl_dropped]>
   (<["ctrl_rx" := ctrl_rx]>
    (<["ctrl_tx" := ctrl_tx]>
     (<["delay_ms" := mul_1000 delay]>
      (<["rx" := rx]> (<["tx" := tx]> (<["pdr" := pdr]> (∅ : dict))))))).

Definition lookup_returns (lookup : CsvFrame * string) : bool :=
  returns (first_cell (fst lookup) (snd lookup)).

(** The two failure lines of [execute_ns3]. *)
Definition simulation_failed_line : string := "   ❌ Simulation failed.".
Definition read_error_line (e : exn) : string :=
  "   ❌ Error reading result files: " +:+ exn_str e.

Section CampaignWorlds.
Context {P : Platform}.

(** The return code of the process run for [command] in world [e]. *)
Definition returncode_of (command : string) (e : Env) : Z :=
  fst (subprocess_run command NS3_ROOT e).

(** The world after the three runs of the baseline sweep. *)
Definition baseline_world (e : Env) : Env :=
  world_after (secure_command 700)
    (world_after (insecure_command 700) (world_after reference_command e)).

(** The world after the attack-intensity sweep over [rates]. *)
Definition attack_world (rates : list Z) (e : Env) : Env :=
  world_after reference_command (rates_world rates e).

(** The commands of a whole campaign, in the order [main] has them run. *)
Definition campaign_commands : list string :=
  baseline_commands ++ rates_commands rates ++ [reference_command]
  ++ limits_commands limits.

End CampaignWorlds.

(** ** An executor that hands out one dict *)

(** The stub whose every call returns the dict at address [r]. *)
Definition shared {P : Platform} (r : ref) : executor :=
  stub_executor (fun _ => StubShared r).

(** Two dicts that agree on every key but the label and the rate. *)
Definition same_off_annotation (d1 d2 : dict) : Prop :=
  forall (label : string) (r : Z),
    annotated label "attack_pps" r d1 = annotated label "attack_pps" r d2.
(** ** The report stage: CSV files, figures and summary (lines 177-397)

    After the sweeps [main] hands the three data frames to pandas for
    writing, to matplotlib for drawing, and prints a summary.  The library
    calls are recorded in the order they are made, with the labels, texts,
    paths and data they are given (styling keyword arguments such as
    [fontweight], [linewidth], [alpha] and [dpi] are left out of the
    record).  What the libraries compute from the cells (dtype inference,
    sort order, arithmetic on numpy scalars, the text of a number) and
    whether a call raises on the values it is handed is left to a
    [Library]; which calls are made, in which order and on which rows is
    the script's. *)

(** *** Data frames and selections of their rows *)

(** A data frame as the report stage sees it: the records it was built
    from, which fix its columns, and the rows currently selected, in
    order.  Selecting or sorting rows keeps the columns. *)
Record Frame : Type := mkFrame {
  frame_records : Table;
  frame_rows : list dict
}.

(** [pd.DataFrame(records)], as the sweeps return it. *)
Definition frame_of (table : Table) : Frame := mkFrame table table.

(** The columns: the keys of the records. *)
Definition columns (df : Frame) : gset string :=
  ⋃ (dom <$> frame_records df).

Definition has_column (df : Frame) (col : string) : bool :=
  bool_decide (col ∈ columns df).

(** [df.empty]: no row, or no column. *)
Definition df_empty (df : Frame) : bool :=
  bool_decide (frame_rows df = []) || bool_decide (columns df = ∅).

(** *** The calls into matplotlib *)

Module plt.

Inductive axes : Type := ax | ax1 | ax2 | ax3.

Inductive call : Type :=
| rcParams_update                  (* the serif font settings *)
| subplots (nrows ncols : nat) (width height : Z)
| plot (a : axes) (x y : list pyval) (marker color label : string)
| axhline (a : axes) (y : pyval) (color label : string)
| bar (a : axes) (x height : list pyval) (color : list string)
| text (a : axes) (bar_index : nat) (s : string)   (* centred on top of a bar *)
| set_xlabel (a : axes) (s : string)
| set_ylabel (a : axes) (s : string)
| set_title (a : axes) (s : string)
| set_ylim (a : axes) (bottom top : float)
| grid (a : axes)
| legend (a : axes)
| suptitle (s : string)
| tight_layout
| savefig (path : string)
| close.

End plt.

(** A call that leaves the interpreter: a drawing call, or a data frame
    written to a CSV file. *)
Inductive library_call : Type :=
| Plt (c : plt.call)
| ToCsv (df : Frame) (path : string).

(** *** Exceptions of the report stage *)

Inductive failure : Type :=
| Python (e : exn)                   (* as in the sweeps: KeyError on a column,
                                        IndexError, ValueError of a format *)
| MissingColumns (cols : list string)   (* KeyError of [df[[...]]] *)
| BadKey (key : pyval)               (* KeyError on a dict key that is no str *)
| LibraryError (msg : string).       (* whatever a library raises on its data *)

Inductive outcome (A : Type) : Type :=
| Done (a : A)
| Failed (e : failure).
Arguments Done {A} a.
Arguments Failed {A} e.

(** A cell that holds no str: a Python int, a numpy integer or a numpy
    float (NaN where the record lacks the key). *)
Inductive number : Type :=
| int_cell (n : Z)
| int64_cell (n : Z)
| float64_cell (x : float).

Definition number_value (c : number) : pyval :=
  match c with
  | int_cell n => PyInt n
  | int64_cell n => NpInt64 n
  | float64_cell x => NpFloat64 x
  end.

(** *** The libraries *)

Class Library {P : Platform} : Type := {
  (** [df.to_csv(path, index=False)]: the world afterwards, or the message
      of the exception *)
  df_to_csv : Frame -> string -> Env -> string + Env;
  (** [plt.savefig(path, ...)] after the calls made so far, likewise *)
  plt_savefig : list library_call -> string -> Env -> string + Env;
  (** whether matplotlib raises on a call other than [savefig], made after
      the calls made so far, and the message if it does *)
  plt_raises : list library_call -> plt.call -> option string;
  (** the cell pandas holds in column [col] of the frame built from
      [records] for a record whose item under that key is [item] and is no
      str ([None]: the record lacks the key); one dtype is inferred per
      column *)
  df_cell : Table -> string -> option pyval -> number;
  (** [df.sort_values(col)] on a frame that has the column: the rows in
      sorted order, or the message of the exception *)
  df_sort_values : Frame -> string -> string + list dict;
  (** [df[cols].to_string(index=False)] on a frame that has the columns *)
  df_to_string : Frame -> list string -> string;
  (** [1.0 / values] on a numpy array *)
  np_reciprocal : list pyval -> string + list pyval;
  (** [x - y], [x / y] and [x * y] on cells and int literals *)
  np_sub : pyval -> pyval -> string + pyval;
  np_truediv : pyval -> pyval -> string + pyval;
  np_mul : pyval -> pyval -> string + pyval;
  (** [int(x)] *)
  py_int : pyval -> string + Z;
  (** [format(x, ".1f")] and [format(x, ".2f")] of a float *)
  float_format_1f : float -> string;
  float_format_2f : float -> string
}.

(** *** The monad of the report stage: the interpreter state of the sweeps
    and the library calls made so far *)

Section ReportMonad.
Context {P : Platform} {L : Library}.

Record Session : Type := mkSession {
  program : State;
  calls : list library_call
}.

Definition R (A : Type) : Type := Session -> outcome A * Session.

#[export] Instance R_ret : MRet R := fun A a s => (Done a, s).

#[export] Instance R_bind : MBind R := fun A B f m s =>
  match m s with
  | (Done a, s') => f a s'
  | (Failed e, s') => (Failed e, s')
  end.

Definition throw {A} (e : failure) : R A := fun s => (Failed e, s).

(** A fragment of the sweeps' monad, run on the interpreter state. *)
Definition lift {A} (m : M A) : R A := fun s =>
  match m (program s) with
  | (Ret a, st) => (Done a, mkSession st (calls s))
  | (Raise e, st) => (Failed (Python e), mkSession st (calls s))
  end.

Definition of_library {A} (r : string + A) : R A :=
  match r with
  | inr a => mret a
  | inl msg => throw (LibraryError msg)
  end.

(** A drawing call other than [savefig]. *)
Definition draw (c : plt.call) : R unit := fun s =>
  match plt_raises (calls s) c with
  | Some msg => (Failed (LibraryError msg), s)
  | None => (Done tt, mkSession (program s) (calls s ++ [Plt c]))
  end.

(** [plt.savefig(path, ...)] *)
Definition savefig (path : string) : R unit := fun s =>
  let st := program s in
  match plt_savefig (calls s) path (env st) with
  | inl msg => (Failed (LibraryError msg), s)
  | inr e' =>
      (Done tt,
       mkSession (mkState e' (heap st) (stdout st) (trace st))
         (calls s ++ [Plt (plt.savefig path)]))
  end.

(** [df.to_csv(path, index=False)] *)
Definition to_csv (df : Frame) (path : string) : R unit := fun s =>
  let st := program s in
  match df_to_csv df path (env st) with
  | inl msg => (Failed (LibraryError msg), s)
  | inr e' =>
      (Done tt,
       mkSession (mkState e' (heap st) (stdout st) (trace st))
         (calls s ++ [ToCsv df path]))
  end.

(** [for x in xs: body] *)
Fixpoint for_in {A} (xs : list A) (body : A -> R unit) : R unit :=
  match xs with
  | [] => mret tt
  | x :: xs' => body x;; for_in xs' body
  end.

(** [[f(x) for x in xs]] *)
Fixpoint comprehension {A B} (f : A -> R B) (xs : list A) : R (list B) :=
  match xs with
  | [] => mret []
  | x :: xs' => y ← f x; ys ← comprehension f xs'; mret (y :: ys)
  end.

(** *** pandas on frames *)

(** The cell of row [d] in column [col].  A str is stored as it is; the
    rest is pandas' business. *)
Definition cell (df : Frame) (col : string) (d : dict) : pyval :=
  match d !! col with
  | Some (PyStr s) => PyStr s
  | item => number_value (df_cell (frame_records df) col item)
  end.

(** [df[col]], also [df[col].values]: the cells of the column, or
    [KeyError]. *)
Definition getitem_column (df : Frame) (col : string) : R (list pyval) :=
  if has_column df col then mret (map (cell df col) (frame_rows df))
  else throw (Python (KeyError col)).

(** [df[df["scenario"] == label]]: the rows that hold this label. *)
Definition getitem_label (df : Frame) (label : string) : R Frame :=
  if has_column df "scenario"
  then mret (mkFrame (frame_records df)
               (filter (has_label label) (frame_rows df)))
  else throw (Python (KeyError "scenario")).

(** [df.loc[df["scenario"] == label, col]] *)
Definition loc_label (df : Frame) (label col : string) : R (list pyval) :=
  selected ← getitem_label df label;
  getitem_column selected col.

(** [df[[col, ...]]]: the frame itself when it has the columns. *)
Definition getitem_columns (df : Frame) (cols : list string) : R Frame :=
  match filter (fun col => ~ col ∈ columns df) cols with
  | [] => mret df
  | missing => throw (MissingColumns missing)
  end.

(** [df.sort_values(col)] *)
Definition sort_values (df : Frame) (col : string) : R Frame :=
  if has_column df col
  then sorted ← of_library (df_sort_values df col);
       mret (mkFrame (frame_records df) sorted)
  else throw (Python (KeyError col)).

(** [series.iloc[0]] *)
Definition iloc_0 (series : list pyval) : R pyval :=
  match iloc0 series with
  | Ret v => mret v
  | Raise e => throw (Python e)
  end.

(** [values[i]] for [i] in range *)
Definition item (values : list pyval) (i : nat) : R pyval :=
  match values !! i with
  | Some v => mret v
  | None => throw (Python IndexError)
  end.

(** [set(labels).issubset(values)] *)
Definition issubset (labels : list string) (values : list pyval) : bool :=
  forallb (fun label => bool_decide (PyStr label ∈ values)) labels.

(** *** Formatting and dict literals *)

Definition format_with (float_format : float -> string) (v : pyval)
  : R string :=
  match v with
  | PyInt n | NpInt64 n => mret (float_format (float_of_Z n))
  | NpFloat64 x => mret (float_format x)
  | PyStr _ => throw (Python ValueError)
  end.

(** [d[key]] on a dict literal with str keys. *)
Definition literal_getitem (d : list (string * string)) (key : pyval)
  : R string :=
  match key with
  | PyStr s =>
      match assoc_find s d with
      | Some v => mret v
      | None => throw (Python (KeyError s))
      end
  | _ => throw (BadKey key)
  end.

(** A decimal literal [n / 10^k] as the nearest double. *)
Definition decimal (n scale : Z) : float :=
  float_div (float_of_Z n) (float_of_Z scale).

Definition say (line : string) : R unit := lift (print line).

(** *** [make_graphs] (lines 177-270) *)

Definition color_map : list (string * string) :=
  [("RPL", "#1f77b4"); ("InsecRPL", "#ff7f0e"); ("SecRPL", "#2ca02c")].
Definition symbols : list (string * string) :=
  [("RPL", "o"); ("InsecRPL", "s"); ("SecRPL", "^")].

Definition scenario_labels : list string := ["RPL"; "InsecRPL"; "SecRPL"].

(** The body of [for label in ["RPL", "InsecRPL", "SecRPL"]], the same in
    figures 1 to 3 up to the column plotted. *)
Definition rate_curve (rate_df : Frame) (ycol label : string) : R unit :=
  selected ← getitem_label rate_df label;
  subset ← sort_values selected "attack_pps";
  if df_empty subset then mret tt
  else
    pps ← getitem_column subset "attack_pps";
    x ← of_library (np_reciprocal pps);
    y ← getitem_column subset ycol;
    marker ← literal_getitem symbols (PyStr label);
    color ← literal_getitem color_map (PyStr label);
    draw (plt.plot plt.ax x y marker color label).

(** Figures 1 to 3: one curve per label over the attack interval.  The
    three blocks of the source differ in the column, the texts, the limits
    of the y axis (figure 2 only) and the file. *)
Definition rate_figure (rate_df : Frame) (ycol ylabel title : string)
    (ylim : option (float * float)) (file : string) : R unit :=
  if negb (df_empty rate_df) then
    draw (plt.subplots 1 1 8 5);;
    for_in scenario_labels (rate_curve rate_df ycol);;
    draw (plt.set_xlabel plt.ax "Attack Interval (s)");;
    draw (plt.set_ylabel plt.ax ylabel);;
    draw (plt.set_title plt.ax title);;
    match ylim with
    | Some (bottom, top) => draw (plt.set_ylim plt.ax bottom top)
    | None => mret tt
    end;;
    draw (plt.grid plt.ax);;
    draw (plt.legend plt.ax);;
    draw plt.tight_layout;;
    savefig (OUTPUT_DIR +:+ "/" +:+ file);;
    draw plt.close
  else mret tt.

(** [ax.axhline(y=baseline_df.loc[baseline_df["scenario"] == label,
    "pdr"].iloc[0], linestyle="--", color=color_map[label], label=name)] *)
Definition reference_line (baseline_df : Frame) (label name : string)
  : R unit :=
  series ← loc_label baseline_df label "pdr";
  y ← iloc_0 series;
  color ← literal_getitem color_map (PyStr label);
  draw (plt.axhline plt.ax y color name).

(** Figure 4: PDR over the threshold, with the two baselines as lines. *)
Definition threshold_figure (baseline_df thresh_df : Frame) : R unit :=
  if negb (df_empty thresh_df) then
    draw (plt.subplots 1 1 8 5);;
    subset ← sort_values thresh_df "threshold";
    x ← getitem_column subset "threshold";
    y ← getitem_column subset "pdr";
    color ← literal_getitem color_map (PyStr "SecRPL");
    draw (plt.plot plt.ax x y "^" color "SecRPL");;
    (if negb (df_empty baseline_df) then
       reference_line baseline_df "RPL" "RPL Base";;
       reference_line baseline_df "InsecRPL" "InsecRPL"
     else mret tt);;
    draw (plt.set_xlabel plt.ax "DAO Threshold Limit");;
    draw (plt.set_ylabel plt.ax "Packet Delivery Ratio");;
    draw (plt.set_title plt.ax "Impact of DAO Threshold on PDR");;
    draw (plt.legend plt.ax);;
    draw (plt.grid plt.ax);;
    draw plt.tight_layout;;
    savefig (OUTPUT_DIR +:+ "/pdr_vs_threshold.png");;
    draw plt.close
  else mret tt.

Definition make_graphs (baseline_df rate_df thresh_df : Frame) : R unit :=
  draw plt.rcParams_update;;
  (* Figure 1: DAO Overhead vs Attack Interval *)
  rate_figure rate_df "ctrl_rx" "DAO Packets Forwarded"
    "DAO Control Traffic vs Attack Frequency" None "dao_overhead.png";;
  (* Figure 2: PDR vs Attack Frequency *)
  rate_figure rate_df "pdr" "Packet Delivery Ratio"
    "PDR under Increasing Attack Frequency"
    (Some (decimal 7 10, decimal 10 10)) "pdr_vs_attack.png";;
  (* Figure 3: Delay vs Attack Frequency *)
  rate_figure rate_df "delay_ms" "End-to-End Delay (ms)"
    "Average Latency vs DAO Attack Frequency" None "delay_vs_attack.png";;
  (* Figure 4: PDR vs DAO Threshold *)
  threshold_figure baseline_df thresh_df.

(** *** [make_comparison_chart] (lines 275-336) *)

Definition colors : list (string * string) :=
  [("RPL", "#961fff"); ("InsecRPL", "#552903"); ("SecRPL", "#f2ff00")].

(** [for i, b in enumerate(bars): ax.text(..., f"{...}", ...)]: one text
    per bar. *)
Definition bar_texts (a : plt.axes) (bars : nat) (values : list pyval)
    (format : pyval -> R string) : R unit :=
  for_in (seq 0 bars)
    (fun i => v ← item values i; s ← format v; draw (plt.text a i s)).

Definition make_comparison_chart (baseline_df : Frame) : R unit :=
  if df_empty baseline_df then mret tt
  else
    draw plt.rcParams_update;;
    draw (plt.subplots 1 3 15 5);;
    scenarios ← getitem_column baseline_df "scenario";
    pdr_vals ← getitem_column baseline_df "pdr";
    delay_vals ← getitem_column baseline_df "delay_ms";
    ctrl_vals ← getitem_column baseline_df "ctrl_rx";
    (* PDR *)
    bar_colors ← comprehension (literal_getitem colors) scenarios;
    draw (plt.bar plt.ax1 scenarios pdr_vals bar_colors);;
    draw (plt.set_ylabel plt.ax1 "PDR");;
    draw (plt.set_title plt.ax1 "Packet Delivery Ratio");;
    draw (plt.set_ylim plt.ax1 (float_of_Z 0) (decimal 105 100));;
    draw (plt.grid plt.ax1);;
    bar_texts plt.ax1 (length scenarios) pdr_vals
      (format_with float_format_3f);;
    (* Delay *)
    bar_colors ← comprehension (literal_getitem colors) scenarios;
    draw (plt.bar plt.ax2 scenarios delay_vals bar_colors);;
    draw (plt.set_ylabel plt.ax2 "Delay (ms)");;
    draw (plt.set_title plt.ax2 "End-to-End Delay");;
    draw (plt.grid plt.ax2);;
    bar_texts plt.ax2 (length scenarios) delay_vals
      (format_with float_format_1f);;
    (* Control Overhead *)
    bar_colors ← comprehension (literal_getitem colors) scenarios;
    draw (plt.bar plt.ax3 scenarios ctrl_vals bar_colors);;
    draw (plt.set_ylabel plt.ax3 "Control Packets");;
    draw (plt.set_title plt.ax3 "Control Traffic Overhead");;
    draw (plt.grid plt.ax3);;
    bar_texts plt.ax3 (length scenarios) ctrl_vals
      (fun v => n ← of_library (py_int v); mret (str_of_Z n));;
    draw (plt.suptitle "Performance Comparison: RPL vs InsecRPL vs SecRPL");;
    draw plt.tight_layout;;
    savefig (OUTPUT_DIR +:+ "/comparison_overview.png");;
    say "✓ Saved: comparison_overview.png";;
    draw plt.close.

(** *** [summarize_results] (lines 342-360) *)

Definition summary_columns : list string :=
  ["scenario"; "pdr"; "delay_ms"; "ctrl_rx"; "ctrl_dropped"].

Definition summarize_results (baseline_df : Frame) : R unit :=
  say (newline +:+ str_repeat "=" 80);;
  say "EXPERIMENT SUMMARY";;
  say (str_repeat "=" 80);;
  if negb (df_empty baseline_df) then
    say (newline +:+ "📊 Baseline Overview:");;
    view ← getitem_columns baseline_df summary_columns;
    say (df_to_string view summary_columns);;
    scenarios ← getitem_column baseline_df "scenario";
    if issubset ["SecRPL"; "InsecRPL"] scenarios then
      series ← loc_label baseline_df "InsecRPL" "pdr";
      insec ← iloc_0 series;
      series ← loc_label baseline_df "SecRPL" "pdr";
      sec ← iloc_0 series;
      difference ← of_library (np_sub sec insec);
      ratio ← of_library (np_truediv difference insec);
      improvement ← of_library (np_mul ratio (PyInt 100));
      say (newline +:+ "✨ Improvements:");;
      s ← format_with float_format_2f improvement;
      say ("   • PDR gain via mitigation: " +:+ s +:+ "%");;
      loss ← of_library (np_sub (PyInt 1) insec);
      degradation ← of_library (np_mul loss (PyInt 100));
      s ← format_with float_format_2f degradation;
      say ("   • Attack degradation: " +:+ s +:+ "%");;
      series ← loc_label baseline_df "SecRPL" "ctrl_dropped";
      blocked ← iloc_0 series;
      n ← of_library (py_int blocked);
      say ("   • DAO packets filtered: " +:+ str_of_Z n)
    else mret tt
  else mret tt.

(** *** The report stage of [main] (lines 384-397) *)

Definition report (base_df rate_df thresh_df : Table) : R unit :=
  to_csv (frame_of base_df) (OUTPUT_DIR +:+ "/baseline.csv");;
  to_csv (frame_of rate_df) (OUTPUT_DIR +:+ "/attack_rate.csv");;
  to_csv (frame_of thresh_df) (OUTPUT_DIR +:+ "/thresholds.csv");;
  say (newline +:+ "💾 Data stored in " +:+ OUTPUT_DIR +:+ "/");;
  say (newline +:+ "📊 Creating figures...");;
  make_graphs (frame_of base_df) (frame_of rate_df) (frame_of thresh_df);;
  make_comparison_chart (frame_of base_df);;
  summarize_results (frame_of base_df);;
  say (newline +:+ "✅==============================================================✅");;
  say ("   ANALYSIS FINISHED. Graphs exported to:" +:+ " " +:+ OUTPUT_DIR);;
  say ("✅==============================================================✅" +:+ newline).

End ReportMonad.

(** *** [main], from the banner to the last line (lines 365-397) *)

Module Report.
Section Main.
Context {P : Platform} {L : Library}.

Definition main : R unit :=
  say (newline +:+ "🚀==============================================================🚀");;
  say "   AUTOMATED RPL DAO ATTACK SIMULATION & PAPER-GRADE PLOTTING";;
  say ("🚀==============================================================🚀" +:+ newline);;
  say ("📁 NS-3 Root: " +:+ NS3_ROOT);;
  say ("📁 Scratch: " +:+ SCRATCH_DIR);;
  say ("📁 Output: " +:+ OUTPUT_DIR);;
  found ← lift (path_exists code_file);
  if negb found then
    say (newline +:+ "❌ Could not locate simulation file: " +:+ code_file)
  else
    say ("✅ Simulation code found." +:+ newline);;
    base_df ← lift gather_baselines;
    rate_df ← lift gather_attack_variants;
    thresh_df ← lift gather_threshold_tests;
    report base_df rate_df thresh_df.

End Main.
End Report.

(** *** What a fragment of the report stage adds to the record of calls *)

(** The files of the figures saved by a list of calls, in order. *)
Definition saved_files (made : list library_call) : list string :=
  omap (fun c => match c with
                 | Plt (plt.savefig path) => Some path
                 | _ => None
                 end) made.

Section Records.
Context {P : Platform} {L : Library}.

(** [m] only ever adds to the record; the figures it saves are the first
    of [files], in order, and all of [files] when it returns. *)
Definition saves {A} (m : R A) (files : list string) : Prop :=
  forall s : Session,
    exists made : list library_call,
      calls (snd (m s)) = calls s ++ made /\
      saved_files made `prefix_of` files /\
      (forall a : A, fst (m s) = Done a -> saved_files made = files).

(** [m] raises, whatever the session; the figures it has saved by then are
    the first of [files]. *)
Definition fails_saving {A} (m : R A) (files : list string) : Prop :=
  forall s : Session,
    exists (e : failure) (s' : Session) (made : list library_call),
      m s = (Failed e, s') /\
      calls s' = calls s ++ made /\
      saved_files made `prefix_of` files.

(** [m] prints nothing and saves no figure. *)
Definition silent {A} (m : R A) : Prop :=
  forall s : Session,
    exists made : list library_call,
      calls (snd (m s)) = calls s ++ made /\
      saved_files made = [] /\
      stdout (program (snd (m s))) = stdout (program s).

(** [m] either raises having printed nothing and saved nothing, or has
    saved [file] and then printed [line]. *)
Definition prints_after_saving (m : R unit) (file line : string) : Prop :=
  forall s : Session,
    exists made : list library_call,
      calls (snd (m s)) = calls s ++ made /\
      (saved_files made = [] /\
       stdout (program (snd (m s))) = stdout (program s) /\
       fst (m s) <> Done tt \/
       saved_files made = [file] /\
       stdout (program (snd (m s))) = stdout (program s) ++ [line]).

(** [m] writes no CSV file: it adds drawing calls only. *)
Definition draws_only {A} (m : R A) : Prop :=
  forall s : Session,
    exists drawn : list plt.call,
      calls (snd (m s)) = calls s ++ map Plt drawn.

(** [m] returns a value that satisfies [post], or raises something other
    than [IndexError]. *)
Definition no_index_error {A} (m : R A) (post : A -> Prop) : Prop :=
  forall s : Session,
    match fst (m s) with
    | Done a => post a
    | Failed e => e <> Python IndexError
    end.

End Records.
(** ** A scripted library, for concrete runs of the report stage

    Files can be written where their directory exists; cells are kept as
    the records hold them, NaN where a key is missing; rows are sorted by
    their integer keys; no drawing call raises. *)

Definition nan : float := S754_nan.

Definition sim_cell (records : Table) (col : string) (item : option pyval)
  : number :=
  match item with
  | Some (PyInt n) => int_cell n
  | Some (NpInt64 n) => int64_cell n
  | Some (NpFloat64 x) => float64_cell x
  | _ => float64_cell nan
  end.

Definition sim_write (dir path : string) (e : sim_env) : string + sim_env :=
  if sim_exists dir e
  then inr (mkSimEnv (path :: sim_paths e) (sim_files e) (sim_pending e))
  else inl "[Errno 2] No such file or directory".

Definition sort_key (col : string) (d : dict) : Z :=
  match d !! col with
  | Some (PyInt n) | Some (NpInt64 n) => n
  | _ => 0
  end.

Fixpoint insert_sorted (col : string) (d : dict) (sorted : list dict)
  : list dict :=
  match sorted with
  | [] => [d]
  | d' :: sorted' =>
      if (sort_key col d <=? sort_key col d')%Z then d :: sorted
      else d' :: insert_sorted col d sorted'
  end.

Definition sim_sort_values (df : Frame) (col : string) : string + list dict :=
  inr (foldr (insert_sorted col) [] (frame_rows df)).

Definition to_float (v : pyval) : option float :=
  match v with
  | PyInt n | NpInt64 n => Some (float_of_Z n)
  | NpFloat64 x => Some x
  | PyStr _ => None
  end.

Definition sim_arith (op : float -> float -> float) (x y : pyval)
  : string + pyval :=
  match to_float x, to_float y with
  | Some a, Some b => inr (NpFloat64 (op a b))
  | _, _ => inl "unsupported operand type(s)"
  end.

Definition sim_int (v : pyval) : string + Z :=
  match v with
  | PyInt n | NpInt64 n => inr n
  | NpFloat64 (S754_zero _) => inr 0%Z
  | NpFloat64 (S754_finite s m e) =>
      let magnitude := (match e with
                        | Zneg p => Zpos m / 2 ^ Zpos p
                        | _ => Zpos m * 2 ^ e
                        end)%Z in
      inr (if s then - magnitude else magnitude)%Z
  | NpFloat64 _ => inl "cannot convert float NaN or infinity to integer"
  | PyStr _ => inl "invalid literal for int() with base 10"
  end.

Definition sim_to_csv (df : Frame) (path : string) (e : @Env sim_platform)
  : string + @Env sim_platform :=
  sim_write OUTPUT_DIR path e.

Definition sim_savefig (made : list library_call) (path : string)
    (e : @Env sim_platform) : string + @Env sim_platform :=
  sim_write OUTPUT_DIR path e.

Definition sim_library : @Library sim_platform := {|
  df_to_csv := sim_to_csv;
  plt_savefig := sim_savefig;
  plt_raises := fun made c => None;
  df_cell := sim_cell;
  df_sort_values := sim_sort_values;
  df_to_string := fun df cols => "scenario pdr delay_ms ctrl_rx ctrl_dropped";
  np_reciprocal := fun values =>
    inr (map (fun v => NpFloat64
                         (float_div (float_of_Z 1)
                            (default nan (to_float v)))) values);
  np_sub := sim_arith (SFsub prec emax);
  np_truediv := sim_arith float_div;
  np_mul := sim_arith float_mul;
  py_int := sim_int;
  float_format_1f := fun _ => "45.0";
  float_format_2f := fun _ => "0.00"
|}.

(** A session of the scripted platform and library in which nothing has
    been allocated, printed, run or drawn. *)
Definition sim_session (paths : list string) (files : list (string * artifact))
    (pending : list (Z * list (string * artifact)))
  : @Session sim_platform :=
  @mkSession sim_platform (sim_state paths files pending) [].

(** A machine on which the simulator cannot be started: every command
    exits with code 127 and leaves the world as it is.  Its library accepts
    every write. *)
Definition offline_platform : Platform := {|
  Env := sim_env;
  os_path_exists := sim_exists;
  os_makedirs := sim_makedirs;
  subprocess_run := fun command cwd e => (127%Z, e);
  pd_read_csv := sim_read_csv;
  float_str := sim_float_str;
  float_format_3f := fun _ => "0.950"
|}.

Definition offline_library : @Library offline_platform :=
  @Build_Library offline_platform
    (fun df path e => inr e) (fun made path e => inr e)
    (fun made c => None) sim_cell sim_sort_values
    (fun df cols => "scenario pdr delay_ms ctrl_rx ctrl_dropped")
    (fun values =>
       inr (map (fun v => NpFloat64
                            (float_div (float_of_Z 1)
                               (default nan (to_float v)))) values))
    (sim_arith (SFsub prec emax)) (sim_arith float_div) (sim_arith float_mul)
    sim_int (fun _ => "45.0") (fun _ => "0.00").

Definition offline_session (paths : list string) : @Session offline_platform :=
  @mkSession offline_platform
    (@mkState offline_platform (mkSimEnv paths [] []) [] [] []) [].
(** * Properties *)

(** ** Strings: occurrences and character counts *)

#[local] Arguments String.append !s1 s2 : simpl nomatch.

Lemma append_assoc (a b c : string) : (a +:+ b) +:+ c = a +:+ (b +:+ c).
Proof. induction a as [|x a IH]; simpl; [reflexivity | now rewrite IH]. Qed.

Lemma prefix_inv (w s : string) :
  String.prefix w s = true -> exists t, s = w +:+ t.
Proof.
  revert s. induction w as [|x w IH]; intros s Hp; simpl in *.
  - now exists s.
  - destruct s as [|y s]; simpl in Hp; [discriminate|].
    destruct (Ascii.ascii_dec x y) as [->|]; [|discriminate].
    destruct (IH _ Hp) as [t ->]. now exists t.
Qed.

Lemma prefix_append (w t : string) : String.prefix w (w +:+ t) = true.
Proof.
  induction w as [|x w IH]; simpl; [now destruct t|].
  destruct (Ascii.ascii_dec x x); [exact IH | congruence].
Qed.

Lemma contains_unfold (w s : string) :
  contains w s =
  (String.prefix w s ||
   match s with
   | EmptyString => false
   | String _ s' => contains w s'
   end).
Proof. destruct s; reflexivity. Qed.

Lemma contains_inv (w s : string) :
  contains w s = true -> exists a b, s = a +:+ w +:+ b.
Proof.
  induction s as [|y s IH]; intros Hc; rewrite contains_unfold in Hc;
    apply orb_true_iff in Hc as [Hp | Hc]; try discriminate.
  - destruct (prefix_inv _ _ Hp) as [t Ht]. exists "", t. exact Ht.
  - destruct (prefix_inv _ _ Hp) as [t Ht]. exists "", t. exact Ht.
  - destruct (IH Hc) as (a & b & ->). now exists (String y a), b.
Qed.

Lemma contains_here (w b : string) : contains w (w +:+ b) = true.
Proof.
  rewrite contains_unfold, prefix_append. reflexivity.
Qed.

Lemma contains_intro (a w b : string) : contains w (a +:+ w +:+ b) = true.
Proof.
  induction a as [|x a IH].
  - simpl. apply contains_here.
  - rewrite contains_unfold. change (String x a +:+ w +:+ b) with (String x (a +:+ w +:+ b)).
    cbv beta iota. rewrite IH. apply orb_true_r.
Qed.

Lemma count_char_app (c : ascii) (a b : string) :
  count_char c (a +:+ b) = count_char c a + count_char c b.
Proof. induction a as [|x a IH]; simpl; [reflexivity | rewrite IH; lia]. Qed.

Lemma contains_count (w s : string) (c : ascii) :
  contains w s = true -> count_char c w <= count_char c s.
Proof.
  intros Hc. destruct (contains_inv _ _ Hc) as (a & b & ->).
  rewrite !count_char_app. lia.
Qed.

(** A character that is neither a digit nor the sign does not occur in the
    decimal rendering of an integer. *)
Definition digit_or_sign (c : ascii) : bool :=
  (contains (String c EmptyString) "-0123456789").

Lemma digit_or_sign_false (c : ascii) :
  digit_or_sign c = false ->
  forallb (fun x => negb (Ascii.eqb x c))
    (list_ascii_of_string "-0123456789") = true.
Proof.
  destruct c as [[] [] [] [] [] [] [] []]; vm_compute; congruence.
Qed.

Lemma count_char_uint (c : ascii) (d : Decimal.uint) :
  digit_or_sign c = false -> count_char c (NilEmpty.string_of_uint d) = 0.
Proof.
  intros Hc. apply digit_or_sign_false in Hc.
  cbn [forallb list_ascii_of_string] in Hc.
  repeat (apply andb_true_iff in Hc as [? Hc]).
  induction d; cbn [count_char NilEmpty.string_of_uint]; try reflexivity;
    rewrite IHd;
    match goal with
    | H : negb (Ascii.eqb ?x c) = true |- (if Ascii.eqb ?x c then _ else _) + _ = _ =>
        destruct (Ascii.eqb x c); [discriminate H | reflexivity]
    end.
Qed.

Lemma count_char_str_of_Z (c : ascii) (z : Z) :
  digit_or_sign c = false -> count_char c (str_of_Z z) = 0.
Proof.
  intros Hc. unfold str_of_Z.
  pose proof (digit_or_sign_false c Hc) as Hd.
  cbn [forallb list_ascii_of_string] in Hd.
  apply andb_true_iff in Hd as [Hminus Hd]. apply andb_true_iff in Hd as [Hzero _].
  assert (Hu : forall d, count_char c (NilZero.string_of_uint d) = 0).
  { intros d. destruct d; try apply (count_char_uint c _ Hc).
    cbn [NilZero.string_of_uint count_char].
    destruct (Ascii.eqb "0" c); [discriminate Hzero | reflexivity]. }
  destruct z; cbn [Z.to_int NilZero.string_of_int count_char]; try apply Hu.
  rewrite Hu. destruct (Ascii.eqb "-" c); [discriminate Hminus | reflexivity].
Qed.

(** ** The monad, unfolded *)

Ltac unfold_monad :=
  unfold mbind, M_bind, mret, M_ret, raise, lift_res, print, exit,
    path_exists, makedirs, run_process, read_csv, new_dict, setitem,
    getitem, dict_copy, pd_DataFrame in *.

Section RunFacts.
Context {P : Platform}.

Lemma for_each_app {A S} (xs ys : list A) (body : A -> S -> M S) (acc : S)
    (st : State) :
  for_each (xs ++ ys) body acc st =
  (acc' ← for_each xs body acc; for_each ys body acc') st.
Proof.
  revert acc st. induction xs as [|x xs IH]; intros acc st; simpl.
  - reflexivity.
  - unfold mbind, M_bind in *. destruct (body x acc st) as [[acc'|e] st']; auto.
Qed.

(** *** The result parser *)

Lemma read_results_pure (st : State) :
  read_results st = (parse_results (env st), st).
Proof.
  destruct st as [e h o t].
  unfold parse_results, read_results. unfold_monad.
  cbn -[pdr_csv delay_csv overhead_csv].
  destruct (pd_read_csv pdr_csv e); [reflexivity|].
  cbn -[pdr_csv delay_csv overhead_csv].
  destruct (pd_read_csv delay_csv e); [reflexivity|].
  cbn -[pdr_csv delay_csv overhead_csv].
  destruct (pd_read_csv overhead_csv e); [reflexivity|].
  cbn -[pdr_csv delay_csv overhead_csv].
  repeat match goal with
         | |- context [first_cell ?df ?col] => destruct (first_cell df col)
         end; reflexivity.
Qed.

(** What the parser returns when it returns: one first cell per column,
    the delay multiplied by 1000, everything else as read. *)
Lemma parse_results_Ret (e : Env) (d : dict) :
  parse_results e = Ret d <->
  exists pdr_df delay_df over_df pdr tx rx delay ctrl_tx ctrl_rx ctrl_dropped,
    pd_read_csv pdr_csv e = inr pdr_df /\
    pd_read_csv delay_csv e = inr delay_df /\
    pd_read_csv overhead_csv e = inr over_df /\
    first_cell pdr_df "pdr" = Ret pdr /\
    first_cell pdr_df "tx" = Ret tx /\
    first_cell pdr_df "rx" = Ret rx /\
    first_cell delay_df "avg_delay_s" = Ret delay /\
    first_cell over_df "control_tx" = Ret ctrl_tx /\
    first_cell over_df "control_rx" = Ret ctrl_rx /\
    first_cell over_df "control_dropped" = Ret ctrl_dropped /\
    d = <["ctrl_dropped" := ctrl_dropped]>
         (<["ctrl_rx" := ctrl_rx]>
          (<["ctrl_tx" := ctrl_tx]>
           (<["delay_ms" := mul_1000 delay]>
            (<["rx" := rx]> (<["tx" := tx]> (<["pdr" := pdr]> ∅)))))).
Proof.
  unfold parse_results, read_results. unfold_monad.
  cbn -[pdr_csv delay_csv overhead_csv]. split.
  - destruct (pd_read_csv pdr_csv e) as [|pdr_df]; [discriminate|].
    cbn -[pdr_csv delay_csv overhead_csv].
    destruct (pd_read_csv delay_csv e) as [|delay_df]; [discriminate|].
    cbn -[pdr_csv delay_csv overhead_csv].
    destruct (pd_read_csv overhead_csv e) as [|over_df]; [discriminate|].
    cbn -[pdr_csv delay_csv overhead_csv].
    destruct (first_cell pdr_df "pdr") as [pdr|] eqn:?; [|discriminate].
    destruct (first_cell pdr_df "tx") as [tx|] eqn:?; [|discriminate].
    destruct (first_cell pdr_df "rx") as [rx|] eqn:?; [|discriminate].
    destruct (first_cell delay_df "avg_delay_s") as [delay|] eqn:?; [|discriminate].
    destruct (first_cell over_df "control_tx") as [ctrl_tx|] eqn:?; [|discriminate].
    destruct (first_cell over_df "control_rx") as [ctrl_rx|] eqn:?; [|discriminate].
    destruct (first_cell over_df "control_dropped") as [ctrl_dropped|] eqn:?;
      [|discriminate].
    intros [= <-]. repeat eexists; eassumption.
  - intros (pdr_df & delay_df & over_df & pdr & tx & rx & delay & ctrl_tx
            & ctrl_rx & ctrl_dropped & H1 & H2 & H3 & H4 & H5 & H6 & H7 & H8
            & H9 & H10 & ->).
    rewrite H1. cbn -[pdr_csv delay_csv overhead_csv].
    rewrite H2. cbn -[pdr_csv delay_csv overhead_csv].
    rewrite H3. cbn -[pdr_csv delay_csv overhead_csv].
    rewrite H4, H5, H6, H7, H8, H9, H10. reflexivity.
Qed.

(** The parser raises only what [except Exception] catches. *)
Lemma parse_results_Raise (e : Env) (err : exn) :
  parse_results e = Raise err -> is_Exception err = true.
Proof.
  assert (Hcell : forall df col err', first_cell df col = Raise err' ->
                                      is_Exception err' = true).
  { intros df col err'. unfold first_cell.
    induction df as [|[name cells] df IH]; simpl.
    - now intros [= <-].
    - destruct (String.eqb name col); [|exact IH].
      destruct cells; simpl; [now intros [= <-] | discriminate]. }
  unfold parse_results, read_results. unfold_monad.
  cbn -[pdr_csv delay_csv overhead_csv].
  destruct (pd_read_csv pdr_csv e) as [|pdr_df]; [now intros [= <-]|].
  cbn -[pdr_csv delay_csv overhead_csv].
  destruct (pd_read_csv delay_csv e) as [|delay_df]; [now intros [= <-]|].
  cbn -[pdr_csv delay_csv overhead_csv].
  destruct (pd_read_csv overhead_csv e) as [|over_df]; [now intros [= <-]|].
  cbn -[pdr_csv delay_csv overhead_csv].
  repeat match goal with
         | |- context [first_cell ?df ?col] =>
             let E := fresh "E" in
             destruct (first_cell df col) eqn:E;
             [| intros [= <-]; eapply Hcell; eassumption]
         end.
  discriminate.
Qed.

Lemma parse_results_truthy (e : Env) (d : dict) :
  parse_results e = Ret d -> dict_truthy d = true.
Proof.
  intros Hd. apply parse_results_Ret in Hd
    as (? & ? & ? & ? & ? & ? & ? & ? & ? & ? & _ & _ & _ & _ & _ & _ & _ & _ & _ & _ & ->).
  unfold dict_truthy. apply negb_true_iff, Nat.eqb_neq.
  apply (map_size_ne_0_lookup_2 _ "ctrl_dropped"). rewrite lookup_insert_eq. eauto.
Qed.

Lemma run_result_truthy (command : string) (e : Env) (d : dict) :
  run_result command e = Some d -> dict_truthy d = true.
Proof.
  unfold run_result.
  destruct (negb _); [discriminate|].
  destruct (parse_results _) eqn:E; [|discriminate].
  intros [= <-]. eapply parse_results_truthy, E.
Qed.

(** *** [execute_ns3] never raises: it returns the address of a new dict,
    or [None], and has run exactly its command. *)
Lemma execute_ns3_run (attack : bool) (attack_rate limit node_count : Z)
    (win : float) (duration : Z) (st : State) :
  let command := build_command attack attack_rate limit node_count win duration in
  execute_ns3 attack attack_rate limit node_count win duration st =
  (Ret (match run_result command (env st) with
        | Some _ => Some (length (heap st))
        | None => None
        end),
   mkState (world_after command (env st))
           (heap st ++ option_list (run_result command (env st)))
           (stdout st ++ run_log command (env st))
           (trace st ++ [command])).
Proof.
  intros command. unfold execute_ns3, run_result, run_log, world_after.
  fold command. unfold try_except. unfold_monad. 
  destruct (subprocess_run command NS3_ROOT (env st)) as [returncode e'] eqn:Hrun.
  simpl. destruct (negb (returncode =? 0)%Z); simpl.
  - now rewrite app_nil_r.
  - rewrite read_results_pure. simpl.
    destruct (parse_results e') as [d|err] eqn:Hparse; simpl.
    + now rewrite app_nil_r.
    + rewrite (parse_results_Raise _ _ Hparse). simpl. now rewrite app_nil_r.
Qed.

End RunFacts.

(** ** The object store *)

Lemma deref_fresh (h : list dict) (d : dict) : deref (h ++ [d]) (length h) = d.
Proof. unfold deref. now rewrite list_lookup_middle. Qed.

Lemma alter_fresh (f : dict -> dict) (h : list dict) (d : dict) :
  alter f (length h) (h ++ [d]) = h ++ [f d].
Proof.
  replace (length h) with (length h + 0) by lia. now rewrite alter_app_r.
Qed.

Lemma deref_grow (h ext : list dict) (r : ref) :
  r < length h -> deref (h ++ ext) r = deref h r.
Proof. intros Hr. unfold deref. now rewrite lookup_app_l. Qed.

Lemma rows_at_nil (h : list dict) : rows_at h [] [].
Proof. constructor. Qed.

Lemma rows_at_grow (h ext : list dict) (records : list ref) (rows : list dict) :
  rows_at h records rows -> rows_at (h ++ ext) records rows.
Proof.
  unfold rows_at. intros H. eapply Forall2_impl; [exact H|].
  intros r d Hr. cbn beta in *. now apply lookup_app_l_Some.
Qed.

Lemma rows_at_snoc (h : list dict) (records : list ref) (rows : list dict)
    (d : dict) :
  rows_at h records rows ->
  rows_at (h ++ [d]) (records ++ [length h]) (rows ++ [d]).
Proof.
  intros H. apply Forall2_app.
  - now apply rows_at_grow.
  - constructor; [|constructor]. apply list_lookup_middle. reflexivity.
Qed.

Lemma rows_at_table (h : list dict) (records : list ref) (rows : list dict) :
  rows_at h records rows -> map (deref h) records = rows.
Proof.
  induction 1 as [|r d records rows Hr _ IH]; simpl; [reflexivity|].
  unfold deref at 1. rewrite Hr. simpl. now rewrite IH.
Qed.

Lemma rows_at_length (h : list dict) (records : list ref) (rows : list dict) :
  rows_at h records rows -> length records = length rows.
Proof. apply Forall2_length. Qed.

(** ** Stepping through a fragment that calls [execute_ns3] *)

Section Stepping.
Context {P : Platform}.

Lemma if_truthy_None {A} (then_ : ref -> M A) (else_ : M A) (st : State) :
  if_truthy None then_ else_ st = else_ st.
Proof. reflexivity. Qed.

Lemma if_truthy_fresh {A} (then_ : ref -> M A) (else_ : M A) (e : Env)
    (h : list dict) (d : dict) (o t : list string) :
  dict_truthy d = true ->
  if_truthy (Some (length h)) then_ else_ (mkState e (h ++ [d]) o t) =
  then_ (length h) (mkState e (h ++ [d]) o t).
Proof. intros Hd. unfold if_truthy. simpl. now rewrite deref_fresh, Hd. Qed.

Lemma labelled_truthy (label : string) (d : dict) :
  dict_truthy (labelled label d) = true.
Proof.
  unfold dict_truthy, labelled. apply negb_true_iff, Nat.eqb_neq.
  apply (map_size_ne_0_lookup_2 _ "scenario"). rewrite lookup_insert_eq. eauto.
Qed.

End Stepping.

Ltac unfold_bind := unfold mbind, M_bind, mret, M_ret.

Ltac step_state :=
  cbn [print setitem getitem new_dict dict_copy pd_DataFrame
       env heap stdout trace option_list option_rect fmap option_fmap option_map].

Ltac step_run :=
  repeat first
    [ rewrite execute_ns3_run
    | rewrite if_truthy_None
    | rewrite if_truthy_fresh by eauto using run_result_truthy
    | rewrite alter_fresh
    | rewrite deref_fresh
    | rewrite app_nil_r
    | progress step_state ].

(** ** The attack-intensity sweep on [execute_ns3] *)

Section AttackSweep.
Context {P : Platform}.

Lemma pd_DataFrame_run (records : list ref) (rows : list dict) (st : State) :
  rows_at (heap st) records rows -> pd_DataFrame records st = (Ret rows, st).
Proof. intros H. unfold pd_DataFrame. now rewrite (rows_at_table _ _ _ H). Qed.

Lemma attack_variants_body_run (r : Z) (combined : list ref) (st : State)
    (rows : list dict) :
  rows_at (heap st) combined rows ->
  exists combined' st',
    attack_variants_body execute_ns3 r combined st = (Ret combined', st') /\
    rows_at (heap st') combined' (rows ++ rate_rows r (env st)) /\
    env st' = rate_world r (env st) /\
    trace st' = trace st ++ [insecure_command r; secure_command r].
Proof.
  intros Hrows. destruct st as [e h o t]. simpl in *.
  unfold attack_variants_body, rate_rows, rate_world,
    insecure_command, secure_command.
  unfold_bind. step_run.
  destruct (run_result (build_command true r 999999999 25 win_default 120) e)
    as [d1|] eqn:H1; step_run;
  destruct (run_result (build_command true r 25 25 win_default 120) _)
    as [d2|] eqn:H2; step_run.
  all: do 2 eexists; split; [reflexivity|]; step_state.
  all: rewrite ?app_nil_r, ?app_nil_l, ?app_assoc, <- ?(app_assoc t), ?app_nil_r.
  all: split; [repeat apply rows_at_snoc; assumption | split; reflexivity].
Qed.

Lemma attack_loop_run (rates : list Z) (combined : list ref) (st : State)
    (rows : list dict) :
  rows_at (heap st) combined rows ->
  exists combined' st',
    for_each rates (attack_variants_body execute_ns3) combined st
      = (Ret combined', st') /\
    rows_at (heap st') combined' (rows ++ concat (rates_rows rates (env st))) /\
    env st' = rates_world rates (env st) /\
    trace st' = trace st ++ rates_commands rates.
Proof.
  revert combined st rows.
  induction rates as [|r rates IH]; intros combined st rows Hrows; simpl.
  - exists combined, st. rewrite !app_nil_r. auto.
  - destruct (attack_variants_body_run r combined st rows Hrows)
      as (combined1 & st1 & Hrun & Hrows1 & Henv1 & Htrace1).
    destruct (IH combined1 st1 _ Hrows1)
      as (combined2 & st2 & Hrun2 & Hrows2 & Henv2 & Htrace2).
    exists combined2, st2. unfold_bind. rewrite Hrun, Hrun2.
    rewrite Henv1 in Hrows2, Henv2. rewrite <- app_assoc in Hrows2.
    rewrite Htrace2, Htrace1, <- app_assoc. auto.
Qed.

Lemma reference_body_run (rf : ref) (d : dict) (r : Z) (combined : list ref)
    (e : Env) (h : list dict) (o t : list string) :
  h !! rf = Some d ->
  reference_body rf r combined (mkState e h o t) =
  (Ret (combined ++ [length h]),
   mkState e (h ++ [annotated "RPL" "attack_pps" r d]) o t).
Proof.
  intros Hrf. unfold reference_body. unfold_bind. step_state.
  unfold deref. rewrite Hrf. simpl. now rewrite !alter_fresh.
Qed.

Lemma reference_loop_run (rf : ref) (d : dict) (rates : list Z)
    (combined : list ref) (st : State) (rows : list dict) :
  rows_at (heap st) combined rows ->
  heap st !! rf = Some d ->
  exists combined' st',
    for_each rates (reference_body rf) combined st = (Ret combined', st') /\
    rows_at (heap st') combined'
      (rows ++ map (fun r => annotated "RPL" "attack_pps" r d) rates) /\
    env st' = env st /\ trace st' = trace st.
Proof.
  revert combined st rows.
  induction rates as [|r rates IH]; intros combined st rows Hrows Hrf; simpl.
  - exists combined, st. rewrite app_nil_r. auto.
  - destruct st as [e h o t]. simpl in *.
    unfold_bind. rewrite (reference_body_run rf d) by assumption.
    match goal with
    | |- context [for_each rates _ ?c ?s] =>
        destruct (IH c s (rows ++ [annotated "RPL" "attack_pps" r d]))
          as (combined2 & st2 & Hrun2 & Hrows2 & Henv2 & Htrace2)
    end.
    + simpl. now apply rows_at_snoc.
    + simpl. now apply lookup_app_l_Some.
    + exists combined2, st2. rewrite Hrun2. rewrite <- app_assoc in Hrows2. auto.
Qed.

(** The data frame of the sweep is [attack_rows]; every configuration has
    been run, in order, whatever the outcomes. *)
Lemma attack_variants_over_run (rates : list Z) (st : State) :
  exists st',
    attack_variants_over execute_ns3 rates st
      = (Ret (attack_rows rates (env st)), st') /\
    trace st' = trace st ++ rates_commands rates ++ [reference_command].
Proof.
  destruct st as [e h o t].
  unfold attack_variants_over, banner. unfold_bind. step_state.
  match goal with
  | |- context [for_each rates _ [] ?s] =>
      destruct (attack_loop_run rates [] s [] (rows_at_nil _))
        as (combined1 & [e1 h1 o1 t1] & Hrun1 & Hrows1 & Henv1 & Htrace1)
  end.
  rewrite Hrun1. simpl in *. step_run.
  unfold attack_rows, reference_rows, reference_command. rewrite <- Henv1.
  destruct (run_result (build_command false 700 25 25 win_default 120) e1)
    as [d|] eqn:Href; step_run.
  - match goal with
    | |- context [for_each rates (reference_body ?rf) _ ?s] =>
        destruct (reference_loop_run rf d rates combined1 s _
                    (rows_at_grow _ [d] _ _ Hrows1))
          as (combined2 & st2 & Hrun2 & Hrows2 & Henv2 & Htrace2)
    end.
    + simpl. apply list_lookup_middle. reflexivity.
    + rewrite Hrun2. simpl. eexists. split.
      * apply pd_DataFrame_run, Hrows2.
      * rewrite Htrace2. simpl. rewrite Htrace1, <- app_assoc. reflexivity.
  - eexists. split.
    + rewrite ?app_nil_r. apply pd_DataFrame_run, Hrows1.
    + simpl. rewrite Htrace1, <- app_assoc. reflexivity.
Qed.

End AttackSweep.

(** ** The threshold and baseline sweeps on [execute_ns3] *)

Section PrintingSweeps.
Context {P : Platform}.

Lemma format_3f_numeric (v : pyval) :
  format_3f v = if is_numeric v
                then Ret (match v with
                          | PyInt n | NpInt64 n => float_format_3f (float_of_Z n)
                          | NpFloat64 x => float_format_3f x
                          | PyStr s => s
                          end)
                else Raise ValueError.
Proof. now destruct v. Qed.

Lemma run_result_pdr (command : string) (e : Env) (d : dict) :
  run_result command e = Some d -> is_Some (d !! "pdr").
Proof.
  unfold run_result. destruct (negb _); [discriminate|].
  destruct (parse_results _) eqn:E; [|discriminate]. intros [= <-].
  apply parse_results_Ret in E
    as (? & ? & ? & pdr & ? & ? & ? & ? & ? & ? & _ & _ & _ & _ & _ & _ & _ & _ & _ & _ & ->).
  exists pdr. now rewrite !lookup_insert_ne by discriminate.
Qed.

(** [print_pdr] on a dict that has a pdr: one more line, or [ValueError]. *)
Lemma print_pdr_fresh (prefix : string) (e : Env) (h : list dict) (d : dict)
    (o t : list string) :
  is_Some (d !! "pdr") ->
  exists line,
    print_pdr prefix (length h) (mkState e (h ++ [d]) o t) =
    if pdr_printable d
    then (Ret tt, mkState e (h ++ [d]) (o ++ [line]) t)
    else (Raise ValueError, mkState e (h ++ [d]) o t).
Proof.
  intros [v Hv]. unfold print_pdr, pdr_printable. unfold_bind.
  unfold getitem. step_state.
  rewrite deref_fresh, Hv. unfold lift_res. simpl.
  rewrite format_3f_numeric.
  destruct (is_numeric v); [eexists | exists prefix]; reflexivity.
Qed.

Lemma pdr_printable_insert (key : string) (v : pyval) (d : dict) :
  key <> "pdr" -> pdr_printable (<[key := v]> d) = pdr_printable d.
Proof. intros Hk. unfold pdr_printable. now rewrite lookup_insert_ne. Qed.

Lemma is_Some_pdr_insert (key : string) (v : pyval) (d : dict) :
  is_Some (d !! "pdr") -> is_Some (<[key := v]> d !! "pdr").
Proof.
  intros Hd. destruct (decide (key = "pdr")) as [->|Hk].
  - rewrite lookup_insert_eq. eauto.
  - now rewrite lookup_insert_ne.
Qed.

Ltac step_print :=
  match goal with
  | |- context [print_pdr ?p (length ?h) (mkState ?e (?h ++ [?d]) ?o ?t)] =>
      let line := fresh "line" in
      let Hp := fresh "Hp" in
      destruct (print_pdr_fresh p e h d o t) as [line Hp];
      [ repeat apply is_Some_pdr_insert; eauto using run_result_pdr
      | rewrite Hp; clear Hp ]
  end.

Lemma threshold_body_run (lim : Z) (collected : list ref) (st : State)
    (rows : list dict) :
  rows_at (heap st) collected rows ->
  exists st',
    env st' = world_after (threshold_command lim) (env st) /\
    trace st' = trace st ++ [threshold_command lim] /\
    if from_option pdr_printable true (threshold_row lim (env st))
    then exists collected',
        threshold_body execute_ns3 lim collected st = (Ret collected', st') /\
        rows_at (heap st') collected'
          (rows ++ option_list (threshold_row lim (env st)))
    else threshold_body execute_ns3 lim collected st = (Raise ValueError, st').
Proof.
  intros Hrows. destruct st as [e h o t]. simpl in *.
  unfold threshold_body, threshold_row, threshold_command.
  unfold_bind. step_run.
  destruct (run_result (build_command true 700 lim 25 win_default 120) e)
    as [d|] eqn:H1; step_run.
  - step_print. unfold annotated, labelled. cbn [from_option].
    rewrite !pdr_printable_insert by discriminate.
    destruct (pdr_printable d); eexists (mkState _ _ _ _);
      cbn [env heap stdout trace];
      (split; [reflexivity|]); (split; [reflexivity|]); [|reflexivity].
    eexists. split; [reflexivity|]. now apply rows_at_snoc.
  - eexists (mkState _ _ _ _). cbn [env heap stdout trace from_option].
    split; [reflexivity|]. split; [reflexivity|].
    eexists. split; [reflexivity|]. now rewrite ?app_nil_r.
Qed.

Lemma threshold_loop_run (limits : list Z) (collected : list ref) (st : State)
    (rows : list dict) :
  rows_at (heap st) collected rows ->
  if all_printable (limits_rows limits (env st))
  then exists collected' st',
      for_each limits (threshold_body execute_ns3) collected st
        = (Ret collected', st') /\
      rows_at (heap st') collected'
        (rows ++ recorded (limits_rows limits (env st))) /\
      trace st' = trace st ++ limits_commands limits
  else exists st',
      for_each limits (threshold_body execute_ns3) collected st
        = (Raise ValueError, st').
Proof.
  revert collected st rows.
  induction limits as [|lim limits IH]; intros collected st rows Hrows; simpl.
  - exists collected, st. rewrite !app_nil_r. auto.
  - destruct (threshold_body_run lim collected st rows Hrows)
      as (st1 & Henv1 & Htrace1 & Hbody).
    unfold_bind.
    destruct (from_option pdr_printable true (threshold_row lim (env st)));
      simpl.
    + destruct Hbody as (collected1 & Hrun1 & Hrows1). rewrite Hrun1.
      specialize (IH collected1 st1 _ Hrows1). rewrite Henv1 in IH.
      destruct (all_printable _).
      * destruct IH as (collected2 & st2 & Hrun2 & Hrows2 & Htrace2).
        exists collected2, st2. rewrite Hrun2. split; [reflexivity|]. split.
        -- unfold recorded. simpl.
           destruct (threshold_row lim (env st)); simpl in *;
             now rewrite <- ?app_assoc, ?app_nil_r in Hrows2.
        -- rewrite Htrace2, Htrace1, <- app_assoc. reflexivity.
      * destruct IH as (st2 & Hrun2). exists st2. now rewrite Hrun2.
    + rewrite Hbody. eauto.
Qed.

Lemma threshold_tests_over_run (limits : list Z) (st : State) :
  if all_printable (limits_rows limits (env st))
  then exists st',
      threshold_tests_over execute_ns3 limits st
        = (Ret (recorded (limits_rows limits (env st))), st') /\
      trace st' = trace st ++ limits_commands limits
  else exists st',
      threshold_tests_over execute_ns3 limits st = (Raise ValueError, st').
Proof.
  destruct st as [e h o t].
  unfold threshold_tests_over, banner. unfold_bind. step_state.
  match goal with
  | |- context [for_each limits _ [] ?s] =>
      pose proof (threshold_loop_run limits [] s [] (rows_at_nil _)) as Hloop
  end.
  cbn [env heap stdout trace app] in Hloop. destruct (all_printable _).
  - destruct Hloop as (collected1 & st1 & Hrun1 & Hrows1 & Htrace1).
    rewrite Hrun1. exists st1. split; [|exact Htrace1].
    apply pd_DataFrame_run, Hrows1.
  - destruct Hloop as (st1 & Hrun1). rewrite Hrun1. eauto.
Qed.

Lemma gather_baselines_run (st : State) :
  if all_printable (baseline_rows (env st))
  then exists st',
      gather_baselines st = (Ret (recorded (baseline_rows (env st))), st') /\
      trace st' = trace st ++ baseline_commands
  else exists st', gather_baselines st = (Raise ValueError, st').
Proof.
  destruct st as [e h o t].
  unfold gather_baselines, gather_baselines_with, banner, baseline_rows,
    baseline_commands, all_printable, recorded, reference_command,
    insecure_command, secure_command, labelled.
  unfold_bind. cbn [forallb omap list_omap].
  repeat first
    [ progress step_run
    | progress cbn [from_option andb id mbind option_bind app]
    | match goal with
      | |- context [if_truthy (match run_result ?c ?w with _ => _ end)] =>
          let d := fresh "d" in
          let H := fresh "Hrun" in
          destruct (run_result c w) as [d|] eqn:H
      end
    | step_print; rewrite !pdr_printable_insert by discriminate
    | match goal with
      | |- context [if pdr_printable ?d then _ else _] =>
          destruct (pdr_printable d)
      end ].
  all: try solve [eexists; reflexivity].
  all: eexists; split;
    [ apply (f_equal2 pair); [f_equal|reflexivity]; cbn [map heap];
      repeat (rewrite deref_fresh
              || rewrite deref_grow by (rewrite ?length_app; simpl; lia));
      reflexivity
    | cbn [trace]; rewrite <- ?app_assoc; reflexivity ].
Qed.

End PrintingSweeps.

(** * The claims *)

(** ** The command line *)

Section CommandLine.
Context {P : Platform}.

Lemma execute_ns3_trace (attack : bool) (attack_rate limit node_count : Z)
    (win : float) (duration : Z) (st : State) :
  trace (snd (execute_ns3 attack attack_rate limit node_count win duration st))
  = trace st ++ [build_command attack attack_rate limit node_count win duration].
Proof. now rewrite execute_ns3_run. Qed.

Lemma contains_false_by_count (c : ascii) (w s : string) :
  count_char c s < count_char c w -> contains w s = false.
Proof.
  intros Hlt. destruct (contains w s) eqn:E; [|reflexivity].
  apply (contains_count _ _ c) in E. lia.
Qed.

(** How often a character that is neither a digit nor the sign occurs in
    the command of an attack-disabled run. *)
Lemma count_char_command_false (c : ascii) (attack_rate limit node_count : Z)
    (win : float) (duration : Z) :
  digit_or_sign c = false ->
  count_char c (build_command false attack_rate limit node_count win duration)
  = count_char c "./ns3 run 'dioneighbour --attack=false --nNodes= --area=60 --rateKbps=16 --simTime='".
Proof.
  intros Hc. unfold build_command.
  rewrite !count_char_app, !(count_char_str_of_Z c) by assumption.
  change "./ns3 run 'dioneighbour --attack=false --nNodes= --area=60 --rateKbps=16 --simTime='"
    with ("./ns3 run 'dioneighbour " +:+ "--attack=false --nNodes=" +:+ " --area=60 "
          +:+ "--rateKbps=16 --simTime=" +:+ "'").
  rewrite !count_char_app. lia.
Qed.

Lemma render_params_app (pre post : list (string * string)) :
  render_params (pre ++ post) = render_params pre +:+ render_params post.
Proof.
  induction pre as [|[k v] pre IH]; simpl; [reflexivity|].
  rewrite IH. repeat (rewrite ?append_assoc; simpl). reflexivity.
Qed.

Lemma contains_of_split (a b w s : string) :
  s = a +:+ w +:+ b -> contains w s = true.
Proof. intros ->. apply contains_intro. Qed.

(** A parameter that is not the last one occurs followed by a blank. *)
Lemma contains_param (target key value : string)
    (pre post : list (string * string)) :
  post <> [] ->
  contains (" --" +:+ key +:+ "=" +:+ value +:+ " ")
    (command_line target (pre ++ (key, value) :: post)) = true.
Proof.
  intros Hpost. destruct post as [|[k' v'] post]; [congruence|].
  apply (contains_of_split
           ("./ns3 run '" +:+ target +:+ render_params pre)
           ("--" +:+ k' +:+ "=" +:+ v' +:+ render_params post +:+ "'")).
  unfold command_line. rewrite render_params_app. simpl render_params.
  repeat (rewrite ?append_assoc; simpl). reflexivity.
Qed.

(** The last parameter occurs followed by the closing quote. *)
Lemma contains_last_param (target key value : string)
    (pre : list (string * string)) :
  contains (" --" +:+ key +:+ "=" +:+ value +:+ "'")
    (command_line target (pre ++ [(key, value)])) = true.
Proof.
  apply (contains_of_split ("./ns3 run '" +:+ target +:+ render_params pre) "").
  unfold command_line. rewrite render_params_app. simpl render_params.
  repeat (rewrite ?append_assoc; simpl). reflexivity.
Qed.

(** The attack-enabled command is the target and its nine parameters. *)
Lemma build_command_attack (attack_rate limit node_count : Z) (win : float)
    (duration : Z) :
  build_command true attack_rate limit node_count win duration
  = command_line "dioneighbour"
      [("attack", "true");
       ("attackerPps", str_of_Z attack_rate);
       ("attackerPkt", "120");
       ("threshold", str_of_Z limit);
       ("windowSec", float_str win);
       ("nNodes", str_of_Z node_count);
       ("area", "60");
       ("rateKbps", "16");
       ("simTime", str_of_Z duration)].
Proof.
  unfold build_command, command_line, render_params.
  repeat (rewrite ?append_assoc; simpl). reflexivity.
Qed.

Lemma build_command_threshold (attack_rate limit node_count : Z) (win : float)
    (duration : Z) :
  contains (" --threshold=" +:+ str_of_Z limit +:+ " ")
    (build_command true attack_rate limit node_count win duration) = true.
Proof.
  rewrite build_command_attack.
  apply (contains_param _ "threshold" _ [_; _; _]). discriminate.
Qed.

End CommandLine.

(** C1. With the attack flag disabled, the command that [execute_ns3] hands
    to the external process contains none of [attackerPps], [attackerPkt],
    [threshold] and [windowSec], whatever is supplied for [attack_rate],
    [limit] and [win]: these three do not enter the command at all. *)
Theorem attack_disabled_command_has_no_attack_parameters {P : Platform}
    (attack_rate limit node_count : Z) (win : float) (duration : Z)
    (st : State) :
  let command := build_command false attack_rate limit node_count win duration in
  trace (snd (execute_ns3 false attack_rate limit node_count win duration st))
    = trace st ++ [command] /\
  contains "attackerPps" command = false /\
  contains "attackerPkt" command = false /\
  contains "threshold" command = false /\
  contains "windowSec" command = false /\
  forall attack_rate' limit' win',
    build_command false attack_rate' limit' node_count win' duration = command.
Proof.
  intros command. split; [apply execute_ns3_trace|].
  repeat split.
  - apply (contains_false_by_count "P"). unfold command.
    rewrite count_char_command_false by reflexivity. vm_compute. lia.
  - apply (contains_false_by_count "P"). unfold command.
    rewrite count_char_command_false by reflexivity. vm_compute. lia.
  - apply (contains_false_by_count "h"). unfold command.
    rewrite count_char_command_false by reflexivity. vm_compute. lia.
  - apply (contains_false_by_count "w"). unfold command.
    rewrite count_char_command_false by reflexivity. vm_compute. lia.
Qed.

(** C2. With the attack flag enabled, the command is the target followed by
    the nine parameters, among them the four attack-specific ones with
    exactly the supplied values: [attackerPps] the attack rate,
    [attackerPkt] 120, [threshold] the limit and [windowSec] the window;
    each occurs in the command, delimited, and this command is the one
    run. *)
Theorem attack_enabled_command_has_all_parameters {P : Platform}
    (attack_rate limit node_count : Z) (win : float) (duration : Z)
    (st : State) :
  let command := build_command true attack_rate limit node_count win duration in
  trace (snd (execute_ns3 true attack_rate limit node_count win duration st))
    = trace st ++ [command] /\
  command = command_line "dioneighbour"
              [("attack", "true");
               ("attackerPps", str_of_Z attack_rate);
               ("attackerPkt", "120");
               ("threshold", str_of_Z limit);
               ("windowSec", float_str win);
               ("nNodes", str_of_Z node_count);
               ("area", "60");
               ("rateKbps", "16");
               ("simTime", str_of_Z duration)] /\
  contains (" --attackerPps=" +:+ str_of_Z attack_rate +:+ " ") command = true /\
  contains " --attackerPkt=120 " command = true /\
  contains (" --threshold=" +:+ str_of_Z limit +:+ " ") command = true /\
  contains (" --windowSec=" +:+ float_str win +:+ " ") command = true /\
  contains (" --nNodes=" +:+ str_of_Z node_count +:+ " ") command = true /\
  contains " --area=60 " command = true /\
  contains " --rateKbps=16 " command = true /\
  contains (" --simTime=" +:+ str_of_Z duration +:+ "'") command = true.
Proof.
  intros command. split; [apply execute_ns3_trace|].
  assert (Hcmd := build_command_attack attack_rate limit node_count win duration).
  fold command in Hcmd.
  split; [exact Hcmd|]. rewrite Hcmd. clear Hcmd command.
  repeat split.
  - apply (contains_param _ "attackerPps" _ [_]). discriminate.
  - apply (contains_param _ "attackerPkt" "120" [_; _]). discriminate.
  - apply (contains_param _ "threshold" _ [_; _; _]). discriminate.
  - apply (contains_param _ "windowSec" _ [_; _; _; _]). discriminate.
  - apply (contains_param _ "nNodes" _ [_; _; _; _; _]). discriminate.
  - apply (contains_param _ "area" "60" [_; _; _; _; _; _]). discriminate.
  - apply (contains_param _ "rateKbps" "16" [_; _; _; _; _; _; _]). discriminate.
  - apply (contains_last_param _ "simTime" _ [_; _; _; _; _; _; _; _]).
Qed.

(** ** The result parser *)

Lemma first_cell_first_row (df : CsvFrame) (col : string) :
  first_cell (first_row df) col = first_cell df col.
Proof.
  unfold first_cell. induction df as [|[name cells] df IH]; simpl.
  - reflexivity.
  - destruct (String.eqb name col); [now destruct cells | exact IH].
Qed.

(** 45/1000 rounds to [double_0_045], which lies within half a unit in the
    last place of 0.045; [double_45] is 45. *)
Lemma double_0_045_nearest :
  float_div (float_of_Z 45) (float_of_Z 1000) = double_0_045 /\
  (2 * Z.abs (1000 * 6485183463413514 - 45 * 2 ^ 57) <= 1000)%Z.
Proof. split; [reflexivity | vm_compute; discriminate]. Qed.

Lemma double_45_exact : float_of_Z 45 = double_45.
Proof. reflexivity. Qed.

Lemma mul_1000_double_0_045 :
  mul_1000 (NpFloat64 double_0_045) = NpFloat64 double_45.
Proof. reflexivity. Qed.

(** C8. The parser takes the first cell of each of the seven columns of
    the three artifacts and nothing else: the record is the same when every
    artifact is cut down to its first row.  The delay is multiplied by
    1000, the other six values are stored as read; a first delay cell of
    0.045 gives a delay field of exactly 45.0. *)
Theorem result_parser_first_rows_and_milliseconds {P : Platform} (st : State)
    (pdr_df delay_df over_df : CsvFrame)
    (pdr tx rx delay ctrl_tx ctrl_rx ctrl_dropped : pyval) :
  pd_read_csv pdr_csv (env st) = inr pdr_df ->
  pd_read_csv delay_csv (env st) = inr delay_df ->
  pd_read_csv overhead_csv (env st) = inr over_df ->
  first_cell pdr_df "pdr" = Ret pdr ->
  first_cell pdr_df "tx" = Ret tx ->
  first_cell pdr_df "rx" = Ret rx ->
  first_cell delay_df "avg_delay_s" = Ret delay ->
  first_cell over_df "control_tx" = Ret ctrl_tx ->
  first_cell over_df "control_rx" = Ret ctrl_rx ->
  first_cell over_df "control_dropped" = Ret ctrl_dropped ->
  exists d : dict,
    read_results st = (Ret d, st) /\
    d !! "pdr" = Some pdr /\
    d !! "tx" = Some tx /\
    d !! "rx" = Some rx /\
    d !! "delay_ms" = Some (mul_1000 delay) /\
    d !! "ctrl_tx" = Some ctrl_tx /\
    d !! "ctrl_rx" = Some ctrl_rx /\
    d !! "ctrl_dropped" = Some ctrl_dropped /\
    dom d = list_to_set result_fields /\
    (forall x, delay = NpFloat64 x ->
       d !! "delay_ms" = Some (NpFloat64 (float_mul x (float_of_Z 1000)))) /\
    (delay = NpFloat64 double_0_045 ->
       d !! "delay_ms" = Some (NpFloat64 double_45)) /\
    (forall st2 : State,
       pd_read_csv pdr_csv (env st2) = inr (first_row pdr_df) ->
       pd_read_csv delay_csv (env st2) = inr (first_row delay_df) ->
       pd_read_csv overhead_csv (env st2) = inr (first_row over_df) ->
       read_results st2 = (Ret d, st2)).
Proof.
  intros H1 H2 H3 H4 H5 H6 H7 H8 H9 H10.
  eexists. split.
  { rewrite read_results_pure. f_equal. apply parse_results_Ret.
    do 10 eexists. repeat (split; [eassumption|]). reflexivity. }
  repeat split.
  all: try (now rewrite ?lookup_insert_eq, ?lookup_insert_ne by discriminate;
            rewrite ?lookup_insert_eq).
  - intros x ->. now rewrite !lookup_insert_ne, lookup_insert_eq by discriminate.
  - intros ->. now rewrite !lookup_insert_ne, lookup_insert_eq by discriminate.
  - intros st2 G1 G2 G3. rewrite read_results_pure. f_equal.
    apply parse_results_Ret. do 10 eexists.
    repeat (split; [eassumption|]).
    rewrite !first_cell_first_row.
    repeat (split; [eassumption|]). reflexivity.
Qed.

Lemma result_parser_first_rows_and_milliseconds_witness :
  exists d : dict,
    @read_results sim_platform sim_good_state = (Ret d, sim_good_state) /\
    d !! "delay_ms" = Some (NpFloat64 double_45) /\
    d !! "rx" = Some (NpInt64 950).
Proof.
  destruct (@result_parser_first_rows_and_milliseconds sim_platform
              sim_good_state pdr_frame delay_frame overhead_frame
              (NpFloat64 double_0_95) (NpInt64 1000) (NpInt64 950)
              (NpFloat64 double_0_045) (NpInt64 400) (NpInt64 380) (NpInt64 20)
              eq_refl eq_refl eq_refl eq_refl eq_refl eq_refl eq_refl eq_refl
              eq_refl eq_refl)
    as (d & Hrun & _ & _ & Hrx & _ & _ & _ & _ & _ & _ & Hdelay & _).
  exists d. split; [exact Hrun|]. split; [exact (Hdelay eq_refl) | exact Hrx].
Defined.

(** ** The attack-intensity sweep *)

Lemma has_label_annotated (label key : string) (value : Z) (d : dict)
    (label' : string) :
  key <> "scenario" ->
  has_label label' (annotated label key value d) <-> label' = label.
Proof.
  intros Hk. unfold has_label, scenario_of, annotated, labelled.
  rewrite lookup_insert_ne, lookup_insert_eq by assumption.
  split; [now intros [= ->] | now intros ->].
Qed.

Lemma rate_row_annotated (label : string) (r : Z) (d : dict) :
  rate_row label r (annotated label "attack_pps" r d).
Proof.
  split.
  - now apply has_label_annotated.
  - unfold annotated. now rewrite lookup_insert_eq.
Qed.

Lemma same_result_annotated (label key : string) (value : Z) (d : dict) :
  ~ In key result_fields -> same_result (annotated label key value d) d.
Proof.
  intros Hk. unfold same_result, result_fields in *.
  repeat constructor; unfold annotated, labelled;
    (rewrite !lookup_insert_ne; [reflexivity | discriminate |]);
    intros ->; apply Hk; simpl; tauto.
Qed.

Lemma count_label_app (label : string) (t1 t2 : Table) :
  count_label label (t1 ++ t2) = count_label label t1 + count_label label t2.
Proof. unfold count_label. now rewrite filter_app, length_app. Qed.

Lemma filter_label_none (label label' : string) (rows : list dict) :
  label <> label' ->
  Forall (has_label label') rows -> filter (has_label label) rows = [].
Proof.
  intros Hne. induction 1 as [|d rows Hd _ IH]; [reflexivity|].
  rewrite filter_cons_False; [exact IH|].
  unfold has_label in *. rewrite Hd. intros [= ->]. congruence.
Qed.

Lemma filter_label_all (label : string) (rows : list dict) :
  Forall (has_label label) rows -> filter (has_label label) rows = rows.
Proof.
  induction 1 as [|d rows Hd _ IH]; [reflexivity|].
  rewrite filter_cons_True by exact Hd. now rewrite IH.
Qed.

Lemma rate_rows_labelled (label : string) (r : Z) (rows : list dict) :
  Forall (rate_row label r) rows -> Forall (has_label label) rows.
Proof. intros H. eapply Forall_impl; [exact H|]. now intros d [Hd _]. Qed.

Section AttackRows.
Context {P : Platform}.

Lemma rate_rows_block (r : Z) (e : Env) : rate_block r (rate_rows r e).
Proof.
  unfold rate_rows. eexists _, _. split; [reflexivity|].
  destruct (run_result (insecure_command r) e);
    destruct (run_result (secure_command r) _); simpl;
    repeat split; try lia; repeat constructor;
    try apply has_label_annotated; try discriminate; try reflexivity;
    unfold annotated; now rewrite lookup_insert_eq.
Qed.

Lemma rates_rows_blocks (rs : list Z) (e : Env) :
  Forall2 rate_block rs (rates_rows rs e).
Proof.
  revert e. induction rs as [|r rs IH]; intros e; simpl; constructor.
  - apply rate_rows_block.
  - apply IH.
Qed.

(** The block of the rate at position [i] holds the rows of its two runs,
    made in the world the runs of the rates before it have left. *)
Lemma rates_rows_lookup (rs : list Z) (e : Env) (i : nat) (r : Z) :
  rs !! i = Some r ->
  rates_rows rs e !! i = Some (rate_rows r (rates_world (take i rs) e)).
Proof.
  revert e i. induction rs as [|r0 rs IH]; intros e i Hi; [discriminate|].
  destruct i as [|i]; simpl in *.
  - now injection Hi as ->.
  - now apply IH.
Qed.

Lemma rates_rows_length (rs : list Z) (e : Env) :
  length (rates_rows rs e) = length rs.
Proof. revert e. induction rs; intros e; simpl; auto. Qed.

Lemma reference_rows_cases (rs : list Z) (e : Env) :
  reference_rows rs e = [] \/
  exists d,
    run_result reference_command e = Some d /\
    reference_rows rs e = map (fun r => annotated "RPL" "attack_pps" r d) rs.
Proof.
  unfold reference_rows. destruct (run_result reference_command e); eauto.
Qed.

End AttackRows.

Lemma rate_block_length (r : Z) (block : list dict) :
  rate_block r block -> length block <= 2.
Proof.
  intros (insec & sec & -> & Hi & Hs & _). rewrite length_app. lia.
Qed.

Lemma rate_block_count (r : Z) (block : list dict) (label : string) :
  rate_block r block ->
  count_label label block <= 1 /\
  (label <> "InsecRPL" -> label <> "SecRPL" -> count_label label block = 0).
Proof.
  intros (insec & sec & -> & Hi & Hs & Fi & Fs).
  apply rate_rows_labelled in Fi, Fs.
  rewrite count_label_app. unfold count_label.
  pose proof (length_filter (has_label label) insec) as Li.
  pose proof (length_filter (has_label label) sec) as Ls.
  destruct (decide (label = "InsecRPL")) as [Hi'|Hni].
  - rewrite (filter_label_none label "SecRPL" sec) by (congruence || assumption).
    simpl. split; [lia | congruence].
  - rewrite (filter_label_none label "InsecRPL" insec) by assumption.
    destruct (decide (label = "SecRPL")) as [Hs'|Hns].
    + simpl. split; [lia | congruence].
    + rewrite (filter_label_none label "SecRPL" sec) by assumption.
      simpl. split; [lia | reflexivity].
Qed.

Lemma blocks_length (rs : list Z) (blocks : list (list dict)) :
  Forall2 rate_block rs blocks -> length (concat blocks) <= 2 * length rs.
Proof.
  induction 1 as [|r block rs blocks Hb _ IH]; simpl; [lia|].
  rewrite length_app. apply rate_block_length in Hb. lia.
Qed.

Lemma blocks_count (rs : list Z) (blocks : list (list dict)) (label : string) :
  Forall2 rate_block rs blocks ->
  count_label label (concat blocks) <= length rs /\
  (label <> "InsecRPL" -> label <> "SecRPL" ->
   count_label label (concat blocks) = 0).
Proof.
  induction 1 as [|r block rs blocks Hb _ [IH1 IH2]]; simpl.
  - split; [unfold count_label; simpl; lia | reflexivity].
  - rewrite count_label_app.
    destruct (rate_block_count r block label Hb) as [H1 H2].
    split; [lia|]. intros Hi Hs. rewrite H2, IH2 by assumption. reflexivity.
Qed.

Lemma blocks_filter_RPL (rs : list Z) (blocks : list (list dict)) :
  Forall2 rate_block rs blocks -> filter (has_label "RPL") (concat blocks) = [].
Proof.
  intros Hb. destruct (blocks_count rs blocks "RPL" Hb) as [_ H0].
  apply length_zero_iff_nil. apply H0; discriminate.
Qed.

Lemma reference_block_labelled (d : dict) (rs : list Z) :
  Forall (has_label "RPL") (map (fun r => annotated "RPL" "attack_pps" r d) rs).
Proof.
  induction rs; simpl; constructor; [|assumption].
  now apply has_label_annotated.
Qed.

Lemma reference_block_rows (d : dict) (rs : list Z) :
  Forall2 (rate_row "RPL") rs
    (map (fun r => annotated "RPL" "attack_pps" r d) rs).
Proof.
  induction rs; simpl; constructor; [|assumption]. apply rate_row_annotated.
Qed.

Lemma reference_block_rates (d : dict) (rs : list Z) :
  map (fun row : dict => row !! "attack_pps")
      (map (fun r => annotated "RPL" "attack_pps" r d) rs)
  = map (fun r => Some (PyInt r)) rs.
Proof.
  rewrite map_map. apply map_ext. intros r. unfold annotated.
  now rewrite lookup_insert_eq.
Qed.

Lemma same_result_sym_trans (d1 d2 d : dict) :
  same_result d1 d -> same_result d2 d -> same_result d1 d2.
Proof.
  unfold same_result. rewrite !Forall_forall. intros H1 H2 key Hk.
  now rewrite (H1 key Hk), (H2 key Hk).
Qed.

(** An attack-enabled command is never the attack-disabled one. *)
Lemma attack_command_neq {P : Platform} (a l n : Z) (w : float) (d : Z)
    (a' l' n' : Z) (w' : float) (d' : Z) :
  build_command true a l n w d <> build_command false a' l' n' w' d'.
Proof. unfold build_command. simpl. discriminate. Qed.

Lemma reference_command_not_in_rates {P : Platform} (rs : list Z) :
  ~ In reference_command (rates_commands rs).
Proof.
  unfold rates_commands. rewrite in_flat_map. intros (r & _ & [H|[H|[]]]);
    unfold insecure_command, secure_command, reference_command in H;
    exact (attack_command_neq _ _ _ _ _ _ _ _ _ _ H).
Qed.

Lemma rates_sorted :
  StronglySorted Z.lt rates /\ NoDup rates /\ length rates = 6.
Proof.
  split; [|split; [|reflexivity]].
  - unfold rates. repeat constructor; lia.
  - apply (bool_decide_unpack _). reflexivity.
Qed.

(** C5. Over a rate sequence of length N the attack-intensity sweep returns
    at most 3N records: at most N labelled InsecRPL, at most N labelled
    SecRPL, and N or none labelled RPL.  The attack-disabled command is run
    once, after all the others; the RPL records are the copies of its one
    result, so they agree on the seven result fields, and their rate
    annotations are the rates in order (distinct when the rates are, as the
    six rates of the script are). *)
Theorem attack_sweep_counts_and_reference {P : Platform} (rs : list Z)
    (st : State) :
  (gather_attack_variants = attack_variants_over execute_ns3 rates /\
   NoDup rates /\ length rates = 6) /\
  exists (table : Table) (st' : State),
    attack_variants_over execute_ns3 rs st = (Ret table, st') /\
    trace st' = trace st ++ rates_commands rs ++ [reference_command] /\
    ~ In reference_command (rates_commands rs) /\
    length table <= 3 * length rs /\
    count_label "InsecRPL" table <= length rs /\
    count_label "SecRPL" table <= length rs /\
    (count_label "RPL" table = length rs \/ count_label "RPL" table = 0) /\
    (forall d1 d2 : dict,
       In d1 table -> In d2 table ->
       has_label "RPL" d1 -> has_label "RPL" d2 -> same_result d1 d2) /\
    (filter (has_label "RPL") table = [] \/
     exists d : dict,
       run_result reference_command (rates_world rs (env st)) = Some d /\
       filter (has_label "RPL") table
         = map (fun r => annotated "RPL" "attack_pps" r d) rs /\
       map (fun row : dict => row !! "attack_pps")
           (filter (has_label "RPL") table)
         = map (fun r => Some (PyInt r)) rs) /\
    (NoDup rs ->
     NoDup (map (fun row : dict => row !! "attack_pps")
                (filter (has_label "RPL") table))).
Proof.
  split.
  { split; [reflexivity|]. destruct rates_sorted as (_ & ? & ?). auto. }
  destruct (attack_variants_over_run rs st) as (st' & Hrun & Htrace).
  exists (attack_rows rs (env st)), st'.
  split; [exact Hrun|]. split; [exact Htrace|].
  split; [apply reference_command_not_in_rates|].
  pose proof (rates_rows_blocks rs (env st)) as Hblocks.
  pose proof (blocks_length _ _ Hblocks) as Hlen.
  pose proof (blocks_count _ _ "InsecRPL" Hblocks) as [Hinsec _].
  pose proof (blocks_count _ _ "SecRPL" Hblocks) as [Hsec _].
  pose proof (blocks_filter_RPL _ _ Hblocks) as Hrpl.
  unfold attack_rows.
  set (blocks := concat (rates_rows rs (env st))) in *.
  set (reference := reference_rows rs (rates_world rs (env st))).
  assert (Href : reference = [] \/
                 exists d, run_result reference_command (rates_world rs (env st)) = Some d /\
                           reference = map (fun r => annotated "RPL" "attack_pps" r d) rs)
    by apply reference_rows_cases.
  assert (Hlab : Forall (has_label "RPL") reference).
  { destruct Href as [-> | (d & _ & ->)]; [constructor|].
    apply reference_block_labelled. }
  assert (Hfilter : filter (has_label "RPL") (blocks ++ reference) = reference).
  { rewrite filter_app, Hrpl. simpl. now apply filter_label_all. }
  assert (Hreflen : length reference = length rs \/ length reference = 0).
  { destruct Href as [-> | (d & _ & ->)]; [now right | left; apply length_map]. }
  assert (Hci : count_label "InsecRPL" (blocks ++ reference) <= length rs).
  { rewrite count_label_app. unfold count_label at 2.
    rewrite (filter_label_none "InsecRPL" "RPL") by (discriminate || assumption).
    simpl. lia. }
  assert (Hcs : count_label "SecRPL" (blocks ++ reference) <= length rs).
  { rewrite count_label_app. unfold count_label at 2.
    rewrite (filter_label_none "SecRPL" "RPL") by (discriminate || assumption).
    simpl. lia. }
  assert (Hcr : count_label "RPL" (blocks ++ reference) = length reference).
  { unfold count_label. now rewrite Hfilter. }
  rewrite Hcr, Hfilter, length_app.
  split; [lia|]. split; [exact Hci|]. split; [exact Hcs|].
  split; [exact Hreflen|].
  assert (Hmem : forall x, In x (blocks ++ reference) -> has_label "RPL" x ->
                           In x reference).
  { intros x Hx Lx. apply list_elem_of_In. rewrite <- Hfilter.
    apply list_elem_of_filter. split; [exact Lx|]. now apply list_elem_of_In. }
  split; [|split].
  - intros d1 d2 H1 H2 L1 L2.
    apply Hmem in H1, H2; try assumption.
    destruct Href as [-> | (d & _ & ->)]; [destruct H1|].
    apply in_map_iff in H1 as (r1 & <- & _).
    apply in_map_iff in H2 as (r2 & <- & _).
    eapply same_result_sym_trans; apply same_result_annotated;
      unfold result_fields; simpl; intuition discriminate.
  - destruct Href as [-> | (d & Hd & ->)]; [now left|].
    right. exists d. split; [exact Hd|]. split; [reflexivity|].
    apply reference_block_rates.
  - intros Hnd. destruct Href as [-> | (d & _ & ->)]; [constructor|].
    rewrite reference_block_rates.
    assert (Hinj : Inj (=) (=) (fun r : Z => Some (PyInt r)))
      by (intros x y [= ->]; reflexivity).
    exact (NoDup_fmap_2 _ rs Hnd).
Qed.

Lemma attack_sweep_counts_and_reference_witness :
  NoDup rates /\
  exists (table : Table) (st' : State),
    @gather_attack_variants sim_platform (sim_campaign_state 13 [2])
      = (Ret table, st') /\
    length table <= 18 /\
    NoDup (map (fun row : dict => row !! "attack_pps")
               (filter (has_label "RPL") table)).
Proof.
  assert (Hnd : NoDup rates) by (apply (bool_decide_unpack _); reflexivity).
  split; [exact Hnd|].
  destruct (@attack_sweep_counts_and_reference sim_platform rates
              (sim_campaign_state 13 [2]))
    as [_ (table & st' & Hrun & _ & _ & Hlen & _ & _ & _ & _ & _ & Hdistinct)].
  exists table, st'. split; [exact Hrun|]. split; [exact Hlen|].
  exact (Hdistinct Hnd).
Defined.

Example attack_sweep_one_failure :
  let table := match fst (@gather_attack_variants sim_platform
                            (sim_campaign_state 13 [2])) with
               | Ret table => table
               | Raise _ => []
               end in
  map scenario_of table
  = map (fun label => Some (PyStr label))
      ["InsecRPL"; "SecRPL"; "SecRPL"; "InsecRPL"; "SecRPL"; "InsecRPL";
       "SecRPL"; "InsecRPL"; "SecRPL"; "InsecRPL"; "SecRPL";
       "RPL"; "RPL"; "RPL"; "RPL"; "RPL"; "RPL"] /\
  map (fun row : dict => row !! "attack_pps") table
  = map (fun r => Some (PyInt r))
      [150; 150; 300; 500; 500; 700; 700; 900; 900; 1100; 1100;
       150; 300; 500; 700; 900; 1100]%Z.
Proof. vm_compute. split; reflexivity. Qed.

(** C10. The table of the attack-intensity sweep is the concatenation of
    one block per rate, in rate order, followed by the reference block.  The
    block of a rate holds the InsecRPL row of that rate exactly when its
    attack-without-mitigation run returned a record, then the SecRPL row of
    that rate exactly when its attack-with-mitigation run returned a record,
    each row being that record with label and rate added; the runs are made
    in sequence, each in the world the one before has left.  The reference
    block holds one RPL row per rate, in rate order, each a copy of the
    record of the one attack-disabled run, made after all the others, or
    nothing when that run returned no record.  So the RPL rows always sit at
    the end of the table and are never interleaved per rate. *)
Theorem attack_sweep_row_order {P : Platform} (rs : list Z) (st : State) :
  (gather_attack_variants = attack_variants_over execute_ns3 rates /\
   StronglySorted Z.lt rates) /\
  exists (table : Table) (st' : State) (blocks : list (list dict))
         (reference : list dict),
    attack_variants_over execute_ns3 rs st = (Ret table, st') /\
    trace st' = trace st ++ rates_commands rs ++ [reference_command] /\
    table = concat blocks ++ reference /\
    length blocks = length rs /\
    (forall (i : nat) (r : Z),
       rs !! i = Some r ->
       let e := rates_world (take i rs) (env st) in
       blocks !! i
       = Some (match run_result (insecure_command r) e with
               | Some d => [annotated "InsecRPL" "attack_pps" r d]
               | None => []
               end
               ++ match run_result (secure_command r)
                          (world_after (insecure_command r) e) with
                  | Some d => [annotated "SecRPL" "attack_pps" r d]
                  | None => []
                  end)) /\
    reference
    = match run_result reference_command (rates_world rs (env st)) with
      | Some d => map (fun r => annotated "RPL" "attack_pps" r d) rs
      | None => []
      end /\
    Forall2 rate_block rs blocks /\
    (reference = [] \/ Forall2 (rate_row "RPL") rs reference).
Proof.
  split; [split; [reflexivity | apply rates_sorted]|].
  destruct (attack_variants_over_run rs st) as (st' & Hrun & Htrace).
  exists (attack_rows rs (env st)), st', (rates_rows rs (env st)),
    (reference_rows rs (rates_world rs (env st))).
  split; [exact Hrun|]. split; [exact Htrace|]. split; [reflexivity|].
  split; [apply rates_rows_length|]. split.
  { intros i r Hi e. rewrite (rates_rows_lookup _ _ _ _ Hi). fold e.
    unfold rate_rows.
    destruct (run_result (insecure_command r) e);
      destruct (run_result (secure_command r) _); reflexivity. }
  split; [reflexivity|].
  split; [apply rates_rows_blocks|].
  destruct (reference_rows_cases rs (rates_world rs (env st)))
    as [-> | (d & _ & ->)]; [now left | right].
  apply reference_block_rows.
Qed.

(** With the third run failing (the InsecRPL run of rate 300), the block of
    rate 300 is its SecRPL row alone and the other blocks are unchanged. *)
Example attack_sweep_failed_run_leaves_gap :
  let table := match fst (@gather_attack_variants sim_platform
                            (sim_campaign_state 13 [2])) with
               | Ret table => table
               | Raise _ => []
               end in
  @run_result sim_platform (@insecure_command sim_platform 300)
    (@rates_world sim_platform [150%Z] (env (sim_campaign_state 13 [2])))
  = None /\
  map (fun row : dict => (scenario_of row, row !! "attack_pps")) (take 4 table)
  = [(Some (PyStr "InsecRPL"), Some (PyInt 150));
     (Some (PyStr "SecRPL"), Some (PyInt 150));
     (Some (PyStr "SecRPL"), Some (PyInt 300));
     (Some (PyStr "InsecRPL"), Some (PyInt 500))].
Proof. vm_compute. split; reflexivity. Qed.

(** ** The threshold sweep *)

Section ThresholdRows.
Context {P : Platform}.

Lemma run_result_dom (command : string) (e : Env) (d : dict) :
  run_result command e = Some d -> dom d = list_to_set result_fields.
Proof.
  unfold run_result. destruct (negb _); [discriminate|].
  destruct (parse_results _) eqn:E; [|discriminate]. intros [= <-].
  apply parse_results_Ret in E
    as (? & ? & ? & ? & ? & ? & ? & ? & ? & ? & _ & _ & _ & _ & _ & _ & _ & _ & _ & _ & ->).
  rewrite !dom_insert_L, dom_empty_L. unfold result_fields. simpl. set_solver.
Qed.

Lemma threshold_row_record (lim : Z) (e : Env) (d : dict) :
  threshold_row lim e = Some d -> threshold_record lim d.
Proof.
  unfold threshold_row.
  destruct (run_result (threshold_command lim) e) as [d0|] eqn:Hrun;
    [|discriminate].
  intros [= <-]. pose proof (run_result_dom _ _ _ Hrun) as Hdom.
  assert (Hd : dom (annotated "SecRPL" "threshold" lim d0)
               = list_to_set (result_fields ++ ["scenario"; "threshold"])).
  { unfold annotated, labelled. rewrite !dom_insert_L, Hdom.
    unfold result_fields. simpl. set_solver. }
  repeat split.
  - now apply has_label_annotated.
  - unfold annotated. now rewrite lookup_insert_eq.
  - apply not_elem_of_dom. rewrite Hd. unfold result_fields. simpl.
    rewrite !elem_of_union, !elem_of_singleton, elem_of_empty.
    intuition discriminate.
  - exact Hd.
Qed.

Lemma limits_rows_recorded (lims : list Z) (e : Env) :
  exists recorded_limits : list Z,
    sublist recorded_limits lims /\
    Forall2 threshold_record recorded_limits (recorded (limits_rows lims e)).
Proof.
  revert e. induction lims as [|lim lims IH]; intros e; simpl.
  - exists []. split; constructor.
  - destruct (IH (world_after (threshold_command lim) e)) as (rl & Hsub & Hall).
    unfold recorded in *. simpl.
    destruct (threshold_row lim e) as [d|] eqn:Hrow; simpl.
    + exists (lim :: rl). split; [now constructor|].
      constructor; [|exact Hall]. eapply threshold_row_record, Hrow.
    + exists rl. split; [now constructor | exact Hall].
Qed.

End ThresholdRows.

Lemma limits_sorted :
  StronglySorted Z.lt limits /\ NoDup limits /\ length limits = 6.
Proof.
  split; [|split; [|reflexivity]].
  - unfold limits. repeat constructor; lia.
  - apply (bool_decide_unpack _). reflexivity.
Qed.

(** C6. The threshold sweep runs, for each threshold of its ascending
    sequence in order, one attack-enabled command at the fixed rate 700.  It
    returns a data frame unless an exception is raised while a recorded
    packet-delivery ratio that is not a number is printed; the frame has at
    most one row per threshold, in sequence order: every row is labelled
    SecRPL and annotated with its threshold, and has no other key besides
    the seven result fields, in particular no [attack_pps]. *)
Theorem threshold_sweep_records {P : Platform} (lims : list Z) (st : State) :
  (gather_threshold_tests = threshold_tests_over execute_ns3 limits /\
   StronglySorted Z.lt limits /\ length limits = 6) /\
  (all_printable (limits_rows lims (env st)) = true ->
   exists (table : Table) (st' : State),
     threshold_tests_over execute_ns3 lims st = (Ret table, st')) /\
  (all_printable (limits_rows lims (env st)) = false ->
   exists st' : State,
     threshold_tests_over execute_ns3 lims st = (Raise ValueError, st')) /\
  (forall (table : Table) (st' : State),
     threshold_tests_over execute_ns3 lims st = (Ret table, st') ->
     trace st' = trace st
                 ++ map (fun lim => build_command true 700 lim 25 win_default 120)
                      lims /\
     length table <= length lims /\
     exists recorded_limits : list Z,
       sublist recorded_limits lims /\
       Forall2 threshold_record recorded_limits table).
Proof.
  split.
  { split; [reflexivity|]. destruct limits_sorted as (? & _ & ?). auto. }
  pose proof (threshold_tests_over_run lims st) as Hrun.
  destruct (all_printable (limits_rows lims (env st))).
  - destruct Hrun as (st1 & Hrun & Htrace).
    split; [eauto|]. split; [discriminate|].
    intros table st' Hret. rewrite Hrun in Hret. injection Hret as <- <-.
    split; [exact Htrace|].
    destruct (limits_rows_recorded lims (env st)) as (rl & Hsub & Hall).
    split; [|eauto].
    rewrite <- (Forall2_length _ _ _ Hall). now apply sublist_length.
  - destruct Hrun as (st1 & Hrun).
    split; [discriminate|]. split; [eauto|].
    intros table st' Hret. rewrite Hrun in Hret. discriminate.
Qed.

Lemma threshold_sweep_records_witness :
  exists (table : Table) (st' : State),
    @gather_threshold_tests sim_platform (sim_campaign_state 6 [1; 4])
      = (Ret table, st') /\
    length table <= 6 /\
    exists recorded_limits : list Z,
      sublist recorded_limits limits /\
      Forall2 threshold_record recorded_limits table.
Proof.
  destruct (@threshold_sweep_records sim_platform limits
              (sim_campaign_state 6 [1; 4]))
    as (_ & Hreturns & _ & Hrecords).
  destruct (Hreturns eq_refl) as (table & st' & Hrun).
  exists table, st'. split; [exact Hrun|].
  destruct (Hrecords table st' Hrun) as (_ & Hlen & Hrows).
  split; [exact Hlen | exact Hrows].
Defined.

Example threshold_sweep_two_failures :
  let table := match fst (@gather_threshold_tests sim_platform
                            (sim_campaign_state 6 [1; 4])) with
               | Ret table => table
               | Raise _ => []
               end in
  map (fun row : dict => (scenario_of row, row !! "threshold", row !! "attack_pps"))
      table
  = map (fun lim => (Some (PyStr "SecRPL"), Some (PyInt lim), None))
      [5; 25; 35; 70]%Z.
Proof. vm_compute. reflexivity. Qed.

(** ** The baseline sweep *)

Lemma numeric_record_printable (d : dict) :
  numeric_record d = true -> pdr_printable d = true.
Proof.
  unfold numeric_record, pdr_printable, result_fields. simpl.
  intros H. now apply andb_true_iff in H as [H _].
Qed.

Lemma recorded_length (rows : list (option dict)) :
  length (recorded rows) <= length rows.
Proof.
  unfold recorded. induction rows as [|[d|] rows IH]; cbn in *; lia.
Qed.

(** C4. The baseline sweep runs three configurations in this order: attack
    disabled, attack enabled with threshold 999999999, attack enabled with
    threshold 25.  When the three runs succeed it returns a data frame of
    exactly three rows labelled RPL, InsecRPL, SecRPL in this order.  (It
    returns whenever the recorded packet-delivery ratios are numbers, and
    whenever it returns it has run exactly these three commands.) *)
Theorem baseline_sweep_three_labelled_runs {P : Platform} (st : State) :
  let c1 := build_command false 700 25 25 win_default 120 in
  let c2 := build_command true 700 999999999 25 win_default 120 in
  let c3 := build_command true 700 25 25 win_default 120 in
  let e1 := world_after c1 (env st) in
  let e2 := world_after c2 e1 in
  (contains " --attack=false " c1 = true /\
   contains " --threshold=999999999 " c2 = true /\
   contains " --threshold=25 " c3 = true) /\
  (forall (table : Table) (st' : State),
     gather_baselines st = (Ret table, st') ->
     trace st' = trace st ++ [c1; c2; c3] /\ length table <= 3) /\
  (all_printable (baseline_rows (env st)) = true ->
   exists (table : Table) (st' : State),
     gather_baselines st = (Ret table, st')) /\
  (run_succeeds c1 (env st) = true ->
   run_succeeds c2 e1 = true ->
   run_succeeds c3 e2 = true ->
   exists (table : Table) (st' : State),
     gather_baselines st = (Ret table, st') /\
     trace st' = trace st ++ [c1; c2; c3] /\
     length table = 3 /\
     map scenario_of table
     = [Some (PyStr "RPL"); Some (PyStr "InsecRPL"); Some (PyStr "SecRPL")]).
Proof.
  intros c1 c2 c3 e1 e2.
  split.
  { split; [reflexivity|]. split.
    - apply (build_command_threshold 700 999999999).
    - apply (build_command_threshold 700 25). }
  pose proof (gather_baselines_run st) as Hrun.
  split; [|split].
  - intros table st' Hret.
    destruct (all_printable (baseline_rows (env st))).
    + destruct Hrun as (st1 & Hrun & Htrace). rewrite Hrun in Hret.
      injection Hret as <- <-. split; [exact Htrace|].
      apply (recorded_length (baseline_rows (env st))).
    + destruct Hrun as (st1 & Hrun). rewrite Hrun in Hret. discriminate.
  - intros Hp. rewrite Hp in Hrun. destruct Hrun as (st1 & Hrun & _). eauto.
  - unfold run_succeeds. intros H1 H2 H3.
    fold c1 c2 c3 in H1, H2, H3.
    unfold baseline_rows, all_printable, reference_command, insecure_command,
      secure_command in Hrun.
    fold c1 c2 c3 in Hrun. fold e1 in Hrun. fold e2 in Hrun.
    destruct (run_result c1 (env st)) as [d1|]; [|discriminate].
    destruct (run_result c2 e1) as [d2|]; [|discriminate].
    destruct (run_result c3 e2) as [d3|]; [|discriminate].
    simpl in H1, H2, H3, Hrun.
    unfold labelled in Hrun at 1 2 3.
    rewrite !pdr_printable_insert in Hrun by discriminate.
    rewrite (numeric_record_printable _ H1), (numeric_record_printable _ H2),
      (numeric_record_printable _ H3) in Hrun.
    destruct Hrun as (st1 & Hrun & Htrace).
    eexists _, st1. split; [exact Hrun|]. split; [exact Htrace|].
    split; [reflexivity|].
    unfold recorded, scenario_of, labelled. simpl.
    now rewrite !lookup_insert_eq.
Qed.

Lemma baseline_sweep_three_labelled_runs_witness :
  exists (table : Table) (st' : State),
    @gather_baselines sim_platform (sim_campaign_state 3 []) = (Ret table, st') /\
    length table = 3 /\
    map scenario_of table
    = [Some (PyStr "RPL"); Some (PyStr "InsecRPL"); Some (PyStr "SecRPL")].
Proof.
  destruct (@baseline_sweep_three_labelled_runs sim_platform
              (sim_campaign_state 3 []))
    as (_ & _ & _ & Hthree).
  destruct (Hthree eq_refl eq_refl eq_refl)
    as (table & st' & Hrun & _ & Hlen & Hlabels).
  exists table, st'. split; [exact Hrun|]. split; [exact Hlen | exact Hlabels].
Defined.

(** ** The start-up checks *)

(** What the scripted platform's [os.makedirs] does to the three paths the
    script checks: the root directory exists afterwards, the scratch
    directory and the source file exist exactly when they did before. *)
Lemma sim_makedirs_checked_paths (e e1 : sim_env) :
  sim_makedirs OUTPUT_DIR e = Some e1 ->
  sim_exists NS3_ROOT e1 = true /\
  sim_exists SCRATCH_DIR e1 = sim_exists SCRATCH_DIR e /\
  sim_exists code_file e1 = sim_exists code_file e.
Proof.
  intros Hmk.
  assert (e1 = mkSimEnv (path_prefixes "" OUTPUT_DIR ++ sim_paths e)
                 (sim_files e) (sim_pending e)) as ->
    by (unfold sim_makedirs in Hmk; congruence).
  unfold sim_exists. cbn [sim_paths].
  rewrite !existsb_app. split; [|split].
  - apply orb_true_iff. left. vm_compute. reflexivity.
  - replace (existsb (String.eqb SCRATCH_DIR) (path_prefixes "" OUTPUT_DIR))
      with false by (vm_compute; reflexivity).
    reflexivity.
  - replace (existsb (String.eqb code_file) (path_prefixes "" OUTPUT_DIR))
      with false by (vm_compute; reflexivity).
    reflexivity.
Qed.

(** C7. The script runs no command and no sweep when the simulator's root
    directory, its scratch directory or the simulation source
    [dioneighbour.cc] does not exist when it is started.  The output
    directory, which lies inside the root directory, is created first; the
    file system is one where [os.makedirs], when it returns, has left the
    root directory in existence and has neither created nor removed the
    scratch directory and the source file.  Then:
    - if [os.makedirs] raises, the exception ends the script at once;
    - if the root directory is absent, and with it the scratch directory
      inside it, [os.makedirs] creates the root directory, the check of the
      root directory passes, and the script prints "Scratch directory
      missing" and exits with status 1;
    - if the scratch directory is absent, the same;
    - if the scratch directory exists and the source file is absent, [main]
      prints its header and "Could not locate simulation file" and returns
      before the first sweep.
    In each case the list of commands run is as it was. *)
Theorem startup_checks_refuse_to_run {P : Platform} (st : State) :
  (forall e e1 : Env,
     os_makedirs OUTPUT_DIR e = Some e1 ->
     os_path_exists NS3_ROOT e1 = true /\
     os_path_exists SCRATCH_DIR e1 = os_path_exists SCRATCH_DIR e /\
     os_path_exists code_file e1 = os_path_exists code_file e) ->
  (os_makedirs OUTPUT_DIR (env st) = None ->
   script st = (Raise OSError, st)) /\
  (forall e1 : Env,
     os_makedirs OUTPUT_DIR (env st) = Some e1 ->
     (os_path_exists NS3_ROOT (env st) = false ->
      (os_path_exists SCRATCH_DIR (env st) = true ->
       os_path_exists NS3_ROOT (env st) = true) ->
      os_path_exists NS3_ROOT e1 = true /\
      script st
      = (Raise (SystemExit 1),
         mkState e1 (heap st) (stdout st ++ [scratch_missing_message])
           (trace st)))
     /\
     (os_path_exists SCRATCH_DIR (env st) = false ->
      script st
      = (Raise (SystemExit 1),
         mkState e1 (heap st) (stdout st ++ [scratch_missing_message])
           (trace st)))
     /\
     (os_path_exists SCRATCH_DIR (env st) = true ->
      os_path_exists code_file (env st) = false ->
      script st
      = (Ret None,
         mkState e1 (heap st)
           (stdout st ++ main_header ++ [code_missing_message]) (trace st)))).
Proof.
  intros Hfs. destruct st as [e h o t]. cbn [env heap stdout trace]. split.
  - intros Hmk. unfold script, module_init. unfold_bind.
    unfold makedirs. cbn [env]. rewrite Hmk. reflexivity.
  - intros e1 Hmk. destruct (Hfs _ _ Hmk) as (Hroot & Hscratch & Hcode).
    assert (Hexit : os_path_exists SCRATCH_DIR e = false ->
                    script (mkState e h o t)
                    = (Raise (SystemExit 1),
                       mkState e1 h (o ++ [scratch_missing_message]) t)).
    { intros H2. unfold script, module_init, main. unfold_bind.
      unfold makedirs, path_exists, exit, raise. cbn [env heap stdout trace].
      rewrite Hmk. cbn [env heap stdout trace print].
      rewrite Hroot. cbn [negb env heap stdout trace].
      rewrite Hscratch, H2. reflexivity. }
    split; [|split].
    + intros H1 Hinside. split; [exact Hroot|]. apply Hexit.
      destruct (os_path_exists SCRATCH_DIR e); [|reflexivity].
      rewrite Hinside in H1 by reflexivity. discriminate H1.
    + exact Hexit.
    + intros H2 H3. unfold script, module_init, main. unfold_bind.
      unfold makedirs, path_exists, exit, raise. cbn [env heap stdout trace].
      rewrite Hmk. cbn [env heap stdout trace print].
      rewrite Hroot. cbn [negb env heap stdout trace].
      rewrite Hscratch, H2. cbn [negb env heap stdout trace].
      rewrite Hcode, H3. cbn [negb env heap stdout trace].
      unfold main_header, code_missing_message.
      rewrite <- !app_assoc. reflexivity.
Qed.

(** Started on an empty file system, where the root directory is absent,
    with three runs scripted: the root directory is created, the scratch
    check stops the script, no run is made. *)
Lemma startup_checks_refuse_to_run_witness :
  @os_path_exists sim_platform NS3_ROOT
    (env (sim_state [] good_files (scripted_runs 3 []))) = false /\
  @script sim_platform (sim_state [] good_files (scripted_runs 3 []))
  = (Raise (SystemExit 1),
     @mkState sim_platform
       (mkSimEnv (path_prefixes "" OUTPUT_DIR) good_files (scripted_runs 3 []))
       [] [scratch_missing_message] []).
Proof.
  split; [vm_compute; reflexivity|].
  destruct (@startup_checks_refuse_to_run sim_platform
              (sim_state [] good_files (scripted_runs 3 []))
              sim_makedirs_checked_paths)
    as (_ & Hchecks).
  destruct (Hchecks (mkSimEnv (path_prefixes "" OUTPUT_DIR) good_files
                       (scripted_runs 3 [])))
    as (Hroot & _ & _).
  - vm_compute. reflexivity.
  - destruct Hroot as [_ Hrun].
    + vm_compute. reflexivity.
    + intros Hscratch. vm_compute in Hscratch. discriminate Hscratch.
    + exact Hrun.
Defined.

(** On a file system where creating the output directory creates its
    missing parents, a missing root directory is reported as a missing
    scratch directory; a missing source file stops [main]. *)
Example startup_on_empty_file_system :
  fst (@script sim_platform (sim_state [] [] [])) = Raise (SystemExit 1) /\
  stdout (snd (@script sim_platform (sim_state [] [] [])))
  = [scratch_missing_message] /\
  trace (snd (@script sim_platform (sim_state [] [] []))) = [].
Proof. vm_compute. repeat split. Qed.

Example startup_without_source_file :
  fst (@script sim_platform
         (sim_state [NS3_ROOT; SCRATCH_DIR] [] (scripted_runs 25 [])))
  = Ret None /\
  trace (snd (@script sim_platform
                (sim_state [NS3_ROOT; SCRATCH_DIR] [] (scripted_runs 25 []))))
  = [].
Proof. vm_compute. repeat split. Qed.

(** With the three paths in place the campaign runs its 3 + 13 + 6
    commands. *)
Example startup_with_everything_in_place :
  length (trace (snd (@script sim_platform
                        (sim_state [NS3_ROOT; SCRATCH_DIR; code_file] []
                           (scripted_runs 22 [])))))
  = 22.
Proof. vm_compute. reflexivity. Qed.

(** ** Failed runs *)

Section FailedRuns.
Context {P : Platform}.

Lemma first_cell_Raise (df : CsvFrame) (col : string) (err : exn) :
  first_cell df col = Raise err -> err = KeyError col \/ err = IndexError.
Proof.
  unfold first_cell. induction df as [|[name cells] df IH]; simpl.
  - intros [= <-]. now left.
  - destruct (String.eqb name col); [|exact IH].
    destruct cells; simpl; [intros [= <-]; now right | discriminate].
Qed.

Lemma artifact_unreadable_parse (e : Env) :
  artifact_unreadable e -> exists err, parse_results e = Raise err.
Proof.
  intros (path & col & Hin & Hbad).
  destruct (parse_results e) as [d|err] eqn:Hparse; [|eauto]. exfalso.
  apply parse_results_Ret in Hparse
    as (pdr_df & delay_df & over_df & ? & ? & ? & ? & ? & ? & ?
        & R1 & R2 & R3 & C1 & C2 & C3 & C4 & C5 & C6 & C7 & _).
  unfold required_columns in Hin. simpl in Hin.
  repeat (destruct Hin as [[= <- <-] | Hin];
          [ first [ rewrite R1 in Hbad | rewrite R2 in Hbad | rewrite R3 in Hbad ];
            destruct Hbad as [err Hbad]; congruence | ]).
  destruct Hin.
Qed.

Lemma run_fails_result (command : string) (e : Env) :
  run_fails command e <-> run_result command e = None.
Proof.
  unfold run_fails, run_result. split.
  - intros [Hrc | Hbad].
    + apply Z.eqb_neq in Hrc. now rewrite Hrc.
    + destruct (negb _); [reflexivity|].
      destruct (artifact_unreadable_parse _ Hbad) as [err ->]. reflexivity.
  - destruct (fst (subprocess_run command NS3_ROOT e) =? 0)%Z eqn:Hrc; simpl.
    + destruct (parse_results (world_after command e)) as [d|err] eqn:Hparse;
        [discriminate|]. intros _. right.
      unfold parse_results, read_results in Hparse. revert Hparse.
      unfold_monad. cbn -[pdr_csv delay_csv overhead_csv].
      set (w := world_after command e).
      assert (Hcol : forall path col,
                 In (path, col) required_columns ->
                 match pd_read_csv path w with
                 | inl _ => True
                 | inr df => exists err, first_cell df col = Raise err
                 end -> artifact_unreadable w)
        by (intros path col Hin Hbad; exists path, col; auto).
      destruct (pd_read_csv pdr_csv w) as [|pdr_df] eqn:R1.
      { intros _. apply (Hcol pdr_csv "pdr"); [simpl; tauto|]. now rewrite R1. }
      cbn -[pdr_csv delay_csv overhead_csv].
      destruct (pd_read_csv delay_csv w) as [|delay_df] eqn:R2.
      { intros _. apply (Hcol delay_csv "avg_delay_s"); [simpl; tauto|].
        now rewrite R2. }
      cbn -[pdr_csv delay_csv overhead_csv].
      destruct (pd_read_csv overhead_csv w) as [|over_df] eqn:R3.
      { intros _. apply (Hcol overhead_csv "control_tx"); [simpl; tauto|].
        now rewrite R3. }
      cbn -[pdr_csv delay_csv overhead_csv].
      destruct (first_cell pdr_df "pdr") eqn:C1;
        [|intros _; apply (Hcol pdr_csv "pdr"); [simpl; tauto|]; rewrite R1; eauto].
      destruct (first_cell pdr_df "tx") eqn:C2;
        [|intros _; apply (Hcol pdr_csv "tx"); [simpl; tauto|]; rewrite R1; eauto].
      destruct (first_cell pdr_df "rx") eqn:C3;
        [|intros _; apply (Hcol pdr_csv "rx"); [simpl; tauto|]; rewrite R1; eauto].
      destruct (first_cell delay_df "avg_delay_s") eqn:C4;
        [|intros _; apply (Hcol delay_csv "avg_delay_s"); [simpl; tauto|];
          rewrite R2; eauto].
      destruct (first_cell over_df "control_tx") eqn:C5;
        [|intros _; apply (Hcol overhead_csv "control_tx"); [simpl; tauto|];
          rewrite R3; eauto].
      destruct (first_cell over_df "control_rx") eqn:C6;
        [|intros _; apply (Hcol overhead_csv "control_rx"); [simpl; tauto|];
          rewrite R3; eauto].
      destruct (first_cell over_df "control_dropped") eqn:C7;
        [|intros _; apply (Hcol overhead_csv "control_dropped"); [simpl; tauto|];
          rewrite R3; eauto].
      discriminate.
    + intros _. left. now apply Z.eqb_neq.
Qed.

Lemma run_log_failure (command : string) (e : Env) :
  run_result command e = None -> exists line, run_log command e = [line].
Proof.
  unfold run_result, run_log. destruct (negb _); [eauto|].
  destruct (parse_results _); [discriminate | eauto].
Qed.

(** The addresses the body of the rate loop appends. *)
Lemma attack_variants_body_appends (r : Z) (combined : list ref) (st : State) :
  exists (news : list ref) (st' : State),
    attack_variants_body execute_ns3 r combined st
      = (Ret (combined ++ news), st') /\
    trace st' = trace st ++ [insecure_command r; secure_command r] /\
    length news
    = length (option_list (run_result (insecure_command r) (env st)))
      + length (option_list
                  (run_result (secure_command r)
                     (world_after (insecure_command r) (env st)))).
Proof.
  destruct st as [e h o t]. cbn [env heap stdout trace].
  unfold attack_variants_body, insecure_command, secure_command.
  unfold_bind. step_run.
  destruct (run_result (build_command true r 999999999 25 win_default 120) e)
    as [d1|] eqn:H1; step_run;
  destruct (run_result (build_command true r 25 25 win_default 120) _)
    as [d2|] eqn:H2; step_run.
  - eexists [_; _], _. rewrite <- !app_assoc. simpl. auto.
  - eexists [_], _. rewrite <- !app_assoc. simpl. auto.
  - eexists [_], _. rewrite <- !app_assoc. simpl. auto.
  - eexists [], _. rewrite <- !app_assoc, app_nil_r. simpl. auto.
Qed.

Lemma threshold_body_failure (lim : Z) (collected : list ref) (st : State) :
  run_result (threshold_command lim) (env st) = None ->
  exists st' : State,
    threshold_body execute_ns3 lim collected st = (Ret collected, st') /\
    heap st' = heap st /\
    trace st' = trace st ++ [threshold_command lim].
Proof.
  destruct st as [e h o t]. cbn [env heap stdout trace].
  unfold threshold_body, threshold_command. intros Hrun.
  unfold_bind. step_run. rewrite Hrun. step_run.
  eexists. split; [reflexivity|]. simpl. auto.
Qed.

End FailedRuns.

(** C3, as amended.  A failed run, one whose process exits with a non-zero
    code or after which an artifact cannot be read, lacks a required column
    or has no first row, makes [execute_ns3] return [None]: no exception
    leaves it (none ever does), no record is created, one line is logged.
    In the sweeps the list of records is then left as it was for that
    configuration and the following configurations are run: the body of the
    rate loop always runs its two commands and appends one address per run
    that did not fail, the body of the threshold loop appends nothing for a
    failed run, and the attack-intensity sweep always returns a data frame
    after running all its commands. *)
Theorem failed_run_is_skipped {P : Platform} (attack : bool)
    (attack_rate limit node_count : Z) (win : float) (duration : Z)
    (st : State) :
  let command := build_command attack attack_rate limit node_count win duration in
  (exists (out : option ref) (st' : State),
     execute_ns3 attack attack_rate limit node_count win duration st
       = (Ret out, st')) /\
  (run_fails command (env st) ->
   exists line : string,
     execute_ns3 attack attack_rate limit node_count win duration st
     = (Ret None,
        mkState (world_after command (env st)) (heap st)
          (stdout st ++ [line]) (trace st ++ [command]))) /\
  (forall (r : Z) (combined : list ref),
     exists (news : list ref) (st' : State),
       attack_variants_body execute_ns3 r combined st
         = (Ret (combined ++ news), st') /\
       trace st' = trace st ++ [insecure_command r; secure_command r] /\
       (run_fails (insecure_command r) (env st) ->
        run_fails (secure_command r) (world_after (insecure_command r) (env st)) ->
        news = []) /\
       (run_fails (insecure_command r) (env st) \/
        run_fails (secure_command r) (world_after (insecure_command r) (env st)) ->
        length news <= 1)) /\
  (forall (lim : Z) (collected : list ref),
     run_fails (threshold_command lim) (env st) ->
     exists st' : State,
       threshold_body execute_ns3 lim collected st = (Ret collected, st') /\
       heap st' = heap st /\
       trace st' = trace st ++ [threshold_command lim]) /\
  (forall rs : list Z,
     exists (table : Table) (st' : State),
       attack_variants_over execute_ns3 rs st = (Ret table, st') /\
       trace st' = trace st ++ rates_commands rs ++ [reference_command]).
Proof.
  intros command. split; [|split; [|split; [|split]]].
  - rewrite execute_ns3_run. eauto.
  - intros Hfail. apply run_fails_result in Hfail.
    rewrite execute_ns3_run. fold command. rewrite Hfail.
    destruct (run_log_failure _ _ Hfail) as [line ->].
    exists line. simpl. now rewrite app_nil_r.
  - intros r combined.
    destruct (attack_variants_body_appends r combined st)
      as (news & st' & Hrun & Htrace & Hlen).
    exists news, st'. split; [exact Hrun|]. split; [exact Htrace|]. split.
    + intros F1 F2. apply run_fails_result in F1, F2.
      rewrite F1, F2 in Hlen. now apply length_zero_iff_nil.
    + intros [F|F]; apply run_fails_result in F; rewrite F in Hlen;
        simpl in Hlen;
        match type of Hlen with
        | context [option_list ?o] => destruct o; simpl in Hlen
        end; lia.
  - intros lim collected Hfail. apply run_fails_result in Hfail.
    now apply threshold_body_failure.
  - intros rs. destruct (attack_variants_over_run rs st) as (st' & Hrun & Htrace).
    eauto.
Qed.

Lemma failed_run_is_skipped_witness :
  exists line : string,
    @execute_ns3 sim_platform true 150 999999999 25 win_default 120
      (sim_campaign_state 2 [0])
    = (Ret None,
       @mkState sim_platform
         (mkSimEnv [] [] [(0%Z, good_files)]) [] [line]
         [@insecure_command sim_platform 150]).
Proof.
  destruct (@failed_run_is_skipped sim_platform true 150 999999999 25
              win_default 120 (sim_campaign_state 2 [0]))
    as (_ & Hfailure & _).
  destruct Hfailure as [line Hrun].
  - left. vm_compute. discriminate.
  - exists line. exact Hrun.
Defined.

(** C3 as stated fails: a first row that is not numeric is no failure.
    The run below exits with code 0 and leaves a pdr artifact whose first
    cell is the string ["abc"]; it does not succeed in the interface's
    sense, yet [execute_ns3] returns a record, and the sweep over the one
    rate 150 appends it: its table has one row, with that string as pdr. *)
Lemma unparseable_first_row_is_recorded :
  first_cell text_pdr_frame "pdr" = Ret (PyStr "abc") /\
  is_numeric (PyStr "abc") = false /\
  @run_succeeds sim_platform (@insecure_command sim_platform 150)
    (env sim_text_state) = false /\
  fst (@execute_ns3 sim_platform true 150 999999999 25 win_default 120
         sim_text_state) = Ret (Some 0) /\
  (exists st' : State,
     @attack_variants_over sim_platform (@execute_ns3 sim_platform) [150%Z]
       sim_text_state
     = (Ret [@annotated "InsecRPL" "attack_pps" 150
               (<["ctrl_dropped" := NpInt64 20]>
                (<["ctrl_rx" := NpInt64 380]>
                 (<["ctrl_tx" := NpInt64 400]>
                  (<["delay_ms" := NpFloat64 double_45]>
                   (<["rx" := NpInt64 950]>
                    (<["tx" := NpInt64 1000]>
                     (<["pdr" := PyStr "abc"]> ∅)))))))], st')).
Proof.
  split; [reflexivity|]. split; [reflexivity|]. split; [reflexivity|].
  split; [reflexivity|].
  eexists. vm_compute. reflexivity.
Qed.

(** What such a record does in a sweep that prints the pdr: formatting the
    string with [.3f] raises, and the exception leaves [gather_baselines]. *)
Example baseline_sweep_raises_on_text_pdr :
  fst (@gather_baselines sim_platform
         (sim_state [] [] [(0%Z, text_files); (0%Z, good_files);
                           (0%Z, good_files)]))
  = Raise ValueError.
Proof. vm_compute. reflexivity. Qed.

(** ** The baseline sweep on a stubbed executor *)

Section StubbedBaseline.
Context {P : Platform}.

Lemma print_pdr_check (prefix : string) (r : ref) (st : State) :
  exists o' : list string,
    print_pdr prefix r st
    = (match pdr_check (deref (heap st) r) with
       | Ret _ => Ret tt
       | Raise e => Raise e
       end,
       mkState (env st) (heap st) o' (trace st)).
Proof.
  destruct st as [e h o t]. unfold print_pdr, pdr_check, getitem, lift_res.
  unfold_bind. cbn [heap env stdout trace].
  destruct (deref h r !! "pdr") as [v|]; [|eauto].
  rewrite format_3f_numeric. destruct (is_numeric v); simpl; eauto.
Qed.

Lemma pdr_check_labelled (label : string) (d : dict) :
  pdr_check (<["scenario" := PyStr label]> d) = pdr_check d.
Proof. unfold pdr_check. now rewrite lookup_insert_ne. Qed.

Lemma truthy_valid (h : list dict) (r : ref) :
  dict_truthy (deref h r) = true -> r < length h.
Proof.
  unfold deref. destruct (h !! r) eqn:E; simpl.
  - intros _. eapply lookup_lt_Some, E.
  - unfold dict_truthy. now rewrite map_size_empty.
Qed.

Lemma deref_alter_eq (f : dict -> dict) (h : list dict) (r : ref) :
  r < length h -> deref (alter f r h) r = f (deref h r).
Proof.
  intros Hr. unfold deref. rewrite list_lookup_alter_eq.
  destruct (lookup_lt_is_Some_2 h r Hr) as [d Hd]. now rewrite !Hd.
Qed.

Lemma deref_alter_ne (f : dict -> dict) (h : list dict) (r r' : ref) :
  r <> r' -> deref (alter f r h) r' = deref h r'.
Proof. intros Hr. unfold deref. now rewrite list_lookup_alter_ne. Qed.

Lemma bind_assoc {A B C} (m : M A) (f : A -> M B) (g : B -> M C) (st : State) :
  (y ← (x ← m; f x); g y) st = (x ← m; y ← f x; g y) st.
Proof. unfold_bind. destruct (m st) as [[a|e] st']; reflexivity. Qed.

Lemma bind_Ret {A B} (m : M A) (k : A -> M B) (st st' : State) (a : A) :
  m st = (Ret a, st') -> (x ← m; k x) st = k a st'.
Proof. unfold_bind. now intros ->. Qed.

Lemma bind_Raise {A B} (m : M A) (k : A -> M B) (st st' : State) (e : exn) :
  m st = (Raise e, st') -> (x ← m; k x) st = (Raise e, st').
Proof. unfold_bind. now intros ->. Qed.

(** The sweep as three calls, each followed by its block. *)
Lemma gather_baselines_with_blocks (execute : executor) :
  gather_baselines_with execute
  = (banner "RUNNING BASELINE SIMULATIONS";;
     print "▶ Running Baseline RPL...";;
     out ← execute false 700%Z 25%Z 25%Z win_default 120%Z;
     records ← baseline_block "RPL" out [];
     print "▶ Running Insecure RPL (Attack without Mitigation)...";;
     out ← execute true 700%Z 999999999%Z 25%Z win_default 120%Z;
     records ← baseline_block "InsecRPL" out records;
     print "▶ Running Secure RPL (Mitigation Enabled)...";;
     out ← execute true 700%Z 25%Z 25%Z win_default 120%Z;
     records ← baseline_block "SecRPL" out records;
     pd_DataFrame records).
Proof. reflexivity. Qed.

(** One call of a stub and its block, on the store. *)
Lemma stub_block_run (label : string) (outcome : stub_outcome)
    (records : list ref) (st : State) :
  match baseline_case label outcome (heap st, records) with
  | Ret (h', records') =>
      exists o' : list string,
        (out ← stub_return outcome; baseline_block label out records) st
        = (Ret records', mkState (env st) h' o' (trace st))
  | Raise e =>
      exists st' : State,
        (out ← stub_return outcome; baseline_block label out records) st
        = (Raise e, st')
  end.
Proof.
  destruct st as [e h o t].
  unfold baseline_case, stub_return, baseline_block, labelled.
  cbn [env heap stdout trace].
  destruct outcome as [|d|r]; unfold_bind; cbn [new_dict env heap stdout trace].
  - unfold if_truthy. eauto.
  - unfold if_truthy. cbn [env heap stdout trace]. rewrite deref_fresh.
    destruct (dict_truthy d); [|eauto].
    cbn [setitem env heap stdout trace]. rewrite alter_fresh.
    match goal with
    | |- context [print_pdr ?p ?x ?s] =>
        destruct (print_pdr_check p x s) as [o' Hp]; rewrite Hp; clear Hp
    end.
    cbn [env heap stdout trace]. rewrite deref_fresh, pdr_check_labelled.
    destruct (pdr_check d); eauto.
  - unfold if_truthy. cbn [env heap stdout trace].
    destruct (dict_truthy (deref h r)) eqn:Ht; [|eauto].
    cbn [setitem env heap stdout trace].
    match goal with
    | |- context [print_pdr ?p ?x ?s] =>
        destruct (print_pdr_check p x s) as [o' Hp]; rewrite Hp; clear Hp
    end.
    cbn [env heap stdout trace].
    rewrite (deref_alter_eq _ h r (truthy_valid h r Ht)), pdr_check_labelled.
    destruct (pdr_check (deref h r)); eauto.
Qed.

Ltac step_print_line :=
  match goal with
  | |- context [mbind ?k (print ?l) ?s] =>
      rewrite (bind_Ret (print l) k s _ tt eq_refl)
  end.

Ltac step_stub_block :=
  rewrite <- bind_assoc;
  match goal with
  | |- context [mbind ?k (mbind (fun out => baseline_block ?label out ?records)
                                (stub_return ?outcome)) ?s] =>
      let H := fresh "Hblock" in
      pose proof (stub_block_run label outcome records s) as H;
      cbn [env heap stdout trace] in H;
      destruct (baseline_case label outcome _) as [[? ?]|?];
      destruct H as [? H];
      [ rewrite (bind_Ret _ k _ _ _ H)
      | rewrite (bind_Raise _ k _ _ _ H) ];
      clear H
  end.

(** The sweep on a stub is [baseline_cases] on the store. *)
Lemma gather_baselines_stub_eq (f : config -> stub_outcome) (st : State) :
  exists (o' : list string) (st' : State),
    gather_baselines_with (stub_executor f) st
    = match baseline_cases f (heap st) with
      | Ret (h', table) =>
          (Ret table, mkState (env st) h' o' (trace st))
      | Raise e => (Raise e, st')
      end.
Proof.
  destruct st as [e h o t]. cbn [env heap stdout trace].
  rewrite gather_baselines_with_blocks.
  unfold baseline_cases, stub_executor, banner, res_bind.
  repeat (rewrite ?bind_assoc; step_print_line; cbn [env heap stdout trace]).
  step_stub_block; [|eauto].
  repeat (rewrite ?bind_assoc; step_print_line; cbn [env heap stdout trace]).
  step_stub_block; [|eauto].
  repeat (rewrite ?bind_assoc; step_print_line; cbn [env heap stdout trace]).
  step_stub_block; [|eauto].
  unfold pd_DataFrame. cbn [env heap stdout trace fst snd].
  eexists _, (mkState e h o t). reflexivity.
Qed.

Lemma gather_baselines_stub (f : config -> stub_outcome) (st : State) :
  match baseline_cases f (heap st) with
  | Ret (h', table) =>
      exists o' : list string,
        gather_baselines_with (stub_executor f) st
        = (Ret table, mkState (env st) h' o' (trace st))
  | Raise e =>
      exists st' : State,
        gather_baselines_with (stub_executor f) st = (Raise e, st')
  end.
Proof.
  destruct (gather_baselines_stub_eq f st) as (o' & st' & ->).
  destruct (baseline_cases f (heap st)) as [[h' table]|e]; eauto.
Qed.

End StubbedBaseline.

(** *** Running a sweep again on the store the first run left *)

Lemma same_but_label_refl (d : dict) : same_but_label d d.
Proof. now split. Qed.

Lemma same_but_label_trans (d1 d2 d3 : dict) :
  same_but_label d1 d2 -> same_but_label d2 d3 -> same_but_label d1 d3.
Proof. intros [? ?] [? ?]. split; congruence. Qed.

Lemma same_but_label_labelled (label : string) (d : dict) :
  dict_truthy d = true -> same_but_label d (labelled label d).
Proof.
  intros Hd. split.
  - now rewrite labelled_truthy.
  - unfold labelled. now rewrite delete_insert_eq.
Qed.

Lemma labelled_same_but_label (label : string) (d d' : dict) :
  same_but_label d d' -> labelled label d = labelled label d'.
Proof.
  intros [_ Hd]. unfold labelled.
  rewrite <- (insert_delete_eq d), <- (insert_delete_eq d'). now rewrite Hd.
Qed.

Lemma pdr_check_same_but_label (d d' : dict) :
  same_but_label d d' -> pdr_check d = pdr_check d'.
Proof.
  intros [_ Hd]. unfold pdr_check.
  rewrite <- (lookup_delete_ne d "scenario" "pdr") by discriminate.
  rewrite <- (lookup_delete_ne d' "scenario" "pdr") by discriminate.
  now rewrite Hd.
Qed.

Lemma store_sim_refl (h : list dict) : store_sim (length h) h h.
Proof. repeat split; auto. Qed.

Lemma store_sim_trans (n : nat) (h1 h2 h3 : list dict) :
  store_sim n h1 h2 -> store_sim n h2 h3 -> store_sim n h1 h3.
Proof.
  intros (? & ? & H12) (? & ? & H23). repeat split; try assumption;
    destruct (H12 r H3), (H23 r H3); congruence.
Qed.

(** One case leaves the old dicts as they were, up to labels. *)
Lemma baseline_case_store (n : nat) (label : string) (outcome : stub_outcome)
    (h : list dict) (records : list ref) (h' : list dict) (records' : list ref) :
  n <= length h ->
  baseline_case label outcome (h, records) = Ret (h', records') ->
  store_sim n h h'.
Proof.
  intros Hn. unfold baseline_case.
  destruct outcome as [|d|r].
  - intros [= <- <-]. repeat split; auto.
  - assert (Hgrow : forall x, store_sim n h (h ++ [x])).
    { intros x. split; [exact Hn|]. split; [rewrite length_app; lia|].
      intros r Hr. rewrite deref_grow by lia. apply same_but_label_refl. }
    destruct (dict_truthy d); [destruct (pdr_check d); [|discriminate]|];
      intros [= <- <-]; apply Hgrow.
  - destruct (dict_truthy (deref h r)) eqn:Ht;
      [destruct (pdr_check (deref h r)); [|discriminate]|];
      intros [= <- <-]; [|repeat split; auto].
    split; [exact Hn|]. split; [now rewrite length_alter|].
    intros r0 Hr0. destruct (decide (r = r0)) as [<-|Hne].
    + rewrite deref_alter_eq by (now apply truthy_valid).
      now apply same_but_label_labelled.
    + rewrite deref_alter_ne by assumption. apply same_but_label_refl.
Qed.

Lemma record_sim_grow (n : nat) (h g : list dict) (x y : dict) (r1 r2 : ref) :
  n <= length h -> n <= length g ->
  record_sim n h g r1 r2 -> record_sim n (h ++ [x]) (g ++ [y]) r1 r2.
Proof.
  intros Hh Hg [Heq Hpos]. split.
  - rewrite !deref_grow by (destruct Hpos as [[? ->]|[? ?]]; lia). exact Heq.
  - rewrite !length_app. simpl. destruct Hpos as [[? ->]|[? ?]]; [left | right]; lia.
Qed.

(** One case, run on two stores that agree up to labels, takes the same
    branch on both and keeps them and their records in agreement. *)
Lemma baseline_case_sim (n : nat) (label : string) (outcome : stub_outcome)
    (h g : list dict) (records1 records2 : list ref)
    (h' : list dict) (records1' : list ref) :
  (forall r, outcome = StubShared r -> r < n) ->
  store_sim n h g ->
  Forall2 (record_sim n h g) records1 records2 ->
  baseline_case label outcome (h, records1) = Ret (h', records1') ->
  exists (g' : list dict) (records2' : list ref),
    baseline_case label outcome (g, records2) = Ret (g', records2') /\
    store_sim n h' g' /\
    Forall2 (record_sim n h' g') records1' records2'.
Proof.
  intros Hvalid Hhg Hrecs. pose proof Hhg as (Hh & Hg & Hsim).
  unfold baseline_case.
  destruct outcome as [|d|r].
  - intros [= <- <-]. exists g, records2.
    split; [reflexivity|]. split; [exact Hhg | exact Hrecs].
  - assert (Hstore : forall x, store_sim n (h ++ [x]) (g ++ [x])).
    { intros x. split; [rewrite length_app; lia|].
      split; [rewrite length_app; lia|].
      intros r Hr. rewrite !deref_grow by lia. now apply Hsim. }
    assert (Hold : forall x,
               Forall2 (record_sim n (h ++ [x]) (g ++ [x])) records1 records2).
    { intros x. eapply Forall2_impl; [exact Hrecs|].
      intros r1 r2. now apply record_sim_grow. }
    destruct (dict_truthy d); [destruct (pdr_check d); [|discriminate]|];
      intros [= <- <-]; eexists _, _; (split; [reflexivity|]);
      (split; [apply Hstore|]); [|apply Hold].
    apply Forall2_app; [apply Hold|].
    constructor; [|constructor]. split.
    + now rewrite !deref_fresh.
    + right. rewrite !length_app. simpl. lia.
  - specialize (Hvalid r eq_refl).
    pose proof (Hsim r Hvalid) as Hr.
    rewrite <- (proj1 Hr), <- (pdr_check_same_but_label _ _ Hr).
    destruct (dict_truthy (deref h r)) eqn:Ht;
      [destruct (pdr_check (deref h r)); [|discriminate]|];
      intros [= <- <-]; eexists _, _; (split; [reflexivity|]);
      [|split; [exact Hhg | exact Hrecs]].
    assert (Hderef : forall r0,
               r0 < n ->
               deref h r0 = deref g r0 \/ r0 = r ->
               deref (alter (labelled label) r h) r0
               = deref (alter (labelled label) r g) r0).
    { intros r0 Hr0 Hcase. destruct (decide (r = r0)) as [<-|Hne].
      - rewrite !deref_alter_eq by lia. now apply labelled_same_but_label.
      - rewrite !deref_alter_ne by assumption.
        destruct Hcase as [?|?]; congruence. }
    split; [|apply Forall2_app].
    + split; [now rewrite length_alter|]. split; [now rewrite length_alter|].
      intros r0 Hr0. destruct (decide (r = r0)) as [<-|Hne].
      * rewrite !deref_alter_eq by lia.
        rewrite (labelled_same_but_label label _ _ Hr).
        apply same_but_label_refl.
      * rewrite !deref_alter_ne by assumption. now apply Hsim.
    + eapply Forall2_impl; [exact Hrecs|].
      intros r1 r2 [Heq Hpos]. split.
      * destruct Hpos as [[Hlt ->]|[Hr1 Hr2]].
        -- apply Hderef; auto.
        -- rewrite !deref_alter_ne by lia. exact Heq.
      * rewrite !length_alter. exact Hpos.
    + constructor; [|constructor]. split; [|left; auto].
      apply Hderef; auto.
Qed.

Lemma record_sim_table (n : nat) (h g : list dict) (records1 records2 : list ref) :
  Forall2 (record_sim n h g) records1 records2 ->
  map (deref h) records1 = map (deref g) records2.
Proof.
  induction 1 as [|r1 r2 l1 l2 [Heq _] _ IH]; simpl; [reflexivity|].
  now rewrite Heq, IH.
Qed.

(** The sweep run from two stores that agree up to labels on the dicts the
    stub keeps returns the same rows. *)
Lemma baseline_cases_sim (n : nat) (f : config -> stub_outcome)
    (h g h' : list dict) (table : Table) :
  (forall c r, f c = StubShared r -> r < n) ->
  store_sim n h g ->
  baseline_cases f h = Ret (h', table) ->
  store_sim n h h' /\
  exists g' : list dict, baseline_cases f g = Ret (g', table).
Proof.
  intros Hvalid Hsim. pose proof Hsim as (Hh & Hg & _).
  unfold baseline_cases, res_bind.
  destruct (baseline_case "RPL" _ (h, [])) as [[h1 r1]|] eqn:H1; [|discriminate].
  destruct (baseline_case "InsecRPL" _ (h1, r1)) as [[h2 r2]|] eqn:H2;
    [|discriminate].
  destruct (baseline_case "SecRPL" _ (h2, r2)) as [[h3 r3]|] eqn:H3;
    [|discriminate].
  cbn [fst snd]. intros [= <- <-].
  pose proof (baseline_case_store n _ _ _ _ _ _ Hh H1) as S1.
  pose proof (baseline_case_store n _ _ _ _ _ _ (proj1 (proj2 S1)) H2) as S2.
  pose proof (baseline_case_store n _ _ _ _ _ _ (proj1 (proj2 S2)) H3) as S3.
  split; [eauto using store_sim_trans|].
  destruct (baseline_case_sim n _ _ h g [] [] _ _ (Hvalid _) Hsim
              ltac:(constructor) H1) as (g1 & q1 & -> & T1 & R1).
  destruct (baseline_case_sim n _ _ h1 g1 r1 q1 _ _ (Hvalid _) T1 R1 H2)
    as (g2 & q2 & -> & T2 & R2).
  destruct (baseline_case_sim n _ _ h2 g2 r2 q2 _ _ (Hvalid _) T2 R2 H3)
    as (g3 & q3 & -> & T3 & R3).
  cbn [fst snd]. exists g3. now rewrite (record_sim_table _ _ _ _ _ R3).
Qed.

(** C9. Run twice on a deterministic stub (one whose answer to a
    configuration is always [None], always a new dict with the same items,
    or always the same dict object), the baseline sweep returns the same
    data frame the second time as the first; it reads and changes nothing of
    the world or of the list of commands run, and on a stub that shares no
    dict the data frame is the same from every state. *)
Theorem baseline_sweep_is_repeatable {P : Platform}
    (f : config -> stub_outcome) (st st1 : State) (table : Table) :
  stub_valid f (heap st) ->
  gather_baselines_with (stub_executor f) st = (Ret table, st1) ->
  (exists st2 : State,
     gather_baselines_with (stub_executor f) st1 = (Ret table, st2)) /\
  env st1 = env st /\ trace st1 = trace st /\
  ((forall c r, f c <> StubShared r) ->
   forall st0 : State,
     exists st2 : State,
       gather_baselines_with (stub_executor f) st0 = (Ret table, st2)).
Proof.
  intros Hvalid Hrun.
  pose proof (gather_baselines_stub f st) as Hfirst.
  destruct (baseline_cases f (heap st)) as [[h1 table1]|e] eqn:Hcases.
  2: { destruct Hfirst as [st' Hfirst]. rewrite Hfirst in Hrun. discriminate. }
  destruct Hfirst as [o1 Hfirst]. rewrite Hfirst in Hrun.
  injection Hrun as <- <-. cbn [env heap stdout trace].
  assert (Hagain : forall (n : nat) (g : list dict),
             (forall c r, f c = StubShared r -> r < n) ->
             store_sim n (heap st) g ->
             forall st0 : State, heap st0 = g ->
             exists st2 : State,
               gather_baselines_with (stub_executor f) st0 = (Ret table1, st2)).
  { intros n g Hn Hsim st0 Hst0.
    destruct (baseline_cases_sim n f _ g _ _ Hn Hsim Hcases) as (_ & g' & Hg).
    pose proof (gather_baselines_stub f st0) as Hsecond.
    rewrite Hst0, Hg in Hsecond. destruct Hsecond as [o2 Hsecond]. eauto. }
  split; [|split; [reflexivity|split; [reflexivity|]]].
  - apply (Hagain (length (heap st)) h1 Hvalid); [|reflexivity].
    apply (baseline_cases_sim _ f _ _ _ _ Hvalid (store_sim_refl _) Hcases).
  - intros Hfresh st0. apply (Hagain 0 (heap st0)); [|split|reflexivity].
    + intros c r Hc. now destruct (Hfresh c r).
    + lia.
    + split; [lia|]. intros r Hr. lia.
Qed.

Lemma baseline_sweep_is_repeatable_witness :
  exists (table : Table) (st1 st2 : State),
    @gather_baselines_with sim_platform (stub_executor shared_stub) sim_stub_state
      = (Ret table, st1) /\
    @gather_baselines_with sim_platform (stub_executor shared_stub) st1
      = (Ret table, st2).
Proof.
  assert (Hvalid : stub_valid shared_stub (heap sim_stub_state))
    by (intros c r [= <-]; simpl; lia).
  assert (Hreturns : returns (fst (@gather_baselines_with sim_platform
                                     (stub_executor shared_stub) sim_stub_state))
                     = true) by (vm_compute; reflexivity).
  destruct (@gather_baselines_with sim_platform (stub_executor shared_stub)
              sim_stub_state) as [[table|e] st1] eqn:Hrun; [|discriminate].
  destruct (@baseline_sweep_is_repeatable sim_platform shared_stub _ _ _
              Hvalid Hrun) as ((st2 & Hagain) & _).
  exists table, st1, st2. split; [reflexivity | exact Hagain].
Defined.

(** The stub that returns one dict object for all three configurations
    fills the data frame with three rows that carry the last label; the
    stub that builds a new dict each time gives the three labels. *)
Example baseline_sweep_on_shared_stub :
  match fst (@gather_baselines_with sim_platform (stub_executor shared_stub)
               sim_stub_state) with
  | Ret table => map scenario_of table
  | Raise _ => []
  end
  = [Some (PyStr "SecRPL"); Some (PyStr "SecRPL"); Some (PyStr "SecRPL")].
Proof. vm_compute. reflexivity. Qed.

Example baseline_sweep_on_fresh_stub :
  match fst (@gather_baselines_with sim_platform (stub_executor fresh_stub)
               sim_stub_state) with
  | Ret table => map scenario_of table
  | Raise _ => []
  end
  = [Some (PyStr "RPL"); Some (PyStr "InsecRPL"); Some (PyStr "SecRPL")].
Proof. vm_compute. reflexivity. Qed.
(** * Further properties *)

(** ** [execute_ns3]: what is logged, and what the record depends on *)

Section RunDetails.
Context {P : Platform}.

Lemma execute_ns3_parse_error (attack : bool) (attack_rate limit node_count : Z)
    (win : float) (duration : Z) (st : State) (err : exn) :
  let command := build_command attack attack_rate limit node_count win duration in
  returncode_of command (env st) = 0%Z ->
  parse_results (world_after command (env st)) = Raise err ->
  execute_ns3 attack attack_rate limit node_count win duration st
  = (Ret None,
     mkState (world_after command (env st)) (heap st)
       (stdout st ++ [read_error_line err]) (trace st ++ [command])).
Proof.
  intros command Hcode Hparse. rewrite execute_ns3_run. fold command.
  unfold run_result, run_log. unfold returncode_of in Hcode.
  rewrite Hcode, Hparse. simpl. now rewrite app_nil_r.
Qed.

Lemma parse_results_reads (e : Env) (pdr_df delay_df over_df : CsvFrame) :
  pd_read_csv pdr_csv e = inr pdr_df ->
  pd_read_csv delay_csv e = inr delay_df ->
  pd_read_csv overhead_csv e = inr over_df ->
  parse_results e
  = res_bind (first_cell pdr_df "pdr") (fun pdr =>
    res_bind (first_cell pdr_df "tx") (fun tx =>
    res_bind (first_cell pdr_df "rx") (fun rx =>
    res_bind (first_cell delay_df "avg_delay_s") (fun delay =>
    res_bind (first_cell over_df "control_tx") (fun ctrl_tx =>
    res_bind (first_cell over_df "control_rx") (fun ctrl_rx =>
    res_bind (first_cell over_df "control_dropped") (fun ctrl_dropped =>
    Ret (result_record pdr tx rx delay ctrl_tx ctrl_rx ctrl_dropped)))))))).
Proof.
  intros H1 H2 H3. unfold parse_results, read_results. unfold_monad.
  cbn -[pdr_csv delay_csv overhead_csv].
  rewrite H1. cbn -[pdr_csv delay_csv overhead_csv].
  rewrite H2. cbn -[pdr_csv delay_csv overhead_csv].
  rewrite H3. cbn -[pdr_csv delay_csv overhead_csv].
  unfold res_bind, result_record.
  repeat match goal with
         | |- context [first_cell ?df ?col] => destruct (first_cell df col)
         end; reflexivity.
Qed.

(** The parser reads the world through the three result files only. *)
Lemma parse_results_ext (e1 e2 : Env) :
  Forall (fun path => pd_read_csv path e1 = pd_read_csv path e2) result_files ->
  parse_results e1 = parse_results e2.
Proof.
  intros H. unfold result_files in H.
  apply Forall_cons in H as [H1 H]. apply Forall_cons in H as [H2 H].
  apply Forall_cons in H as [H3 _].
  unfold parse_results, read_results. unfold_monad.
  cbn -[pdr_csv delay_csv overhead_csv].
  rewrite H1. destruct (pd_read_csv pdr_csv e2); [reflexivity|].
  cbn -[pdr_csv delay_csv overhead_csv].
  rewrite H2. destruct (pd_read_csv delay_csv e2); [reflexivity|].
  cbn -[pdr_csv delay_csv overhead_csv].
  rewrite H3. destruct (pd_read_csv overhead_csv e2); [reflexivity|].
  cbn -[pdr_csv delay_csv overhead_csv].
  repeat match goal with
         | |- context [first_cell ?df ?col] => destruct (first_cell df col)
         end; reflexivity.
Qed.

End RunDetails.

(** X1. When the process exits with a non-zero code [execute_ns3] returns
    [None] and logs the line "Simulation failed." without looking at the
    result files: this holds whatever the files hold, also when a complete
    set of results (of an earlier run, say) is on disk. *)
Theorem nonzero_exit_ignores_result_files {P : Platform} (attack : bool)
    (attack_rate limit node_count : Z) (win : float) (duration : Z)
    (st : State) :
  let command := build_command attack attack_rate limit node_count win duration in
  returncode_of command (env st) <> 0%Z ->
  execute_ns3 attack attack_rate limit node_count win duration st
  = (Ret None,
     mkState (world_after command (env st)) (heap st)
       (stdout st ++ [simulation_failed_line]) (trace st ++ [command])).
Proof.
  intros command Hcode. rewrite execute_ns3_run. fold command.
  unfold run_result, run_log. unfold returncode_of in Hcode.
  apply Z.eqb_neq in Hcode. rewrite Hcode. simpl. now rewrite app_nil_r.
Qed.

Lemma nonzero_exit_ignores_result_files_witness :
  @parse_results sim_platform
    (@world_after sim_platform (@reference_command sim_platform)
       (mkSimEnv [] good_files [(1%Z, good_files)]))
  = Ret sample_record /\
  @execute_ns3 sim_platform false 700 25 25 win_default 120
    (sim_state [] good_files [(1%Z, good_files)])
  = (Ret None,
     @mkState sim_platform (mkSimEnv [] good_files []) []
       [simulation_failed_line] [@reference_command sim_platform]).
Proof.
  split; [vm_compute; reflexivity|].
  apply (@nonzero_exit_ignores_result_files sim_platform false 700 25 25
           win_default 120 (sim_state [] good_files [(1%Z, good_files)])).
  vm_compute. discriminate.
Defined.

(** X2. After a run that exits with code zero the three files are read in
    the order pdr, delay, overhead before any column is looked up: the
    message logged is that of the first file that cannot be read, whatever
    the files read before it hold, also when they lack a column. *)
Theorem unreadable_file_reported_in_read_order {P : Platform} (attack : bool)
    (attack_rate limit node_count : Z) (win : float) (duration : Z)
    (st : State) (readable : list string) (path : string)
    (rest : list string) (msg : string) :
  let command := build_command attack attack_rate limit node_count win duration in
  let world := world_after command (env st) in
  returncode_of command (env st) = 0%Z ->
  result_files = readable ++ path :: rest ->
  Forall (fun p => exists df, pd_read_csv p world = inr df) readable ->
  pd_read_csv path world = inl msg ->
  execute_ns3 attack attack_rate limit node_count win duration st
  = (Ret None,
     mkState world (heap st)
       (stdout st ++ ["   ❌ Error reading result files: " +:+ msg])
       (trace st ++ [command])).
Proof.
  intros command world Hcode Hsplit Hread Hpath.
  change ("   ❌ Error reading result files: " +:+ msg)
    with (read_error_line (ReadError msg)).
  apply execute_ns3_parse_error; [exact Hcode|]. fold command world.
  unfold parse_results, read_results. unfold_monad.
  cbn -[pdr_csv delay_csv overhead_csv].
  unfold result_files in Hsplit.
  destruct readable as [|p1 readable]; simpl in Hsplit.
  { injection Hsplit as <- _. now rewrite Hpath. }
  injection Hsplit as <- Hsplit.
  apply Forall_cons in Hread as [[df1 Hdf1] Hread]. rewrite Hdf1.
  cbn -[pdr_csv delay_csv overhead_csv].
  destruct readable as [|p2 readable]; simpl in Hsplit.
  { injection Hsplit as <- _. now rewrite Hpath. }
  injection Hsplit as <- Hsplit.
  apply Forall_cons in Hread as [[df2 Hdf2] Hread]. rewrite Hdf2.
  cbn -[pdr_csv delay_csv overhead_csv].
  destruct readable as [|p3 readable]; simpl in Hsplit.
  { injection Hsplit as <- _. now rewrite Hpath. }
  injection Hsplit as _ Hsplit. now destruct readable.
Qed.

Lemma unreadable_file_reported_in_read_order_witness :
  @first_cell [("tx", [NpInt64 1000])] "pdr" = Raise (KeyError "pdr") /\
  @execute_ns3 sim_platform false 700 25 25 win_default 120
    (sim_state [] []
       [(0%Z, [(pdr_csv, inr [("tx", [NpInt64 1000])]);
               (overhead_csv, inr overhead_frame)])])
  = (Ret None,
     @mkState sim_platform
       (mkSimEnv [] [(pdr_csv, inr [("tx", [NpInt64 1000])]);
                     (overhead_csv, inr overhead_frame)] [])
       []
       ["   ❌ Error reading result files: [Errno 2] No such file or directory"]
       [@reference_command sim_platform]).
Proof.
  split; [reflexivity|].
  refine (@unreadable_file_reported_in_read_order sim_platform false 700 25 25
            win_default 120
            (sim_state [] []
               [(0%Z, [(pdr_csv, inr [("tx", [NpInt64 1000])]);
                       (overhead_csv, inr overhead_frame)])])
            [pdr_csv] delay_csv [overhead_csv]
            "[Errno 2] No such file or directory" _ _ _ _).
  - vm_compute. reflexivity.
  - reflexivity.
  - constructor; [|constructor]. eexists. vm_compute. reflexivity.
  - vm_compute. reflexivity.
Defined.

(** X3. When the three files can be read, the seven cells are looked up in
    the order of the dict display; the first lookup that fails decides what
    is logged: the name of the CSV column in quotes when the column is
    missing, pandas' out-of-bounds message when the file has no data row.
    No record is returned. *)
Theorem failed_lookup_reported_in_display_order {P : Platform} (attack : bool)
    (attack_rate limit node_count : Z) (win : float) (duration : Z)
    (st : State) (pdr_df delay_df over_df : CsvFrame)
    (found : list (CsvFrame * string)) (df : CsvFrame) (col : string)
    (rest : list (CsvFrame * string)) (err : exn) :
  let command := build_command attack attack_rate limit node_count win duration in
  let world := world_after command (env st) in
  returncode_of command (env st) = 0%Z ->
  pd_read_csv pdr_csv world = inr pdr_df ->
  pd_read_csv delay_csv world = inr delay_df ->
  pd_read_csv overhead_csv world = inr over_df ->
  result_lookups pdr_df delay_df over_df = found ++ (df, col) :: rest ->
  forallb lookup_returns found = true ->
  first_cell df col = Raise err ->
  (err = KeyError col /\ exn_str err = "'" +:+ col +:+ "'" \/
   err = IndexError /\
   exn_str err = "single positional indexer is out-of-bounds") /\
  execute_ns3 attack attack_rate limit node_count win duration st
  = (Ret None,
     mkState world (heap st)
       (stdout st ++ ["   ❌ Error reading result files: " +:+ exn_str err])
       (trace st ++ [command])).
Proof.
  intros command world Hcode H1 H2 H3 Hsplit Hfound Herr. split.
  { destruct (first_cell_Raise _ _ _ Herr) as [-> | ->]; [left|right];
      split; reflexivity. }
  change ("   ❌ Error reading result files: " +:+ exn_str err)
    with (read_error_line err).
  apply execute_ns3_parse_error; [exact Hcode|]. fold command world.
  rewrite (parse_results_reads _ _ _ _ H1 H2 H3).
  unfold result_lookups in Hsplit.
  repeat
    (destruct found as [|[df' col'] found];
     [ simpl in Hsplit; inversion Hsplit; subst; simpl; rewrite Herr;
       reflexivity
     | simpl in Hsplit, Hfound; apply andb_prop in Hfound as [Hcell Hfound];
       unfold lookup_returns in Hcell; simpl in Hcell;
       inversion Hsplit as [[Hdf Hcol Htail]]; subst df' col';
       clear Hsplit; rename Htail into Hsplit;
       match type of Hcell with
       | returns (first_cell ?f ?c) = true =>
           destruct (first_cell f c); [clear Hcell | discriminate Hcell]
       end;
       cbn [res_bind] ]).
Qed.

Lemma failed_lookup_reported_in_display_order_witness :
  exists st' : @State sim_platform,
    @execute_ns3 sim_platform false 700 25 25 win_default 120
      (sim_state [] []
         [(0%Z, [(pdr_csv, inr pdr_frame); (delay_csv, inr delay_frame);
                 (overhead_csv,
                  inr [("control_tx", []); ("control_dropped", [])])])])
    = (Ret None, st') /\
    stdout st'
    = ["   ❌ Error reading result files: single positional indexer is out-of-bounds"].
Proof.
  destruct (@failed_lookup_reported_in_display_order sim_platform false 700 25
              25 win_default 120
              (sim_state [] []
                 [(0%Z, [(pdr_csv, inr pdr_frame); (delay_csv, inr delay_frame);
                         (overhead_csv,
                          inr [("control_tx", []); ("control_dropped", [])])])])
              pdr_frame delay_frame
              [("control_tx", []); ("control_dropped", [])]
              [(pdr_frame, "pdr"); (pdr_frame, "tx"); (pdr_frame, "rx");
               (delay_frame, "avg_delay_s")]
              [("control_tx", []); ("control_dropped", [])] "control_tx"
              [([("control_tx", []); ("control_dropped", [])], "control_rx");
               ([("control_tx", []); ("control_dropped", [])],
                "control_dropped")]
              IndexError)
    as [_ Hrun]; try (vm_compute; reflexivity).
  eexists. split; [exact Hrun | reflexivity].
Defined.

Lemma length_append (a b : string) :
  String.length (a +:+ b) = String.length a + String.length b.
Proof. induction a as [|c a IH]; simpl; [reflexivity | now rewrite IH]. Qed.

Lemma length_str_repeat (s : string) (n : nat) :
  String.length (str_repeat s n) = n * String.length s.
Proof.
  induction n as [|n IH]; simpl; [reflexivity|].
  now rewrite length_append, IH.
Qed.

Lemma wrap64_in_range (n : Z) :
  (- 2 ^ 63 <= n < 2 ^ 63)%Z -> wrap64 n = n.
Proof.
  intros Hn. unfold wrap64.
  rewrite Z.mod_small by lia. lia.
Qed.

Lemma wrap64_congruent (n : Z) :
  (- 2 ^ 63 <= wrap64 n < 2 ^ 63)%Z /\ ((wrap64 n - n) mod 2 ^ 64 = 0)%Z.
Proof.
  unfold wrap64.
  pose proof (Z.mod_pos_bound (n + 2 ^ 63) (2 ^ 64) ltac:(lia)) as Hb.
  split; [lia|].
  assert (Heq : ((n + 2 ^ 63) mod 2 ^ 64 - 2 ^ 63 - n
                 = (- ((n + 2 ^ 63) / 2 ^ 64)) * 2 ^ 64)%Z)
    by (rewrite Z.mod_eq by lia; ring).
  rewrite Heq. apply Z.mod_mul. lia.
Qed.

(** X4. The conversion to milliseconds is the product [cell * 1000] on
    whatever the first delay cell is.  An integer cell stays an integer: it
    is multiplied exactly when the product fits 64 bits and wraps around
    otherwise.  A cell that is text does not fail the run: the record holds
    that text repeated 1000 times. *)
Theorem delay_conversion_of_integer_and_text_cells {P : Platform}
    (command : string) (e : Env) (d : dict) (delay_df : CsvFrame)
    (v : pyval) :
  run_result command e = Some d ->
  pd_read_csv delay_csv (world_after command e) = inr delay_df ->
  first_cell delay_df "avg_delay_s" = Ret v ->
  (forall n : Z,
     v = NpInt64 n ->
     exists m : Z,
       d !! "delay_ms" = Some (NpInt64 m) /\
       (- 2 ^ 63 <= m < 2 ^ 63)%Z /\
       ((m - n * 1000) mod 2 ^ 64 = 0)%Z /\
       ((-9223372036854775 <= n <= 9223372036854775)%Z ->
        m = (n * 1000)%Z)) /\
  (forall s : string,
     v = PyStr s ->
     exists s' : string,
       d !! "delay_ms" = Some (PyStr s') /\
       s' = str_repeat s 1000 /\
       String.length s' = 1000 * String.length s).
Proof.
  intros Hrun Hfile Hcell.
  assert (Hd : d !! "delay_ms" = Some (mul_1000 v)).
  { unfold run_result in Hrun. destruct (negb _); [discriminate|].
    destruct (parse_results _) as [d'|] eqn:Hparse; [|discriminate].
    injection Hrun as ->.
    apply parse_results_Ret in Hparse
      as (? & delay_df' & ? & ? & ? & ? & delay & ? & ? & ? & _ & Hfile' & _
          & _ & _ & _ & Hcell' & _ & _ & _ & ->).
    rewrite Hfile in Hfile'. injection Hfile' as <-.
    rewrite Hcell in Hcell'. injection Hcell' as <-.
    now rewrite !lookup_insert_ne, lookup_insert_eq by discriminate. }
  split.
  - intros n ->. exists (wrap64 (n * 1000)). simpl in Hd.
    split; [exact Hd|].
    destruct (wrap64_congruent (n * 1000)) as [Hrange Hmod].
    split; [exact Hrange|]. split; [exact Hmod|].
    intros Hn. apply wrap64_in_range. lia.
  - intros s ->. exists (str_repeat s 1000). simpl in Hd.
    split; [exact Hd|]. split; [reflexivity|]. apply length_str_repeat.
Qed.

Lemma delay_conversion_of_integer_and_text_cells_witness :
  exists s' : string,
    (<["delay_ms" := PyStr (str_repeat "-" 1000)]> sample_record : dict)
      !! "delay_ms" = Some (PyStr s') /\
    String.length s' = 1000.
Proof.
  destruct (@delay_conversion_of_integer_and_text_cells sim_platform
              (@reference_command sim_platform)
              (mkSimEnv [] []
                 [(0%Z, [(pdr_csv, inr pdr_frame);
                         (delay_csv, inr [("avg_delay_s", [PyStr "-"])]);
                         (overhead_csv, inr overhead_frame)])])
              (<["delay_ms" := PyStr (str_repeat "-" 1000)]> sample_record)
              [("avg_delay_s", [PyStr "-"])] (PyStr "-"))
    as [_ Htext]; try (vm_compute; reflexivity).
  destruct (Htext "-" eq_refl) as (s' & Hd & _ & Hlen).
  exists s'. split; [exact Hd | exact Hlen].
Defined.

(** X5. The record [execute_ns3] returns is read off the three result files
    as the process leaves them and depends on nothing else: two runs that
    exit with code zero and leave the same three files give the same record
    (or the same failure), whatever their configurations.  In particular a
    process that exits with code zero without rewriting the files yields
    the results of the run before it. *)
Theorem record_determined_by_result_files {P : Platform}
    (attack1 : bool) (attack_rate1 limit1 node_count1 : Z) (win1 : float)
    (duration1 : Z) (st1 : State)
    (attack2 : bool) (attack_rate2 limit2 node_count2 : Z) (win2 : float)
    (duration2 : Z) (st2 : State) :
  let command1 :=
    build_command attack1 attack_rate1 limit1 node_count1 win1 duration1 in
  let command2 :=
    build_command attack2 attack_rate2 limit2 node_count2 win2 duration2 in
  returncode_of command1 (env st1) = 0%Z ->
  returncode_of command2 (env st2) = 0%Z ->
  Forall (fun path =>
            pd_read_csv path (world_after command1 (env st1))
            = pd_read_csv path (world_after command2 (env st2)))
    result_files ->
  exists (out1 out2 : option ref) (st1' st2' : State),
    execute_ns3 attack1 attack_rate1 limit1 node_count1 win1 duration1 st1
      = (Ret out1, st1') /\
    execute_ns3 attack2 attack_rate2 limit2 node_count2 win2 duration2 st2
      = (Ret out2, st2') /\
    deref (heap st1') <$> out1 = deref (heap st2') <$> out2 /\
    drop (length (stdout st1)) (stdout st1')
    = drop (length (stdout st2)) (stdout st2').
Proof.
  intros command1 command2 Hcode1 Hcode2 Hfiles.
  rewrite !execute_ns3_run. fold command1 command2.
  do 4 eexists. split; [reflexivity|]. split; [reflexivity|].
  cbn [heap stdout]. rewrite !drop_app_length.
  unfold run_result, run_log. unfold returncode_of in *.
  rewrite Hcode1, Hcode2. simpl.
  rewrite (parse_results_ext _ _ Hfiles).
  destruct (parse_results (world_after command2 (env st2))) as [d|err];
    simpl; [|split; reflexivity].
  split; [|reflexivity]. now rewrite !deref_fresh.
Qed.

Lemma record_determined_by_result_files_witness :
  exists (out1 out2 : option ref) (st1' st2' : @State sim_platform),
    @execute_ns3 sim_platform false 700 25 25 win_default 120
      (sim_state [] [] [(0%Z, good_files)]) = (Ret out1, st1') /\
    @execute_ns3 sim_platform true 150 5 25 win_default 120
      (sim_state [] [] [(0%Z, good_files)]) = (Ret out2, st2') /\
    deref (heap st1') <$> out1 = deref (heap st2') <$> out2.
Proof.
  destruct (@record_determined_by_result_files sim_platform
              false 700 25 25 win_default 120
              (sim_state [] [] [(0%Z, good_files)])
              true 150 5 25 win_default 120
              (sim_state [] [] [(0%Z, good_files)]))
    as (out1 & out2 & st1' & st2' & H1 & H2 & Hsame & _).
  - vm_compute. reflexivity.
  - vm_compute. reflexivity.
  - repeat constructor.
  - exists out1, out2, st1', st2'. auto.
Defined.
(** ** The sweeps in sequence: worlds, commands and exceptions *)

Ltac step_print_pdr :=
  match goal with
  | |- context [print_pdr ?p (length ?h) (mkState ?e (?h ++ [?d]) ?o ?t)] =>
      let line := fresh "line" in
      let Hp := fresh "Hp" in
      destruct (print_pdr_fresh p e h d o t) as [line Hp];
      [ repeat apply is_Some_pdr_insert; eauto using run_result_pdr
      | rewrite Hp; clear Hp ]
  end.

Section CampaignFacts.
Context {P : Platform}.

(** The baseline sweep with the world it leaves, and the commands run when
    it raises. *)
Lemma gather_baselines_full (st : State) :
  if all_printable (baseline_rows (env st))
  then exists st',
      gather_baselines st = (Ret (recorded (baseline_rows (env st))), st') /\
      trace st' = trace st ++ baseline_commands /\
      env st' = baseline_world (env st)
  else exists st' n,
      gather_baselines st = (Raise ValueError, st') /\
      1 <= n <= 3 /\
      trace st' = trace st ++ take n baseline_commands.
Proof.
  destruct st as [e h o t].
  unfold gather_baselines, gather_baselines_with, banner, baseline_rows,
    baseline_commands, baseline_world, all_printable, recorded,
    reference_command, insecure_command, secure_command, labelled.
  unfold_bind. cbn [forallb omap list_omap].
  repeat first
    [ progress step_run
    | progress cbn [from_option andb id mbind option_bind app]
    | match goal with
      | |- context [if_truthy (match run_result ?c ?w with _ => _ end)] =>
          let d := fresh "d" in
          let H := fresh "Hrun" in
          destruct (run_result c w) as [d|] eqn:H
      end
    | step_print_pdr; rewrite !pdr_printable_insert by discriminate
    | match goal with
      | |- context [if pdr_printable ?d then _ else _] =>
          destruct (pdr_printable d)
      end ].
  all: try solve
    [ eexists; (exists 1 + exists 2 + exists 3);
      (split; [reflexivity|]); (split; [lia|]);
      cbn [trace take]; rewrite <- ?app_assoc; reflexivity ].
  all: eexists; split;
    [ apply (f_equal2 pair); [f_equal|reflexivity]; cbn [map heap];
      repeat (rewrite deref_fresh
              || rewrite deref_grow by (rewrite ?length_app; simpl; lia));
      reflexivity
    | cbn [trace env]; rewrite <- ?app_assoc; split; reflexivity ].
Qed.

Lemma attack_variants_over_full (rs : list Z) (st : State) :
  exists st',
    attack_variants_over execute_ns3 rs st
      = (Ret (attack_rows rs (env st)), st') /\
    trace st' = trace st ++ rates_commands rs ++ [reference_command] /\
    env st' = attack_world rs (env st).
Proof.
  destruct st as [e h o t].
  unfold attack_variants_over, banner, attack_world. unfold_bind. step_state.
  match goal with
  | |- context [for_each rs _ [] ?s] =>
      destruct (attack_loop_run rs [] s [] (rows_at_nil _))
        as (combined1 & [e1 h1 o1 t1] & Hrun1 & Hrows1 & Henv1 & Htrace1)
  end.
  rewrite Hrun1. simpl in *. step_run.
  unfold attack_rows, reference_rows, reference_command. rewrite <- Henv1.
  destruct (run_result (build_command false 700 25 25 win_default 120) e1)
    as [d|] eqn:Href; step_run.
  - match goal with
    | |- context [for_each rs (reference_body ?rf) _ ?s] =>
        destruct (reference_loop_run rf d rs combined1 s _
                    (rows_at_grow _ [d] _ _ Hrows1))
          as (combined2 & st2 & Hrun2 & Hrows2 & Henv2 & Htrace2)
    end.
    + simpl. apply list_lookup_middle. reflexivity.
    + rewrite Hrun2. simpl. eexists. split; [|split].
      * apply pd_DataFrame_run, Hrows2.
      * rewrite Htrace2. simpl. rewrite Htrace1, <- app_assoc. reflexivity.
      * rewrite Henv2. reflexivity.
  - eexists. split; [|split].
    + rewrite ?app_nil_r. apply pd_DataFrame_run, Hrows1.
    + simpl. rewrite Htrace1, <- app_assoc. reflexivity.
    + reflexivity.
Qed.

Lemma threshold_loop_full (lims : list Z) (collected : list ref) (st : State)
    (rows : list dict) :
  rows_at (heap st) collected rows ->
  if all_printable (limits_rows lims (env st))
  then exists collected' st',
      for_each lims (threshold_body execute_ns3) collected st
        = (Ret collected', st') /\
      rows_at (heap st') collected'
        (rows ++ recorded (limits_rows lims (env st))) /\
      trace st' = trace st ++ limits_commands lims
  else exists st' n,
      for_each lims (threshold_body execute_ns3) collected st
        = (Raise ValueError, st') /\
      1 <= n <= length lims /\
      trace st' = trace st ++ take n (limits_commands lims).
Proof.
  revert collected st rows.
  induction lims as [|lim lims IH]; intros collected st rows Hrows; simpl.
  - exists collected, st. rewrite !app_nil_r. auto.
  - destruct (threshold_body_run lim collected st rows Hrows)
      as (st1 & Henv1 & Htrace1 & Hbody).
    unfold_bind.
    destruct (from_option pdr_printable true (threshold_row lim (env st)));
      simpl.
    + destruct Hbody as (collected1 & Hrun1 & Hrows1). rewrite Hrun1.
      specialize (IH collected1 st1 _ Hrows1). rewrite Henv1 in IH.
      destruct (all_printable _).
      * destruct IH as (collected2 & st2 & Hrun2 & Hrows2 & Htrace2).
        exists collected2, st2. rewrite Hrun2. split; [reflexivity|]. split.
        -- unfold recorded. simpl.
           destruct (threshold_row lim (env st)); simpl in *;
             now rewrite <- ?app_assoc, ?app_nil_r in Hrows2.
        -- rewrite Htrace2, Htrace1, <- app_assoc. reflexivity.
      * destruct IH as (st2 & n & Hrun2 & Hn & Htrace2).
        exists st2, (S n). rewrite Hrun2. split; [reflexivity|].
        split; [lia|]. rewrite Htrace2, Htrace1, <- app_assoc. reflexivity.
    + rewrite Hbody. exists st1, 1. split; [reflexivity|]. split; [lia|].
      rewrite Htrace1. reflexivity.
Qed.

Lemma threshold_tests_over_full (lims : list Z) (st : State) :
  if all_printable (limits_rows lims (env st))
  then exists st',
      threshold_tests_over execute_ns3 lims st
        = (Ret (recorded (limits_rows lims (env st))), st') /\
      trace st' = trace st ++ limits_commands lims
  else exists st' n,
      threshold_tests_over execute_ns3 lims st = (Raise ValueError, st') /\
      1 <= n <= length lims /\
      trace st' = trace st ++ take n (limits_commands lims).
Proof.
  destruct st as [e h o t].
  unfold threshold_tests_over, banner. unfold_bind. step_state.
  match goal with
  | |- context [for_each lims _ [] ?s] =>
      pose proof (threshold_loop_full lims [] s [] (rows_at_nil _)) as Hloop
  end.
  cbn [env heap stdout trace app] in Hloop. destruct (all_printable _).
  - destruct Hloop as (collected1 & st1 & Hrun1 & Hrows1 & Htrace1).
    rewrite Hrun1. exists st1. split; [|exact Htrace1].
    apply pd_DataFrame_run, Hrows1.
  - destruct Hloop as (st1 & n & Hrun1 & Hn & Htrace1). rewrite Hrun1.
    exists st1, n. auto.
Qed.

(** [main] up to the first sweep, when the simulation file is there. *)
Lemma main_starts (st : State) :
  os_path_exists code_file (env st) = true ->
  main st
  = (base_df ← gather_baselines;
     rate_df ← gather_attack_variants;
     thresh_df ← gather_threshold_tests;
     mret (Some (base_df, rate_df, thresh_df)))
      (mkState (env st) (heap st)
         (stdout st ++ main_header ++ ["✅ Simulation code found." +:+ newline])
         (trace st)).
Proof.
  intros Hfile. destruct st as [e h o t]. cbn [env heap stdout trace] in *.
  unfold main. unfold_bind. unfold path_exists.
  cbn [print env heap stdout trace]. rewrite Hfile.
  cbn [negb print env heap stdout trace]. unfold main_header.
  rewrite <- !app_assoc. reflexivity.
Qed.

(** [main] when no recorded packet-delivery ratio is text. *)
Lemma main_sweeps_run (st : State) :
  let e0 := env st in
  let e1 := baseline_world e0 in
  let e2 := attack_world rates e1 in
  os_path_exists code_file e0 = true ->
  all_printable (baseline_rows e0) = true ->
  all_printable (limits_rows limits e2) = true ->
  exists st' : State,
    main st
    = (Ret (Some (recorded (baseline_rows e0), attack_rows rates e1,
                  recorded (limits_rows limits e2))), st') /\
    trace st' = trace st ++ campaign_commands.
Proof.
  intros e0 e1 e2 Hfile Hbase Hthresh.
  rewrite (main_starts st Hfile).
  match goal with
  | |- context [mkState ?e ?h ?o ?t] => set (s0 := mkState e h o t)
  end.
  pose proof (gather_baselines_full s0) as H1.
  change (env s0) with e0 in H1. rewrite Hbase in H1.
  destruct H1 as (s1 & Hrun1 & Htrace1 & Henv1).
  rewrite (bind_Ret _ _ _ _ _ Hrun1).
  destruct (attack_variants_over_full rates s1)
    as (s2 & Hrun2 & Htrace2 & Henv2).
  rewrite Henv1 in Hrun2, Henv2. fold e1 in Hrun2, Henv2. fold e2 in Henv2.
  change (@gather_attack_variants P) with (attack_variants_over execute_ns3 rates).
  rewrite (bind_Ret _ _ _ _ _ Hrun2).
  pose proof (threshold_tests_over_full limits s2) as H3.
  rewrite Henv2, Hthresh in H3. destruct H3 as (s3 & Hrun3 & Htrace3).
  change (@gather_threshold_tests P)
    with (threshold_tests_over execute_ns3 limits).
  rewrite (bind_Ret _ _ _ _ _ Hrun3).
  exists s3. split; [reflexivity|].
  rewrite Htrace3, Htrace2, Htrace1. unfold campaign_commands.
  cbn [trace s0]. rewrite <- !app_assoc. reflexivity.
Qed.

(** [main] when a recorded baseline cannot be printed. *)
Lemma main_baseline_raises (st : State) :
  os_path_exists code_file (env st) = true ->
  all_printable (baseline_rows (env st)) = false ->
  exists (st' : State) (n : nat),
    main st = (Raise ValueError, st') /\
    1 <= n <= 3 /\
    trace st' = trace st ++ take n baseline_commands.
Proof.
  intros Hfile Hbase. rewrite (main_starts st Hfile).
  match goal with
  | |- context [mkState ?e ?h ?o ?t] => set (s0 := mkState e h o t)
  end.
  pose proof (gather_baselines_full s0) as H1.
  change (env s0) with (env st) in H1. rewrite Hbase in H1.
  destruct H1 as (s1 & n & Hrun1 & Hn & Htrace1).
  rewrite (bind_Raise _ _ _ _ _ Hrun1).
  exists s1, n. split; [reflexivity|]. split; [exact Hn | exact Htrace1].
Qed.

(** [main] when a recorded threshold run cannot be printed. *)
Lemma main_threshold_raises (st : State) :
  let e0 := env st in
  let e1 := baseline_world e0 in
  let e2 := attack_world rates e1 in
  os_path_exists code_file e0 = true ->
  all_printable (baseline_rows e0) = true ->
  all_printable (limits_rows limits e2) = false ->
  exists (st' : State) (n : nat),
    main st = (Raise ValueError, st') /\
    1 <= n <= 6 /\
    trace st'
    = trace st ++ baseline_commands ++ rates_commands rates
      ++ [reference_command] ++ take n (limits_commands limits).
Proof.
  intros e0 e1 e2 Hfile Hbase Hthresh.
  rewrite (main_starts st Hfile).
  match goal with
  | |- context [mkState ?e ?h ?o ?t] => set (s0 := mkState e h o t)
  end.
  pose proof (gather_baselines_full s0) as H1.
  change (env s0) with e0 in H1. rewrite Hbase in H1.
  destruct H1 as (s1 & Hrun1 & Htrace1 & Henv1).
  rewrite (bind_Ret _ _ _ _ _ Hrun1).
  destruct (attack_variants_over_full rates s1)
    as (s2 & Hrun2 & Htrace2 & Henv2).
  rewrite Henv1 in Hrun2, Henv2. fold e1 in Hrun2, Henv2. fold e2 in Henv2.
  change (@gather_attack_variants P) with (attack_variants_over execute_ns3 rates).
  rewrite (bind_Ret _ _ _ _ _ Hrun2).
  pose proof (threshold_tests_over_full limits s2) as H3.
  rewrite Henv2, Hthresh in H3. destruct H3 as (s3 & n & Hrun3 & Hn & Htrace3).
  change (@gather_threshold_tests P)
    with (threshold_tests_over execute_ns3 limits).
  rewrite (bind_Raise _ _ _ _ _ Hrun3).
  exists s3, n. split; [reflexivity|]. split; [exact Hn|].
  rewrite Htrace3, Htrace2, Htrace1. cbn [trace s0].
  rewrite <- !app_assoc. reflexivity.
Qed.

End CampaignFacts.

(** X6. Whenever the baseline sweep returns, its data frame holds one row
    for each of the three runs that returned a record, in the order of the
    runs and under that run's label; a run that failed contributes nothing
    and does not shift the labels of the others. *)
Theorem baseline_sweep_keeps_successful_rows {P : Platform} (st st' : State)
    (table : Table) :
  let e1 := world_after reference_command (env st) in
  let e2 := world_after (insecure_command 700) e1 in
  let row (label : string) (out : option dict) : list dict :=
    option_list (labelled label <$> out) in
  gather_baselines st = (Ret table, st') ->
  table
  = row "RPL" (run_result reference_command (env st))
    ++ row "InsecRPL" (run_result (insecure_command 700) e1)
    ++ row "SecRPL" (run_result (secure_command 700) e2) /\
  sublist (map scenario_of table)
    [Some (PyStr "RPL"); Some (PyStr "InsecRPL"); Some (PyStr "SecRPL")] /\
  env st' = baseline_world (env st).
Proof.
  intros e1 e2 row Hrun.
  pose proof (gather_baselines_full st) as Hfull.
  destruct (all_printable (baseline_rows (env st))).
  2: { destruct Hfull as (? & ? & Hraise & _). congruence. }
  destruct Hfull as (st1 & Hret & _ & Henv).
  rewrite Hret in Hrun. injection Hrun as <- <-.
  split; [|split; [|exact Henv]].
  - unfold baseline_rows, recorded, row. fold e1 e2. simpl.
    destruct (run_result reference_command (env st));
      destruct (run_result (insecure_command 700) e1);
      destruct (run_result (secure_command 700) e2); reflexivity.
  - unfold baseline_rows, recorded. fold e1 e2. simpl.
    unfold scenario_of, labelled.
    destruct (run_result reference_command (env st));
      destruct (run_result (insecure_command 700) e1);
      destruct (run_result (secure_command 700) e2); simpl;
      rewrite ?lookup_insert_eq;
      repeat first [ apply sublist_nil | apply sublist_skip, sublist_nil
                   | apply sublist_skip | apply sublist_cons ];
      repeat constructor.
Qed.

Lemma baseline_sweep_keeps_successful_rows_witness :
  exists (table : Table) (st' : @State sim_platform),
    @gather_baselines sim_platform (sim_campaign_state 3 [1])
      = (Ret table, st') /\
    map scenario_of table = [Some (PyStr "RPL"); Some (PyStr "SecRPL")].
Proof.
  assert (Hreturns : returns (fst (@gather_baselines sim_platform
                                     (sim_campaign_state 3 [1]))) = true)
    by (vm_compute; reflexivity).
  destruct (@gather_baselines sim_platform (sim_campaign_state 3 [1]))
    as [[table|err] st'] eqn:Hrun; [|discriminate].
  destruct (@baseline_sweep_keeps_successful_rows sim_platform _ _ _ Hrun)
    as (Htable & _ & _).
  exists table, st'. split; [reflexivity|].
  rewrite Htable. vm_compute. reflexivity.
Defined.

Lemma reference_command_not_in_limits {P : Platform} (lims : list Z) :
  ~ In reference_command (limits_commands lims).
Proof.
  unfold limits_commands, threshold_command, reference_command.
  induction lims as [|lim lims IH]; cbn [map In]; [tauto|].
  intros [H|H]; [|tauto]. exact (attack_command_neq _ _ _ _ _ _ _ _ _ _ H).
Qed.

(** X7. When the simulation file is in place and no recorded
    packet-delivery ratio is text, [main] has the 22 simulations of a
    campaign run one after the other, whatever their outcomes: the three
    baselines, two per rate, the reference, one per threshold.  Each sweep
    starts in the world the sweep before it left.  The attack-disabled
    simulation is run twice, as the first and as the sixteenth command: the
    RPL row of the baseline table and the RPL rows of the rate table come
    from different runs. *)
Theorem campaign_runs_all_commands_in_order {P : Platform} (st : State) :
  let e0 := env st in
  let e1 := baseline_world e0 in
  let e2 := attack_world rates e1 in
  os_path_exists code_file e0 = true ->
  all_printable (baseline_rows e0) = true ->
  all_printable (limits_rows limits e2) = true ->
  exists st' : State,
    main st
    = (Ret (Some (recorded (baseline_rows e0), attack_rows rates e1,
                  recorded (limits_rows limits e2))), st') /\
    trace st' = trace st ++ campaign_commands /\
    length campaign_commands = 22 /\
    campaign_commands
    = [reference_command] ++ [insecure_command 700; secure_command 700]
      ++ rates_commands rates ++ [reference_command]
      ++ limits_commands limits /\
    ~ In reference_command
        ([insecure_command 700; secure_command 700] ++ rates_commands rates) /\
    ~ In reference_command (limits_commands limits).
Proof.
  intros e0 e1 e2 Hfile Hbase Hthresh.
  destruct (main_sweeps_run st Hfile Hbase Hthresh) as (st' & Hrun & Htrace).
  exists st'. split; [exact Hrun|]. split; [exact Htrace|].
  split; [reflexivity|]. split; [reflexivity|]. split.
  - intros Hin. apply in_app_or in Hin as [Hin|Hin].
    + unfold reference_command, insecure_command, secure_command in Hin.
      destruct Hin as [H|[H|[]]];
        exact (attack_command_neq _ _ _ _ _ _ _ _ _ _ H).
    + now apply reference_command_not_in_rates in Hin.
  - apply reference_command_not_in_limits.
Qed.

Lemma campaign_runs_all_commands_in_order_witness :
  exists (tables : Table * Table * Table) (st' : @State sim_platform),
    @main sim_platform (sim_state [code_file] [] (scripted_runs 22 [0; 4]))
      = (Ret (Some tables), st') /\
    length (trace st') = 22.
Proof.
  destruct (@campaign_runs_all_commands_in_order sim_platform
              (sim_state [code_file] [] (scripted_runs 22 [0; 4])))
    as (st' & Hrun & Htrace & Hlen & _); try (vm_compute; reflexivity).
  eexists _, st'. split; [exact Hrun|].
  rewrite Htrace. simpl. exact Hlen.
Defined.

(** X8. A recorded baseline whose packet-delivery ratio is text ends the
    campaign: printing it raises [ValueError] in the baseline sweep, the
    exception leaves [main], and neither the attack-intensity sweep nor the
    threshold sweep is run: at most the three baseline commands have been
    run. *)
Theorem unprintable_baseline_aborts_campaign {P : Platform} (st : State) :
  os_path_exists code_file (env st) = true ->
  all_printable (baseline_rows (env st)) = false ->
  exists (st' : State) (n : nat),
    main st = (Raise ValueError, st') /\
    1 <= n <= 3 /\
    trace st' = trace st ++ take n baseline_commands.
Proof. apply main_baseline_raises.
Qed.

Lemma unprintable_baseline_aborts_campaign_witness :
  exists (st' : @State sim_platform) (n : nat),
    @main sim_platform
      (sim_state [code_file] []
         ((0%Z, text_files) :: scripted_runs 21 []))
    = (Raise ValueError, st') /\
    1 <= n <= 3.
Proof.
  destruct (@unprintable_baseline_aborts_campaign sim_platform
              (sim_state [code_file] []
                 ((0%Z, text_files) :: scripted_runs 21 [])))
    as (st' & n & Hrun & Hn & _); try (vm_compute; reflexivity).
  exists st', n. split; [exact Hrun | exact Hn].
Defined.

(** X9. A recorded threshold run whose packet-delivery ratio is text ends
    the campaign as well, after the baseline and attack-intensity sweeps
    have been run in full: [ValueError] leaves the threshold sweep and
    [main], the thresholds after that run are not simulated, and [main]
    returns none of the three tables, so the 16 runs of the first two
    sweeps are lost with it. *)
Theorem unprintable_threshold_discards_campaign {P : Platform} (st : State) :
  let e0 := env st in
  let e1 := baseline_world e0 in
  let e2 := attack_world rates e1 in
  os_path_exists code_file e0 = true ->
  all_printable (baseline_rows e0) = true ->
  all_printable (limits_rows limits e2) = false ->
  exists (st' : State) (n : nat),
    main st = (Raise ValueError, st') /\
    1 <= n <= 6 /\
    trace st'
    = trace st ++ baseline_commands ++ rates_commands rates
      ++ [reference_command] ++ take n (limits_commands limits) /\
    length (baseline_commands ++ rates_commands rates ++ [reference_command])
    = 16.
Proof.
  intros e0 e1 e2 Hfile Hbase Hthresh.
  destruct (main_threshold_raises st Hfile Hbase Hthresh)
    as (st' & n & Hrun & Hn & Htrace).
  exists st', n. split; [exact Hrun|]. split; [exact Hn|].
  split; [exact Htrace | reflexivity].
Qed.

Lemma unprintable_threshold_discards_campaign_witness :
  exists (st' : @State sim_platform) (n : nat),
    @main sim_platform
      (sim_state [code_file] []
         (scripted_runs 17 [] ++ (0%Z, text_files) :: scripted_runs 4 []))
    = (Raise ValueError, st') /\
    1 <= n <= 6.
Proof.
  destruct (@unprintable_threshold_discards_campaign sim_platform
              (sim_state [code_file] []
                 (scripted_runs 17 [] ++ (0%Z, text_files)
                  :: scripted_runs 4 [])))
    as (st' & n & Hrun & Hn & _); try (vm_compute; reflexivity).
  exists st', n. split; [exact Hrun | exact Hn].
Defined.
(** ** The start-up checks after [os.makedirs] *)

(** X10. The output directory lies inside the root directory and is created
    before the checks are made.  On a platform where creating a directory
    leaves its parents in existence (as [os.makedirs] does), the check of
    the root directory therefore never fails: loading the module either
    raises out of [os.makedirs], or stops at the scratch check with the
    message "Scratch directory missing", or goes through; the message
    "NS-3 directory not found" is never printed. *)
Theorem root_check_cannot_fail_after_makedirs {P : Platform} (st : State) :
  (forall e e' : Env,
     os_makedirs OUTPUT_DIR e = Some e' ->
     os_path_exists NS3_ROOT e' = true) ->
  root_missing_message <> scratch_missing_message /\
  (module_init st = (Raise OSError, st) \/
   exists e1 : Env,
     os_makedirs OUTPUT_DIR (env st) = Some e1 /\
     (module_init st
      = (Raise (SystemExit 1),
         mkState e1 (heap st) (stdout st ++ [scratch_missing_message])
           (trace st)) \/
      module_init st = (Ret tt, mkState e1 (heap st) (stdout st) (trace st)))).
Proof.
  intros Hparents. split; [discriminate|].
  destruct st as [e h o t]. cbn [env heap stdout trace].
  unfold module_init. unfold_bind.
  unfold makedirs, path_exists, exit, raise. cbn [env heap stdout trace].
  destruct (os_makedirs OUTPUT_DIR e) as [e1|] eqn:Hmk; [right | now left].
  exists e1. split; [reflexivity|].
  cbn [env heap stdout trace print]. rewrite (Hparents _ _ Hmk).
  cbn [negb env heap stdout trace].
  destruct (os_path_exists SCRATCH_DIR e1); cbn [negb print env heap stdout trace];
    [right | left]; reflexivity.
Qed.

Lemma sim_makedirs_parents (e e' : sim_env) :
  sim_makedirs OUTPUT_DIR e = Some e' -> sim_exists NS3_ROOT e' = true.
Proof.
  intros [= <-]. unfold sim_exists. cbn [sim_paths].
  cbn [existsb].
  repeat (apply orb_true_iff;
          first [left; vm_compute; reflexivity | right]).
Qed.

Lemma root_check_cannot_fail_after_makedirs_witness :
  @module_init sim_platform (sim_state [] [] [])
  = (Raise (SystemExit 1),
     @mkState sim_platform (mkSimEnv (path_prefixes "" OUTPUT_DIR) [] [])
       [] [scratch_missing_message] []).
Proof.
  destruct (@root_check_cannot_fail_after_makedirs sim_platform
              (sim_state [] [] []) sim_makedirs_parents)
    as [_ [Hos | (e1 & Hmk & [Hexit | Hok])]].
  - vm_compute in Hos. discriminate Hos.
  - rewrite Hexit. injection Hmk as <-. vm_compute. reflexivity.
  - exfalso. vm_compute in Hok. discriminate Hok.
Defined.

(** ** The baseline sweep labels the executor's dict in place *)

Section SharedRecord.
Context {P : Platform}.

Lemma pdr_printable_truthy (d : dict) :
  pdr_printable d = true -> dict_truthy d = true.
Proof.
  unfold pdr_printable, dict_truthy. intros Hd.
  destruct (d !! "pdr") as [v|] eqn:Hv; [|discriminate].
  apply negb_true_iff, Nat.eqb_neq.
  apply (map_size_ne_0_lookup_2 _ "pdr"). eauto.
Qed.

Lemma pdr_printable_check (d : dict) :
  pdr_printable d = true -> pdr_check d = Ret tt.
Proof.
  unfold pdr_printable, pdr_check.
  destruct (d !! "pdr") as [v|]; [|discriminate]. simpl. now intros ->.
Qed.

End SharedRecord.

(** X11. The baseline sweep writes the label into the dict the executor
    returned, without copying it.  With an executor that hands out one and
    the same dict object on every call (a mock with a fixed return value),
    the three rows of the data frame are that one dict: all three carry the
    label written last, SecRPL.  With an executor that builds a new dict on
    every call the rows carry RPL, InsecRPL and SecRPL. *)
Theorem baseline_sweep_labels_in_place {P : Platform} (r : ref) (d : dict)
    (st : State) :
  heap st !! r = Some d ->
  pdr_printable d = true ->
  (exists st' : State,
     gather_baselines_with (stub_executor (fun _ => StubShared r)) st
     = (Ret [labelled "SecRPL" d; labelled "SecRPL" d; labelled "SecRPL" d],
        st') /\
     heap st' = <[r := labelled "SecRPL" d]> (heap st)) /\
  (exists st' : State,
     gather_baselines_with (stub_executor (fun _ => StubRecord d)) st
     = (Ret [labelled "RPL" d; labelled "InsecRPL" d; labelled "SecRPL" d],
        st') /\
     heap st'
     = heap st ++ [labelled "RPL" d; labelled "InsecRPL" d;
                   labelled "SecRPL" d]).
Proof.
  intros Hr Hpdr.
  assert (Hlen : r < length (heap st)) by (eapply lookup_lt_Some; eauto).
  assert (Hd : deref (heap st) r = d) by (unfold deref; now rewrite Hr).
  assert (Hlab : forall l d', pdr_printable (labelled l d') = pdr_printable d').
  { intros l d'. unfold labelled. now apply pdr_printable_insert. }
  split.
  - pose proof (gather_baselines_stub (fun _ => StubShared r) st) as Hrun.
    unfold baseline_cases, baseline_case in Hrun. cbn [res_bind] in Hrun.
    rewrite Hd in Hrun.
    rewrite (pdr_printable_truthy _ Hpdr), (pdr_printable_check _ Hpdr) in Hrun.
    cbn [res_bind] in Hrun.
    rewrite (deref_alter_eq _ _ _ Hlen), Hd in Hrun.
    rewrite labelled_truthy in Hrun.
    rewrite (pdr_printable_check (labelled "RPL" d)) in Hrun
      by now rewrite Hlab.
    cbn [res_bind] in Hrun.
    rewrite (deref_alter_eq _ (alter _ r (heap st)) r) in Hrun
      by now rewrite length_alter.
    rewrite (deref_alter_eq _ _ _ Hlen), Hd in Hrun.
    rewrite labelled_truthy in Hrun.
    rewrite (pdr_printable_check (labelled "InsecRPL" (labelled "RPL" d)))
      in Hrun by now rewrite !Hlab.
    cbn [res_bind fst snd app map] in Hrun.
    rewrite (deref_alter_eq _ (alter _ r (alter _ r (heap st))) r) in Hrun
      by now rewrite !length_alter.
    rewrite (deref_alter_eq _ (alter _ r (heap st)) r) in Hrun
      by now rewrite length_alter.
    rewrite (deref_alter_eq _ _ _ Hlen), Hd in Hrun.
    assert (Hfinal : labelled "SecRPL" (labelled "InsecRPL" (labelled "RPL" d))
                     = labelled "SecRPL" d)
      by (unfold labelled; now rewrite !insert_insert_eq).
    rewrite Hfinal in Hrun. destruct Hrun as [o' Hrun].
    eexists. split; [exact Hrun|]. cbn [heap].
    rewrite !list_alter_alter_eq.
    apply list_eq. intros i. destruct (decide (i = r)) as [->|Hi].
    + rewrite list_lookup_alter_eq, list_lookup_insert_eq by exact Hlen.
      rewrite Hr. simpl. now rewrite Hfinal.
    + now rewrite list_lookup_alter_ne, list_lookup_insert_ne by congruence.
  - pose proof (gather_baselines_stub (fun _ => StubRecord d) st) as Hrun.
    unfold baseline_cases, baseline_case in Hrun. cbn [res_bind] in Hrun.
    rewrite (pdr_printable_truthy _ Hpdr), (pdr_printable_check _ Hpdr) in Hrun.
    cbn [res_bind fst snd app map] in Hrun.
    set (h := heap st) in *.
    set (l1 := labelled "RPL" d) in *.
    set (l2 := labelled "InsecRPL" d) in *.
    set (l3 := labelled "SecRPL" d) in *.
    assert (H3 : deref (((h ++ [l1]) ++ [l2]) ++ [l3])
                   (length ((h ++ [l1]) ++ [l2])) = l3)
      by apply deref_fresh.
    assert (H2 : deref (((h ++ [l1]) ++ [l2]) ++ [l3]) (length (h ++ [l1]))
                 = l2).
    { rewrite deref_grow by (rewrite !length_app; simpl; lia).
      apply deref_fresh. }
    assert (H1 : deref (((h ++ [l1]) ++ [l2]) ++ [l3]) (length h) = l1).
    { rewrite !deref_grow by (rewrite ?length_app; simpl; lia).
      apply deref_fresh. }
    rewrite H1, H2, H3 in Hrun. destruct Hrun as [o' Hrun].
    eexists. split; [exact Hrun|]. cbn [heap].
    now rewrite <- !app_assoc.
Qed.

Lemma baseline_sweep_labels_in_place_witness :
  exists st' : @State sim_platform,
    @gather_baselines_with sim_platform
      (stub_executor (fun _ => StubShared 0)) sim_stub_state
    = (Ret [labelled "SecRPL" sample_record; labelled "SecRPL" sample_record;
            labelled "SecRPL" sample_record], st').
Proof.
  destruct (@baseline_sweep_labels_in_place sim_platform 0 sample_record
              sim_stub_state)
    as [(st' & Hrun & _) _]; try reflexivity.
  exists st'. exact Hrun.
Defined.
(** ** The attack-intensity sweep on an executor that shares its dict *)

Lemma same_off_annotation_refl (d : dict) : same_off_annotation d d.
Proof. intros label r. reflexivity. Qed.

Lemma annotated_annotated (label label' : string) (r r' : Z) (d : dict) :
  annotated label "attack_pps" r (annotated label' "attack_pps" r' d)
  = annotated label "attack_pps" r d.
Proof.
  unfold annotated, labelled. apply map_eq. intros k.
  destruct (decide (k = "attack_pps")) as [->|Hk];
    [now rewrite !lookup_insert_eq|].
  destruct (decide (k = "scenario")) as [->|Hk'];
    repeat first [ rewrite lookup_insert_eq
                 | rewrite lookup_insert_ne by congruence ];
    reflexivity.
Qed.

Lemma same_off_annotation_annotated (label : string) (r : Z) (d1 d2 : dict) :
  same_off_annotation d1 d2 ->
  same_off_annotation (annotated label "attack_pps" r d1) d2.
Proof. intros H label' r'. rewrite annotated_annotated. apply H. Qed.

Lemma annotated_truthy (label key : string) (r : Z) (d : dict) :
  dict_truthy (annotated label key r d) = true.
Proof.
  unfold dict_truthy, annotated. apply negb_true_iff, Nat.eqb_neq.
  apply (map_size_ne_0_lookup_2 _ key). rewrite lookup_insert_eq. eauto.
Qed.

Section SharedAttack.
Context {P : Platform}.

(** One pass of the rate loop: the shared dict is relabelled twice and its
    address appended twice. *)
Lemma attack_variants_body_shared (r : ref) (rate : Z) (combined : list ref)
    (st : State) (d0 : dict) :
  heap st !! r = Some d0 ->
  dict_truthy d0 = true ->
  exists o' : list string,
    attack_variants_body (shared r) rate combined st
    = (Ret (combined ++ [r; r]),
       mkState (env st)
         (<[r := annotated "SecRPL" "attack_pps" rate d0]> (heap st))
         o' (trace st)).
Proof.
  intros Hr Htruthy. destruct st as [e h o t]. cbn [env heap stdout trace] in *.
  assert (Hlen : r < length h) by (eapply lookup_lt_Some; eauto).
  unfold attack_variants_body, shared, stub_executor, stub_return.
  unfold_bind. cbn [print env heap stdout trace].
  unfold if_truthy. cbn [heap].
  assert (Hd : deref h r = d0) by (unfold deref; now rewrite Hr).
  rewrite Hd, Htruthy. cbn [setitem env heap stdout trace].
  rewrite list_alter_alter_eq.
  rewrite (deref_alter_eq _ _ _ Hlen), Hd.
  change ((insert "attack_pps" (PyInt rate) ∘ insert "scenario" (PyStr "InsecRPL")) d0)
    with (annotated "InsecRPL" "attack_pps" rate d0).
  rewrite annotated_truthy. cbn [setitem env heap stdout trace].
  rewrite !list_alter_alter_eq.
  eexists. f_equal; [now rewrite <- app_assoc|].
  f_equal. apply list_eq. intros i. destruct (decide (i = r)) as [->|Hi].
  - rewrite list_lookup_alter_eq, list_lookup_insert_eq by exact Hlen.
    rewrite Hr. simpl. f_equal.
    change (annotated "SecRPL" "attack_pps" rate
              (annotated "InsecRPL" "attack_pps" rate d0)
            = annotated "SecRPL" "attack_pps" rate d0).
    apply annotated_annotated.
  - now rewrite list_lookup_alter_ne, list_lookup_insert_ne by congruence.
Qed.

Lemma attack_loop_shared (r : ref) (rs : list Z) (combined : list ref)
    (st : State) (d d0 : dict) :
  heap st !! r = Some d0 ->
  dict_truthy d0 = true ->
  same_off_annotation d0 d ->
  exists (o' : list string) (d1 : dict),
    for_each rs (attack_variants_body (shared r)) combined st
    = (Ret (combined ++ replicate (2 * length rs) r),
       mkState (env st) (<[r := d1]> (heap st)) o' (trace st)) /\
    dict_truthy d1 = true /\
    same_off_annotation d1 d /\
    d1 = match last rs with
         | Some final => annotated "SecRPL" "attack_pps" final d
         | None => d0
         end.
Proof.
  revert combined st d0.
  induction rs as [|rate rs IH]; intros combined st d0 Hr Htruthy Hsame.
  - exists (stdout st), d0. simpl. rewrite app_nil_r.
    rewrite list_insert_id by exact Hr. destruct st. auto.
  - destruct (attack_variants_body_shared r rate combined st d0 Hr Htruthy)
      as [o1 Hbody].
    assert (Hlen : r < length (heap st)) by (eapply lookup_lt_Some; eauto).
    cbn [for_each]. rewrite (bind_Ret _ _ _ _ _ Hbody).
    match goal with
    | |- context [for_each rs _ ?c ?s] =>
        destruct (IH c s (annotated "SecRPL" "attack_pps" rate d0))
          as (o2 & d1 & Hloop & Ht1 & Hs1 & Hd1)
    end.
    + cbn [heap]. now apply list_lookup_insert_eq.
    + apply annotated_truthy.
    + now apply same_off_annotation_annotated.
    + exists o2, d1. rewrite Hloop. cbn [env heap trace].
      split; [|split; [exact Ht1 | split; [exact Hs1|]]].
      * f_equal; [|now rewrite list_insert_insert_eq].
        f_equal. rewrite <- app_assoc. f_equal.
        replace (2 * length (rate :: rs)) with (S (S (2 * length rs)))
          by (simpl; lia).
        reflexivity.
      * rewrite Hd1. destruct rs as [|rate' rs'].
        -- simpl. apply Hsame.
        -- change (last (rate :: rate' :: rs')) with (last (rate' :: rs')).
           destruct (last (rate' :: rs')) eqn:E; [reflexivity|].
           apply last_None in E. discriminate E.
Qed.

End SharedAttack.

(** X12. The attack-intensity sweep, too, writes label and rate into the
    dict the executor returned.  With an executor that hands out one and
    the same dict object on every call, the 2N rows of the rate loop are
    that one dict: all of them carry the label SecRPL and the last rate.
    The N reference rows are copies made with [ref.copy()]: they carry the
    label RPL and each its own rate. *)
Theorem attack_sweep_on_shared_record {P : Platform} (r : ref) (d : dict)
    (rs : list Z) (final : Z) (st : State) :
  heap st !! r = Some d ->
  dict_truthy d = true ->
  last rs = Some final ->
  exists st' : State,
    attack_variants_over (stub_executor (fun _ => StubShared r)) rs st
    = (Ret (replicate (2 * length rs)
              (annotated "SecRPL" "attack_pps" final d)
            ++ map (fun rate => annotated "RPL" "attack_pps" rate d) rs),
       st').
Proof.
  intros Hr Htruthy Hlast. destruct st as [e h o t].
  cbn [env heap stdout trace] in *.
  assert (Hlen : r < length h) by (eapply lookup_lt_Some; eauto).
  unfold attack_variants_over, banner. unfold_bind. step_state.
  match goal with
  | |- context [for_each rs _ [] ?s] =>
      destruct (attack_loop_shared r rs [] s d d Hr Htruthy
                  (same_off_annotation_refl d))
        as (o1 & d1 & Hloop & Ht1 & Hs1 & Hd1)
  end.
  fold (shared r). rewrite Hloop. rewrite Hlast in Hd1. subst d1.
  cbn [app env heap stdout trace].
  unfold shared at 1. unfold stub_executor, stub_return. unfold_bind.
  unfold if_truthy. cbn [heap].
  set (dS := annotated "SecRPL" "attack_pps" final d) in *.
  assert (Hh : <[r := dS]> h !! r = Some dS) by now apply list_lookup_insert_eq.
  assert (Hd : deref (<[r := dS]> h) r = dS) by (unfold deref; now rewrite Hh).
  rewrite Hd, Ht1.
  assert (Hrows : rows_at (<[r := dS]> h) (replicate (2 * length rs) r)
                    (replicate (2 * length rs) dS)).
  { unfold rows_at. generalize (2 * length rs). intros n.
    induction n; simpl; constructor; auto. }
  match goal with
  | |- context [for_each rs (reference_body r) ?c ?s] =>
      destruct (reference_loop_run r dS rs c s _ Hrows Hh)
        as (combined2 & st2 & Hrun2 & Hrows2 & _ & _)
  end.
  rewrite Hrun2. exists st2.
  rewrite (pd_DataFrame_run _ _ _ Hrows2). f_equal. f_equal. f_equal.
  apply map_ext. intros rate. apply Hs1.
Qed.

Lemma attack_sweep_on_shared_record_witness :
  exists st' : @State sim_platform,
    @attack_variants_over sim_platform
      (stub_executor (fun _ => StubShared 0)) rates sim_stub_state
    = (Ret (replicate 12 (annotated "SecRPL" "attack_pps" 1100 sample_record)
            ++ map (fun rate => annotated "RPL" "attack_pps" rate sample_record)
                 rates),
       st').
Proof.
  destruct (@attack_sweep_on_shared_record sim_platform 0 sample_record rates
              1100 sim_stub_state)
    as [st' Hrun]; try reflexivity.
  exists st'. exact Hrun.
Defined.
(** ** The command line determines the configuration *)

Lemma append_cancel_l (p x y : string) : p +:+ x = p +:+ y -> x = y.
Proof.
  induction p as [|c p IH]; simpl; [auto|]. intros [= H]. auto.
Qed.

(** Two strings free of the character [c], each followed by [c]: they end
    at the same place. *)
Lemma split_at_char (c : ascii) (u v s s' : string) :
  count_char c u = 0 -> count_char c v = 0 ->
  u +:+ String c s = v +:+ String c s' -> u = v /\ s = s'.
Proof.
  revert v. induction u as [|a u IH]; intros [|b v] Hu Hv H; simpl in *.
  - injection H as ->. auto.
  - injection H as <- _. rewrite Ascii.eqb_refl in Hv. discriminate.
  - injection H as -> _. rewrite Ascii.eqb_refl in Hu. discriminate.
  - injection H as -> H.
    destruct (Ascii.eqb b c); [discriminate|]. simpl in *.
    destruct (IH v Hu Hv H) as [-> ->]. auto.
Qed.

Lemma to_int_not_nil (z : Z) :
  Z.to_int z <> Decimal.Pos Decimal.Nil /\
  Z.to_int z <> Decimal.Neg Decimal.Nil.
Proof.
  pose proof (DecimalZ.to_of (Z.to_int z)) as H.
  rewrite DecimalZ.of_to in H.
  split; intros E; rewrite E in H; discriminate H.
Qed.

Lemma str_of_Z_inj (a b : Z) : str_of_Z a = str_of_Z b -> a = b.
Proof.
  unfold str_of_Z. intros H. apply DecimalZ.to_int_inj.
  destruct (to_int_not_nil a) as [Ha1 Ha2].
  destruct (to_int_not_nil b) as [Hb1 Hb2].
  pose proof (NilZero.isi _ Ha1 Ha2) as Ia.
  pose proof (NilZero.isi _ Hb1 Hb2) as Ib.
  rewrite H in Ia. rewrite Ia in Ib. now injection Ib.
Qed.

(** A number followed by a separator that is no digit. *)
Lemma number_then_separator (c : ascii) (a b : Z) (s s' : string) :
  digit_or_sign c = false ->
  str_of_Z a +:+ String c s = str_of_Z b +:+ String c s' ->
  a = b /\ s = s'.
Proof.
  intros Hc H.
  destruct (split_at_char c _ _ _ _ (count_char_str_of_Z c a Hc)
              (count_char_str_of_Z c b Hc) H) as [Hab Hs].
  split; [now apply str_of_Z_inj | exact Hs].
Qed.

(** X13. The command line determines the configuration it was built from:
    two attack-enabled invocations with the same window build the same
    command only if attack rate, threshold, node count and duration are
    the same, and two attack-disabled invocations only if node count and
    duration are.  No command is built by both branches. *)
Theorem command_determines_configuration {P : Platform}
    (attack_rate limit node_count duration : Z)
    (attack_rate' limit' node_count' duration' : Z) (win win' : float) :
  (build_command true attack_rate limit node_count win duration
   = build_command true attack_rate' limit' node_count' win duration' <->
   attack_rate = attack_rate' /\ limit = limit' /\
   node_count = node_count' /\ duration = duration') /\
  (build_command false attack_rate limit node_count win duration
   = build_command false attack_rate' limit' node_count' win' duration' <->
   node_count = node_count' /\ duration = duration') /\
  build_command true attack_rate limit node_count win duration
  <> build_command false attack_rate' limit' node_count' win' duration'.
Proof.
  split; [|split].
  - split; [|now intros (-> & -> & -> & ->)].
    unfold build_command. intros H.
    apply append_cancel_l, append_cancel_l in H.
    cbn [String.append] in H.
    apply (number_then_separator " ") in H as [-> H]; [|reflexivity].
    apply (append_cancel_l "--attackerPkt=120 --threshold=") in H.
    cbn [String.append] in H.
    apply (number_then_separator " ") in H as [-> H]; [|reflexivity].
    apply (append_cancel_l "--windowSec=") in H.
    apply append_cancel_l in H.
    apply (append_cancel_l " --nNodes=") in H.
    cbn [String.append] in H.
    apply (number_then_separator " ") in H as [-> H]; [|reflexivity].
    apply (append_cancel_l "--area=60 --rateKbps=16 --simTime=") in H.
    apply (number_then_separator "'") in H as [-> _]; [|reflexivity].
    auto.
  - split; [|now intros (-> & ->)].
    unfold build_command. intros H.
    apply append_cancel_l, append_cancel_l in H.
    cbn [String.append] in H.
    apply (number_then_separator " ") in H as [-> H]; [|reflexivity].
    apply (append_cancel_l "--area=60 --rateKbps=16 --simTime=") in H.
    apply (number_then_separator "'") in H as [-> _]; [|reflexivity].
    auto.
  - apply attack_command_neq.
Qed.
(** ** The report stage *)

Section ReportFacts.
Context {P : Platform} {L : Library}.

Lemma R_bind_Done {A B} (m : R A) (k : A -> R B) (s s' : Session) (a : A) :
  m s = (Done a, s') -> (x ← m; k x) s = k a s'.
Proof. unfold mbind, R_bind. now intros ->. Qed.

Lemma R_bind_Failed {A B} (m : R A) (k : A -> R B) (s s' : Session)
    (e : failure) :
  m s = (Failed e, s') -> (x ← m; k x) s = (Failed e, s').
Proof. unfold mbind, R_bind. now intros ->. Qed.

Lemma lift_Ret {A} (m : M A) (s : Session) (a : A) (st : State) :
  m (program s) = (Ret a, st) -> lift m s = (Done a, mkSession st (calls s)).
Proof. unfold lift. now intros ->. Qed.

Lemma lift_Raise {A} (m : M A) (s : Session) (e : exn) (st : State) :
  m (program s) = (Raise e, st) ->
  lift m s = (Failed (Python e), mkSession st (calls s)).
Proof. unfold lift. now intros ->. Qed.

Lemma say_run (line : string) (s : Session) :
  say line s
  = (Done tt,
     mkSession (mkState (env (program s)) (heap (program s))
                  (stdout (program s) ++ [line]) (trace (program s)))
       (calls s)).
Proof. reflexivity. Qed.

Lemma saved_files_app (made1 made2 : list library_call) :
  saved_files (made1 ++ made2) = saved_files made1 ++ saved_files made2.
Proof. unfold saved_files. apply omap_app. Qed.

(** *** Rules for [saves] *)

Lemma saves_ret {A} (a : A) : saves (mret a : R A) [].
Proof.
  intros s. exists []. simpl. rewrite app_nil_r. repeat split; auto.
Qed.

Lemma saves_throw {A} (e : failure) (files : list string) :
  saves (throw e : R A) files.
Proof.
  intros s. exists []. simpl. rewrite app_nil_r.
  split; [reflexivity|]. split; [apply prefix_nil | discriminate].
Qed.

Lemma saves_bind {A B} (m : R A) (k : A -> R B) (files1 files2 : list string) :
  saves m files1 -> (forall a, saves (k a) files2) ->
  saves (x ← m; k x) (files1 ++ files2).
Proof.
  intros Hm Hk s. destruct (Hm s) as (made1 & Hcalls1 & Hpre1 & Hdone1).
  unfold mbind, R_bind. destruct (m s) as [[a|e] s1] eqn:Hms; simpl in *.
  - destruct (Hk a s1) as (made2 & Hcalls2 & Hpre2 & Hdone2).
    exists (made1 ++ made2). rewrite Hcalls2, Hcalls1, <- app_assoc.
    split; [reflexivity|]. rewrite saved_files_app, (Hdone1 a eq_refl).
    split; [now apply prefix_app|].
    intros b Hb. now rewrite (Hdone2 b Hb).
  - exists made1. split; [exact Hcalls1|].
    split; [now apply prefix_app_r | discriminate].
Qed.

Lemma saves_bind_quiet {A B} (m : R A) (k : A -> R B) (files : list string) :
  saves m [] -> (forall a, saves (k a) files) -> saves (x ← m; k x) files.
Proof. intros Hm Hk. apply (saves_bind m k [] files Hm Hk). Qed.

Lemma saves_lift {A} (m : M A) : saves (lift m) [].
Proof.
  intros s. exists []. unfold lift.
  destruct (m (program s)) as [[a|e] st]; simpl; rewrite app_nil_r;
    repeat split; auto.
Qed.

Lemma saves_of_library {A} (r : string + A) : saves (of_library r) [].
Proof. destruct r; [apply saves_throw | apply saves_ret]. Qed.

Lemma saves_draw (c : plt.call) :
  (forall path, c <> plt.savefig path) -> saves (draw c) [].
Proof.
  intros Hc s. unfold draw. destruct (plt_raises (calls s) c); simpl.
  - exists []. rewrite app_nil_r. repeat split; auto.
  - exists [Plt c]. split; [reflexivity|].
    assert (Hsaved : saved_files [Plt c] = []).
    { destruct c; try reflexivity. now destruct (Hc path). }
    rewrite Hsaved. auto.
Qed.

Lemma saves_savefig (path : string) : saves (savefig path) [path].
Proof.
  intros s. unfold savefig.
  destruct (plt_savefig (calls s) path (env (program s))); simpl.
  - exists []. rewrite app_nil_r. split; [reflexivity|].
    split; [apply prefix_nil | discriminate].
  - exists [Plt (plt.savefig path)]. repeat split; auto.
Qed.

Lemma saves_savefig_then {B} (path : string) (k : R B) (files : list string) :
  saves k files -> saves (savefig path;; k) (path :: files).
Proof.
  intros Hk. apply (saves_bind (savefig path) (fun _ => k) [path] files).
  - apply saves_savefig.
  - intros _. exact Hk.
Qed.

Lemma saves_for_in {A} (xs : list A) (body : A -> R unit) :
  (forall x, saves (body x) []) -> saves (for_in xs body) [].
Proof.
  intros Hbody. induction xs as [|x xs IH]; simpl.
  - apply saves_ret.
  - apply saves_bind_quiet; [apply Hbody | intros _; exact IH].
Qed.

Lemma saves_comprehension {A B} (f : A -> R B) (xs : list A) :
  (forall x, saves (f x) []) -> saves (comprehension f xs) [].
Proof.
  intros Hf. induction xs as [|x xs IH]; simpl.
  - apply saves_ret.
  - apply saves_bind_quiet; [apply Hf | intros y].
    apply saves_bind_quiet; [exact IH | intros ys; apply saves_ret].
Qed.

End ReportFacts.

(** Fragments that save nothing. *)
Ltac quiet :=
  repeat first
    [ apply saves_ret
    | apply saves_throw
    | apply saves_lift
    | apply saves_of_library
    | apply saves_draw; discriminate
    | apply saves_for_in; intros
    | apply saves_comprehension; intros
    | apply saves_bind_quiet; [|intros]
    | match goal with
      | |- saves (if ?b then _ else _) _ => destruct b
      | |- saves (match ?x with _ => _ end) _ => destruct x
      end ].

Section SavedFigures.
Context {P : Platform} {L : Library}.

Lemma saves_say (line : string) : saves (say line) [].
Proof. apply saves_lift. Qed.

Lemma saves_getitem_column (df : Frame) (col : string) :
  saves (getitem_column df col) [].
Proof. unfold getitem_column. quiet. Qed.

Lemma saves_getitem_label (df : Frame) (label : string) :
  saves (getitem_label df label) [].
Proof. unfold getitem_label. quiet. Qed.

Lemma saves_loc_label (df : Frame) (label col : string) :
  saves (loc_label df label col) [].
Proof.
  unfold loc_label. apply saves_bind_quiet;
    [apply saves_getitem_label | intros; apply saves_getitem_column].
Qed.

Lemma saves_sort_values (df : Frame) (col : string) :
  saves (sort_values df col) [].
Proof. unfold sort_values. quiet. Qed.

Lemma saves_iloc_0 (series : list pyval) : saves (iloc_0 series) [].
Proof. unfold iloc_0. quiet. Qed.

Lemma saves_literal_getitem (d : list (string * string)) (key : pyval) :
  saves (literal_getitem d key) [].
Proof. unfold literal_getitem. quiet. Qed.

Lemma saves_rate_curve (rate_df : Frame) (ycol label : string) :
  saves (rate_curve rate_df ycol label) [].
Proof.
  unfold rate_curve.
  apply saves_bind_quiet; [apply saves_getitem_label | intros selected].
  apply saves_bind_quiet; [apply saves_sort_values | intros subset].
  destruct (df_empty subset); [apply saves_ret|].
  apply saves_bind_quiet; [apply saves_getitem_column | intros pps].
  apply saves_bind_quiet; [apply saves_of_library | intros x].
  apply saves_bind_quiet; [apply saves_getitem_column | intros y].
  apply saves_bind_quiet; [apply saves_literal_getitem | intros marker].
  apply saves_bind_quiet; [apply saves_literal_getitem | intros color].
  apply saves_draw. discriminate.
Qed.

Lemma saves_rate_figure (rate_df : Frame) (ycol ylabel title : string)
    (ylim : option (float * float)) (file : string) :
  saves (rate_figure rate_df ycol ylabel title ylim file)
    (if df_empty rate_df then [] else [OUTPUT_DIR +:+ "/" +:+ file]).
Proof.
  unfold rate_figure. destruct (df_empty rate_df); cbn [negb];
    [apply saves_ret|].
  apply saves_bind_quiet; [apply saves_draw; discriminate | intros _].
  apply saves_bind_quiet;
    [apply saves_for_in; intros; apply saves_rate_curve | intros _].
  do 3 (apply saves_bind_quiet; [apply saves_draw; discriminate | intros _]).
  apply saves_bind_quiet.
  { destruct ylim as [[bottom top]|];
      [apply saves_draw; discriminate | apply saves_ret]. }
  intros _.
  do 3 (apply saves_bind_quiet; [apply saves_draw; discriminate | intros _]).
  change [OUTPUT_DIR +:+ "/" +:+ file]
    with ([OUTPUT_DIR +:+ "/" +:+ file] ++ []).
  apply saves_bind; [apply saves_savefig | intros _].
  apply saves_draw. discriminate.
Qed.

Lemma saves_reference_line (baseline_df : Frame) (label name : string) :
  saves (reference_line baseline_df label name) [].
Proof.
  unfold reference_line.
  apply saves_bind_quiet; [apply saves_loc_label | intros series].
  apply saves_bind_quiet; [apply saves_iloc_0 | intros y].
  apply saves_bind_quiet; [apply saves_literal_getitem | intros color].
  apply saves_draw. discriminate.
Qed.

Lemma saves_threshold_figure (baseline_df thresh_df : Frame) :
  saves (threshold_figure baseline_df thresh_df)
    (if df_empty thresh_df then []
     else [OUTPUT_DIR +:+ "/pdr_vs_threshold.png"]).
Proof.
  unfold threshold_figure. destruct (df_empty thresh_df); cbn [negb];
    [apply saves_ret|].
  apply saves_bind_quiet; [apply saves_draw; discriminate | intros _].
  apply saves_bind_quiet; [apply saves_sort_values | intros subset].
  apply saves_bind_quiet; [apply saves_getitem_column | intros x].
  apply saves_bind_quiet; [apply saves_getitem_column | intros y].
  apply saves_bind_quiet; [apply saves_literal_getitem | intros color].
  apply saves_bind_quiet; [apply saves_draw; discriminate | intros _].
  apply saves_bind_quiet.
  { destruct (negb (df_empty baseline_df)); [|apply saves_ret].
    apply saves_bind_quiet; [|intros _]; apply saves_reference_line. }
  intros _.
  do 6 (apply saves_bind_quiet; [apply saves_draw; discriminate | intros _]).
  change [OUTPUT_DIR +:+ "/pdr_vs_threshold.png"]
    with ([OUTPUT_DIR +:+ "/pdr_vs_threshold.png"] ++ []).
  apply saves_bind; [apply saves_savefig | intros _].
  apply saves_draw. discriminate.
Qed.

End SavedFigures.

(** X14. [make_graphs] saves a figure only for a table that is not empty,
    and only in this order: the three figures over the attack interval when
    the rate table has rows, then the figure over the threshold when the
    threshold table has rows.  Whatever is raised on the way, the figures
    saved so far are the first of these; when [make_graphs] returns, all of
    them have been saved. *)
Theorem make_graphs_saves_in_order {P : Platform} {L : Library}
    (baseline_df rate_df thresh_df : Frame) (s : Session) :
  let rate_figures :=
    if df_empty rate_df then []
    else [OUTPUT_DIR +:+ "/dao_overhead.png";
          OUTPUT_DIR +:+ "/pdr_vs_attack.png";
          OUTPUT_DIR +:+ "/delay_vs_attack.png"] in
  let threshold_figures :=
    if df_empty thresh_df then []
    else [OUTPUT_DIR +:+ "/pdr_vs_threshold.png"] in
  exists made : list library_call,
    calls (snd (make_graphs baseline_df rate_df thresh_df s))
    = calls s ++ made /\
    saved_files made `prefix_of` rate_figures ++ threshold_figures /\
    (fst (make_graphs baseline_df rate_df thresh_df s) = Done tt ->
     saved_files made = rate_figures ++ threshold_figures).
Proof.
  intros rate_figures threshold_figures.
  assert (Hsaves : saves (make_graphs baseline_df rate_df thresh_df)
                     (rate_figures ++ threshold_figures)).
  { unfold make_graphs, rate_figures, threshold_figures.
    apply saves_bind_quiet; [apply saves_draw; discriminate | intros _].
    pose proof (saves_rate_figure rate_df "ctrl_rx" "DAO Packets Forwarded"
                  "DAO Control Traffic vs Attack Frequency" None
                  "dao_overhead.png") as H1.
    pose proof (saves_rate_figure rate_df "pdr" "Packet Delivery Ratio"
                  "PDR under Increasing Attack Frequency"
                  (Some (decimal 7 10, decimal 10 10)) "pdr_vs_attack.png")
      as H2.
    pose proof (saves_rate_figure rate_df "delay_ms" "End-to-End Delay (ms)"
                  "Average Latency vs DAO Attack Frequency" None
                  "delay_vs_attack.png") as H3.
    pose proof (saves_threshold_figure baseline_df thresh_df) as H4.
    pose proof (saves_bind _ _ _ _ H3 (fun _ => H4)) as H34.
    pose proof (saves_bind _ _ _ _ H2 (fun _ => H34)) as H234.
    pose proof (saves_bind _ _ _ _ H1 (fun _ => H234)) as H1234.
    destruct (df_empty rate_df); exact H1234. }
  destruct (Hsaves s) as (made & Hcalls & Hprefix & Hdone).
  exists made. split; [exact Hcalls|]. split; [exact Hprefix|].
  intros Hret. exact (Hdone tt Hret).
Qed.

Section MissingReference.
Context {P : Platform} {L : Library}.

Lemma fails_saving_bind_l {A B} (m : R A) (k : A -> R B) (files : list string) :
  fails_saving m files -> fails_saving (x ← m; k x) files.
Proof.
  intros Hm s. destruct (Hm s) as (e & s' & made & Hrun & Hcalls & Hpre).
  exists e, s', made. rewrite (R_bind_Failed _ _ _ _ _ Hrun). auto.
Qed.

Lemma fails_saving_bind_r {A B} (m : R A) (k : A -> R B)
    (files1 files2 : list string) :
  saves m files1 -> (forall a, fails_saving (k a) files2) ->
  fails_saving (x ← m; k x) (files1 ++ files2).
Proof.
  intros Hm Hk s. destruct (Hm s) as (made1 & Hcalls1 & Hpre1 & Hdone1).
  destruct (m s) as [[a|e] s1] eqn:Hms; simpl in *.
  - destruct (Hk a s1) as (e & s' & made2 & Hrun & Hcalls2 & Hpre2).
    exists e, s', (made1 ++ made2).
    rewrite (R_bind_Done _ _ _ _ _ Hms), Hrun, Hcalls2, Hcalls1, <- app_assoc.
    split; [reflexivity|]. split; [reflexivity|].
    rewrite saved_files_app, (Hdone1 a eq_refl). now apply prefix_app.
  - exists e, s1, made1. rewrite (R_bind_Failed _ _ _ _ _ Hms).
    split; [reflexivity|]. split; [exact Hcalls1 | now apply prefix_app_r].
Qed.

Lemma fails_saving_quiet_then {A B} (m : R A) (k : A -> R B)
    (files : list string) :
  saves m [] -> (forall a, fails_saving (k a) files) ->
  fails_saving (x ← m; k x) files.
Proof. intros Hm Hk. apply (fails_saving_bind_r m k [] files Hm Hk). Qed.

(** The statement that draws the line of a label no row carries. *)
Lemma reference_line_missing (baseline_df : Frame) (label name : string)
    (s : Session) :
  filter (has_label label) (frame_rows baseline_df) = [] ->
  exists e : failure,
    reference_line baseline_df label name s = (Failed e, s) /\
    (has_column baseline_df "scenario" = true ->
     has_column baseline_df "pdr" = true ->
     e = Python IndexError).
Proof.
  intros Hnone. unfold reference_line, loc_label, getitem_label.
  destruct (has_column baseline_df "scenario") eqn:Hscenario.
  - rewrite Hnone. unfold getitem_column, mbind, R_bind, mret, R_ret.
    change (has_column (mkFrame (frame_records baseline_df) []) "pdr")
      with (has_column baseline_df "pdr").
    destruct (has_column baseline_df "pdr") eqn:Hpdr.
    + exists (Python IndexError). split; [reflexivity | auto].
    + eexists. split; [reflexivity | discriminate].
  - eexists. split; [reflexivity | discriminate].
Qed.

Lemma reference_line_fails (baseline_df : Frame) (label name : string) :
  filter (has_label label) (frame_rows baseline_df) = [] ->
  fails_saving (reference_line baseline_df label name) [].
Proof.
  intros Hnone s.
  destruct (reference_line_missing baseline_df label name s Hnone)
    as (e & Hrun & _).
  exists e, s, []. rewrite app_nil_r. auto.
Qed.

Lemma threshold_figure_fails (baseline_df thresh_df : Frame) :
  df_empty thresh_df = false ->
  df_empty baseline_df = false ->
  filter (has_label "RPL") (frame_rows baseline_df) = [] \/
  filter (has_label "InsecRPL") (frame_rows baseline_df) = [] ->
  fails_saving (threshold_figure baseline_df thresh_df) [].
Proof.
  intros Hthresh Hbase Hmissing. unfold threshold_figure.
  rewrite Hthresh, Hbase. cbn [negb].
  apply fails_saving_quiet_then; [apply saves_draw; discriminate | intros _].
  apply fails_saving_quiet_then; [apply saves_sort_values | intros subset].
  apply fails_saving_quiet_then; [apply saves_getitem_column | intros x].
  apply fails_saving_quiet_then; [apply saves_getitem_column | intros y].
  apply fails_saving_quiet_then; [apply saves_literal_getitem | intros color].
  apply fails_saving_quiet_then; [apply saves_draw; discriminate | intros _].
  apply fails_saving_bind_l.
  destruct Hmissing as [Hrpl | Hinsec].
  - apply fails_saving_bind_l. now apply reference_line_fails.
  - apply fails_saving_quiet_then; [apply saves_reference_line | intros _].
    now apply reference_line_fails.
Qed.

End MissingReference.

(** X15. Figure 4 draws the packet-delivery ratios of the RPL and InsecRPL
    baselines as lines, taking the first row with the label without
    checking that there is one.  When the threshold table and the baseline
    table both have rows but the baseline table has no RPL row, or no
    InsecRPL row (that baseline run failed), [make_graphs] does not return:
    the lookup [.iloc[0]] raises [IndexError], unless something raised
    before it.  The figure over the threshold is never saved; at most the
    three figures over the attack interval have been. *)
Theorem make_graphs_needs_reference_rows {P : Platform} {L : Library}
    (baseline_df rate_df thresh_df : Frame) (s : Session) :
  df_empty thresh_df = false ->
  df_empty baseline_df = false ->
  filter (has_label "RPL") (frame_rows baseline_df) = [] \/
  filter (has_label "InsecRPL") (frame_rows baseline_df) = [] ->
  (exists (e : failure) (s' : Session) (made : list library_call),
     make_graphs baseline_df rate_df thresh_df s = (Failed e, s') /\
     calls s' = calls s ++ made /\
     saved_files made
       `prefix_of` (if df_empty rate_df then []
                    else [OUTPUT_DIR +:+ "/dao_overhead.png";
                          OUTPUT_DIR +:+ "/pdr_vs_attack.png";
                          OUTPUT_DIR +:+ "/delay_vs_attack.png"])) /\
  (forall label name : string,
     filter (has_label label) (frame_rows baseline_df) = [] ->
     has_column baseline_df "scenario" = true ->
     has_column baseline_df "pdr" = true ->
     reference_line baseline_df label name s
     = (Failed (Python IndexError), s)).
Proof.
  intros Hthresh Hbase Hmissing. split.
  - assert (Hfails : fails_saving (make_graphs baseline_df rate_df thresh_df)
                       (if df_empty rate_df then []
                        else [OUTPUT_DIR +:+ "/dao_overhead.png";
                              OUTPUT_DIR +:+ "/pdr_vs_attack.png";
                              OUTPUT_DIR +:+ "/delay_vs_attack.png"])).
    { unfold make_graphs.
      apply fails_saving_quiet_then; [apply saves_draw; discriminate|intros _].
      pose proof (threshold_figure_fails baseline_df thresh_df Hthresh Hbase
                    Hmissing) as H4.
      pose proof (fails_saving_bind_r _ _ _ _
                    (saves_rate_figure rate_df "delay_ms"
                       "End-to-End Delay (ms)"
                       "Average Latency vs DAO Attack Frequency" None
                       "delay_vs_attack.png") (fun _ => H4)) as H34.
      pose proof (fails_saving_bind_r _ _ _ _
                    (saves_rate_figure rate_df "pdr" "Packet Delivery Ratio"
                       "PDR under Increasing Attack Frequency"
                       (Some (decimal 7 10, decimal 10 10))
                       "pdr_vs_attack.png") (fun _ => H34)) as H234.
      pose proof (fails_saving_bind_r _ _ _ _
                    (saves_rate_figure rate_df "ctrl_rx"
                       "DAO Packets Forwarded"
                       "DAO Control Traffic vs Attack Frequency" None
                       "dao_overhead.png") (fun _ => H234)) as H1234.
      destruct (df_empty rate_df); exact H1234. }
    exact (Hfails s).
  - intros label name Hnone Hscenario Hpdr.
    destruct (reference_line_missing baseline_df label name s Hnone)
      as (e & Hrun & He).
    now rewrite Hrun, (He Hscenario Hpdr).
Qed.

Lemma make_graphs_needs_reference_rows_witness :
  exists (e : failure) (s' : @Session sim_platform),
    @make_graphs sim_platform sim_library
      (frame_of [labelled "InsecRPL" sample_record;
                 labelled "SecRPL" sample_record])
      (frame_of [])
      (frame_of [annotated "SecRPL" "threshold" 5 sample_record])
      (sim_session [OUTPUT_DIR] [] [])
    = (Failed e, s').
Proof.
  destruct (@make_graphs_needs_reference_rows sim_platform sim_library
              (frame_of [labelled "InsecRPL" sample_record;
                         labelled "SecRPL" sample_record])
              (frame_of [])
              (frame_of [annotated "SecRPL" "threshold" 5 sample_record])
              (sim_session [OUTPUT_DIR] [] []))
    as [(e & s' & made & Hrun & _) _].
  - vm_compute. reflexivity.
  - vm_compute. reflexivity.
  - left. vm_compute. reflexivity.
  - exists e, s'. exact Hrun.
Defined.

(** The campaign in which only the first run, the RPL baseline, fails: the
    three tables are written, the figures over the attack interval are
    saved, and [main] ends with [IndexError] before the figure over the
    threshold is saved and before anything is summarised. *)
Example campaign_without_rpl_baseline :
  let s := sim_session [OUTPUT_DIR; code_file] [] (scripted_runs 22 [0]) in
  fst (@Report.main sim_platform sim_library s) = Failed (Python IndexError) /\
  saved_files (calls (snd (@Report.main sim_platform sim_library s)))
  = [OUTPUT_DIR +:+ "/dao_overhead.png"; OUTPUT_DIR +:+ "/pdr_vs_attack.png";
     OUTPUT_DIR +:+ "/delay_vs_attack.png"] /\
  last (stdout (program (snd (@Report.main sim_platform sim_library s))))
  = Some (newline +:+ "📊 Creating figures...").
Proof. vm_compute. repeat split. Qed.
(** ** [main] through its report stage *)

Section DrawingOnly.
Context {P : Platform} {L : Library}.

Lemma draws_ret {A} (a : A) : draws_only (mret a : R A).
Proof. intros s. exists []. simpl. now rewrite app_nil_r. Qed.

Lemma draws_throw {A} (e : failure) : draws_only (throw e : R A).
Proof. intros s. exists []. simpl. now rewrite app_nil_r. Qed.

Lemma draws_bind {A B} (m : R A) (k : A -> R B) :
  draws_only m -> (forall a, draws_only (k a)) -> draws_only (x ← m; k x).
Proof.
  intros Hm Hk s. destruct (Hm s) as (drawn1 & Hcalls1).
  unfold mbind, R_bind. destruct (m s) as [[a|e] s1]; simpl in *.
  - destruct (Hk a s1) as (drawn2 & Hcalls2).
    exists (drawn1 ++ drawn2).
    now rewrite Hcalls2, Hcalls1, map_app, <- app_assoc.
  - exists drawn1. exact Hcalls1.
Qed.

Lemma draws_lift {A} (m : M A) : draws_only (lift m).
Proof.
  intros s. exists []. unfold lift.
  destruct (m (program s)) as [[a|e] st]; simpl; now rewrite app_nil_r.
Qed.

Lemma draws_of_library {A} (r : string + A) : draws_only (of_library r).
Proof. destruct r; [apply draws_throw | apply draws_ret]. Qed.

Lemma draws_draw (c : plt.call) : draws_only (draw c).
Proof.
  intros s. unfold draw. destruct (plt_raises (calls s) c); simpl.
  - exists []. now rewrite app_nil_r.
  - exists [c]. reflexivity.
Qed.

Lemma draws_savefig (path : string) : draws_only (savefig path).
Proof.
  intros s. unfold savefig.
  destruct (plt_savefig (calls s) path (env (program s))); simpl.
  - exists []. now rewrite app_nil_r.
  - exists [plt.savefig path]. reflexivity.
Qed.

Lemma draws_for_in {A} (xs : list A) (body : A -> R unit) :
  (forall x, draws_only (body x)) -> draws_only (for_in xs body).
Proof.
  intros Hbody. induction xs as [|x xs IH]; simpl.
  - apply draws_ret.
  - apply draws_bind; [apply Hbody | intros _; exact IH].
Qed.

Lemma draws_comprehension {A B} (f : A -> R B) (xs : list A) :
  (forall x, draws_only (f x)) -> draws_only (comprehension f xs).
Proof.
  intros Hf. induction xs as [|x xs IH]; simpl.
  - apply draws_ret.
  - apply draws_bind; [apply Hf | intros y].
    apply draws_bind; [exact IH | intros ys; apply draws_ret].
Qed.

End DrawingOnly.

Ltac drawing :=
  repeat first
    [ apply draws_ret
    | apply draws_throw
    | apply draws_lift
    | apply draws_of_library
    | apply draws_draw
    | apply draws_savefig
    | apply draws_for_in; intros
    | apply draws_comprehension; intros
    | apply draws_bind; [|intros]
    | match goal with
      | |- draws_only (if ?b then _ else _) => destruct b
      | |- draws_only (match ?x with _ => _ end) => destruct x
      end ].

Section ReportOrder.
Context {P : Platform} {L : Library}.

Lemma draws_make_graphs (baseline_df rate_df thresh_df : Frame) :
  draws_only (make_graphs baseline_df rate_df thresh_df).
Proof.
  unfold make_graphs, rate_figure, threshold_figure, rate_curve,
    reference_line, loc_label, getitem_label, getitem_column, sort_values,
    iloc_0, literal_getitem, scenario_labels.
  drawing.
Qed.

Lemma draws_make_comparison_chart (baseline_df : Frame) :
  draws_only (make_comparison_chart baseline_df).
Proof.
  unfold make_comparison_chart, bar_texts, item, format_with, say,
    getitem_column, literal_getitem.
  drawing.
Qed.

Lemma draws_summarize_results (baseline_df : Frame) :
  draws_only (summarize_results baseline_df).
Proof.
  unfold summarize_results, say, getitem_columns, loc_label, getitem_label,
    getitem_column, iloc_0, format_with.
  drawing.
Qed.

Lemma to_csv_then {B} (df : Frame) (path : string) (k : R B) (s : Session) :
  (to_csv df path;; k) s
  = match df_to_csv df path (env (program s)) with
    | inl msg => (Failed (LibraryError msg), s)
    | inr e' =>
        k (mkSession (mkState e' (heap (program s)) (stdout (program s))
                        (trace (program s)))
             (calls s ++ [ToCsv df path]))
    end.
Proof.
  unfold mbind, R_bind, to_csv.
  destruct (df_to_csv df path (env (program s))); reflexivity.
Qed.

(** The report stage after the three CSV files. *)
Lemma draws_after_tables (base_df rate_df thresh_df : Table) :
  draws_only
    (say (newline +:+ "💾 Data stored in " +:+ OUTPUT_DIR +:+ "/");;
     say (newline +:+ "📊 Creating figures...");;
     make_graphs (frame_of base_df) (frame_of rate_df) (frame_of thresh_df);;
     make_comparison_chart (frame_of base_df);;
     summarize_results (frame_of base_df);;
     say (newline +:+ "✅==============================================================✅");;
     say ("   ANALYSIS FINISHED. Graphs exported to:" +:+ " " +:+ OUTPUT_DIR);;
     say ("✅==============================================================✅" +:+ newline)).
Proof.
  repeat first
    [ apply draws_make_graphs | apply draws_make_comparison_chart
    | apply draws_summarize_results | apply draws_lift
    | apply draws_bind; [|intros _] ].
Qed.

End ReportOrder.

(** X16. The report stage writes the three tables before it draws
    anything: whatever is raised on the way, the calls it has made are CSV
    writes of the baseline, rate and threshold tables, in this order,
    followed by drawing calls, and a drawing call is made only after all
    three files have been written.  A table that cannot be written ends
    the report: the tables after it are not written and nothing is
    drawn. *)
Theorem report_writes_tables_first {P : Platform} {L : Library}
    (base_df rate_df thresh_df : Table) (s : Session) :
  let tables :=
    [(frame_of base_df, OUTPUT_DIR +:+ "/baseline.csv");
     (frame_of rate_df, OUTPUT_DIR +:+ "/attack_rate.csv");
     (frame_of thresh_df, OUTPUT_DIR +:+ "/thresholds.csv")] in
  exists (written : list (Frame * string)) (drawn : list plt.call),
    calls (snd (report base_df rate_df thresh_df s))
    = calls s ++ map (fun w => ToCsv (fst w) (snd w)) written
      ++ map Plt drawn /\
    written `prefix_of` tables /\
    (drawn <> [] -> written = tables) /\
    (fst (report base_df rate_df thresh_df s) = Done tt -> written = tables).
Proof.
  intros tables. unfold report.
  pose proof (draws_after_tables base_df rate_df thresh_df) as Hrest.
  set (rest := (say _;; _)) in *.
  rewrite to_csv_then.
  match goal with
  | |- context [df_to_csv ?f ?p ?e] => destruct (df_to_csv f p e) as [msg|e1]
  end.
  { exists [], []. simpl. rewrite app_nil_r.
    split; [reflexivity|]. split; [apply prefix_nil|].
    split; [congruence | discriminate]. }
  rewrite to_csv_then. cbn [program calls env].
  match goal with
  | |- context [df_to_csv ?f ?p ?e] => destruct (df_to_csv f p e) as [msg|e2]
  end.
  { exists [(frame_of base_df, OUTPUT_DIR +:+ "/baseline.csv")], [].
    cbn [snd fst calls map app]. rewrite ?app_nil_r.
    split; [reflexivity|]. split; [now exists (tail tables)|].
    split; [congruence | discriminate]. }
  rewrite to_csv_then. cbn [program calls env].
  match goal with
  | |- context [df_to_csv ?f ?p ?e] => destruct (df_to_csv f p e) as [msg|e3]
  end.
  { exists (take 2 tables), []. cbn [snd fst calls map app take tables].
    rewrite ?app_nil_r, <- ?app_assoc.
    split; [reflexivity|]. split; [now exists (drop 2 tables)|].
    split; [congruence | discriminate]. }
  match goal with
  | |- context [rest ?s3] => destruct (Hrest s3) as (drawn & Hcalls)
  end.
  exists tables, drawn. rewrite Hcalls. cbn [calls map tables fst snd].
  rewrite <- !app_assoc. auto.
Qed.

Section SummaryGuard.
Context {P : Platform} {L : Library}.

Lemma nie_ret {A} (a : A) (post : A -> Prop) :
  post a -> no_index_error (mret a : R A) post.
Proof. intros Ha s. exact Ha. Qed.

Lemma nie_throw {A} (e : failure) (post : A -> Prop) :
  e <> Python IndexError -> no_index_error (throw e : R A) post.
Proof. intros He s. exact He. Qed.

Lemma nie_bind {A B} (m : R A) (k : A -> R B) (post1 : A -> Prop)
    (post : B -> Prop) :
  no_index_error m post1 ->
  (forall a, post1 a -> no_index_error (k a) post) ->
  no_index_error (x ← m; k x) post.
Proof.
  intros Hm Hk s. specialize (Hm s). unfold mbind, R_bind.
  destruct (m s) as [[a|e] s1]; simpl in *.
  - exact (Hk a Hm s1).
  - exact Hm.
Qed.

Lemma nie_true {A} (m : R A) (post : A -> Prop) :
  no_index_error m post -> no_index_error m (fun _ => True).
Proof.
  intros Hm s. specialize (Hm s). destruct (fst (m s)); auto.
Qed.

Lemma nie_say (line : string) : no_index_error (say line) (fun _ => True).
Proof. intros s. exact I. Qed.

Lemma nie_of_library {A} (r : string + A) :
  no_index_error (of_library r) (fun _ => True).
Proof. intros s. destruct r; simpl; [discriminate | exact I]. Qed.

Lemma nie_format_with (float_format : float -> string) (v : pyval) :
  no_index_error (format_with float_format v) (fun _ => True).
Proof. intros s. destruct v; simpl; solve [exact I | discriminate]. Qed.

Lemma nie_getitem_column (df : Frame) (col : string) :
  no_index_error (getitem_column df col)
    (fun cells => cells = map (cell df col) (frame_rows df)).
Proof.
  intros s. unfold getitem_column.
  destruct (has_column df col); simpl; [reflexivity | discriminate].
Qed.

Lemma nie_getitem_columns (df : Frame) (cols : list string) :
  no_index_error (getitem_columns df cols) (fun _ => True).
Proof.
  intros s. unfold getitem_columns.
  destruct (filter _ cols); simpl; [exact I | discriminate].
Qed.

Lemma nie_loc_label (df : Frame) (label col : string) :
  no_index_error (loc_label df label col)
    (fun series =>
       length series = length (filter (has_label label) (frame_rows df))).
Proof.
  intros s. unfold loc_label, getitem_label, getitem_column.
  unfold mbind, R_bind, mret, R_ret.
  destruct (has_column df "scenario"); simpl; [|discriminate].
  destruct (has_column _ col); simpl; [|discriminate].
  now rewrite length_map.
Qed.

Lemma nie_iloc_0 (series : list pyval) :
  series <> [] -> no_index_error (iloc_0 series) (fun _ => True).
Proof. intros Hs s. destruct series; [congruence | exact I]. Qed.

(** A cell is a label exactly when the record holds that label. *)
Lemma cell_label (df : Frame) (col label : string) (d : dict) :
  cell df col d = PyStr label <-> d !! col = Some (PyStr label).
Proof.
  unfold cell. destruct (d !! col) as [[n|n|x|s']|]; simpl;
    try (split; [|discriminate]);
    try (destruct (df_cell _ _ _); discriminate).
  split; congruence.
Qed.

Lemma label_among_cells (df : Frame) (label : string) :
  PyStr label ∈ map (cell df "scenario") (frame_rows df) ->
  filter (has_label label) (frame_rows df) <> [].
Proof.
  intros Hin. apply list_elem_of_fmap in Hin as (d & Hcell & Hd).
  symmetry in Hcell. apply cell_label in Hcell.
  intros Hnone.
  assert (Hdin : d ∈ filter (has_label label) (frame_rows df))
    by (apply list_elem_of_filter; split; [exact Hcell | exact Hd]).
  rewrite Hnone in Hdin. now apply not_elem_of_nil in Hdin.
Qed.

Lemma nie_first_cell (df : Frame) (label col : string) :
  filter (has_label label) (frame_rows df) <> [] ->
  no_index_error (series ← loc_label df label col; iloc_0 series)
    (fun _ => True).
Proof.
  intros Hrows.
  apply (nie_bind _ _ _ _ (nie_loc_label df label col)).
  intros series Hlen. apply nie_iloc_0. intros ->.
  destruct (filter (has_label label) (frame_rows df));
    [congruence | discriminate].
Qed.

Lemma nie_summarize_results (baseline_df : Frame) :
  no_index_error (summarize_results baseline_df) (fun _ => True).
Proof.
  unfold summarize_results.
  do 3 (apply (nie_bind _ _ _ _ (nie_say _)); intros _ _).
  destruct (negb (df_empty baseline_df)); [|now apply nie_ret].
  apply (nie_bind _ _ _ _ (nie_say _)); intros _ _.
  apply (nie_bind _ _ _ _ (nie_getitem_columns _ _)); intros view _.
  apply (nie_bind _ _ _ _ (nie_say _)); intros _ _.
  apply (nie_bind _ _ _ _ (nie_getitem_column _ _)); intros scenarios ->.
  destruct (issubset _ _) eqn:Hsub; [|now apply nie_ret].
  unfold issubset in Hsub. cbn [forallb] in Hsub.
  apply andb_prop in Hsub as [Hsec Hsub].
  apply andb_prop in Hsub as [Hinsec _].
  apply bool_decide_eq_true_1 in Hsec, Hinsec.
  apply label_among_cells in Hsec, Hinsec.
  pose proof (nie_first_cell baseline_df "InsecRPL" "pdr" Hinsec) as Hfirst1.
  pose proof (nie_first_cell baseline_df "SecRPL" "pdr" Hsec) as Hfirst2.
  pose proof (nie_first_cell baseline_df "SecRPL" "ctrl_dropped" Hsec)
    as Hfirst3.
  apply (nie_bind _ _ _ _ (nie_loc_label _ _ _)); intros series1 Hlen1.
  apply (nie_bind _ _ (fun _ => True)).
  { apply nie_iloc_0. intros ->.
    destruct (filter (has_label "InsecRPL") (frame_rows baseline_df));
      [congruence | discriminate]. }
  intros insec _.
  apply (nie_bind _ _ _ _ (nie_loc_label _ _ _)); intros series2 Hlen2.
  apply (nie_bind _ _ (fun _ => True)).
  { apply nie_iloc_0. intros ->.
    destruct (filter (has_label "SecRPL") (frame_rows baseline_df));
      [congruence | discriminate]. }
  intros sec _.
  do 3 (apply (nie_bind _ _ _ _ (nie_of_library _)); intros ? _).
  apply (nie_bind _ _ _ _ (nie_say _)); intros _ _.
  apply (nie_bind _ _ _ _ (nie_format_with _ _)); intros ? _.
  apply (nie_bind _ _ _ _ (nie_say _)); intros _ _.
  do 2 (apply (nie_bind _ _ _ _ (nie_of_library _)); intros ? _).
  apply (nie_bind _ _ _ _ (nie_format_with _ _)); intros ? _.
  apply (nie_bind _ _ _ _ (nie_say _)); intros _ _.
  apply (nie_bind _ _ _ _ (nie_loc_label _ _ _)); intros series3 Hlen3.
  apply (nie_bind _ _ (fun _ => True)).
  { apply nie_iloc_0. intros ->.
    destruct (filter (has_label "SecRPL") (frame_rows baseline_df));
      [congruence | discriminate]. }
  intros blocked _.
  apply (nie_bind _ _ _ _ (nie_of_library _)); intros ? _.
  apply nie_say.
Qed.

Lemma issubset_missing (df : Frame) (labels : list string) (label : string) :
  In label labels ->
  filter (has_label label) (frame_rows df) = [] ->
  issubset labels (map (cell df "scenario") (frame_rows df)) = false.
Proof.
  intros Hin Hnone. unfold issubset.
  destruct (forallb _ labels) eqn:Hall; [|reflexivity].
  rewrite forallb_forall in Hall. specialize (Hall label Hin).
  apply bool_decide_eq_true_1, label_among_cells in Hall. congruence.
Qed.

End SummaryGuard.

(** X17. [summarize_results] never raises [IndexError]: it takes the first
    InsecRPL and SecRPL rows only after checking that both labels occur in
    the table.  On an empty table it prints the three lines of its header
    and nothing else; on a table that lacks the SecRPL or the InsecRPL row
    and has the five columns of the overview it prints the header and the
    overview and returns, without the improvements. *)
Theorem summarize_results_guards_its_lookups {P : Platform} {L : Library}
    (baseline_df : Frame) (s : Session) :
  let header :=
    [newline +:+ str_repeat "=" 80; "EXPERIMENT SUMMARY"; str_repeat "=" 80] in
  let printed (lines : list string) : Session :=
    mkSession
      (mkState (env (program s)) (heap (program s))
         (stdout (program s) ++ lines) (trace (program s)))
      (calls s) in
  fst (summarize_results baseline_df s) <> Failed (Python IndexError) /\
  (df_empty baseline_df = true ->
   summarize_results baseline_df s = (Done tt, printed header)) /\
  (df_empty baseline_df = false ->
   Forall (fun col => has_column baseline_df col = true) summary_columns ->
   filter (has_label "SecRPL") (frame_rows baseline_df) = [] \/
   filter (has_label "InsecRPL") (frame_rows baseline_df) = [] ->
   summarize_results baseline_df s
   = (Done tt,
      printed (header ++ [newline +:+ "📊 Baseline Overview:";
                          df_to_string baseline_df summary_columns]))).
Proof.
  intros header printed. split; [|split].
  - pose proof (nie_summarize_results baseline_df s) as H.
    destruct (fst (summarize_results baseline_df s));
      [discriminate | congruence].
  - intros Hempty. unfold summarize_results. rewrite Hempty.
    unfold printed, header. destruct s as [[e h o t] c].
    unfold mbind, R_bind. cbn [say lift print program calls env heap stdout
                                 trace negb mret R_ret].
    rewrite <- ?app_assoc. reflexivity.
  - intros Hempty Hcols Hmissing. unfold summarize_results. rewrite Hempty.
    assert (Hview : forall s0, getitem_columns baseline_df summary_columns s0
                               = (Done baseline_df, s0)).
    { intros s0. unfold getitem_columns.
      assert (Hnone : filter (fun col => ~ col ∈ columns baseline_df)
                        summary_columns = []).
      { induction Hcols as [|col cols Hcol _ IH]; [reflexivity|].
        rewrite filter_cons. unfold has_column in Hcol.
        apply bool_decide_eq_true_1 in Hcol.
        destruct (decide (~ col ∈ columns baseline_df)); [tauto | exact IH]. }
      now rewrite Hnone. }
    assert (Hscenario : has_column baseline_df "scenario" = true).
    { apply Forall_cons in Hcols as [H _]. exact H. }
    assert (Hsub : issubset ["SecRPL"; "InsecRPL"]
                     (map (cell baseline_df "scenario")
                        (frame_rows baseline_df)) = false).
    { destruct Hmissing as [H|H];
        [apply (issubset_missing _ _ "SecRPL")
        |apply (issubset_missing _ _ "InsecRPL")]; simpl; auto. }
    unfold printed, header. destruct s as [[e h o t] c].
    unfold mbind, R_bind. cbn [say lift print program calls env heap stdout
                                 trace negb].
    rewrite Hview. unfold getitem_column. rewrite Hscenario.
    cbn [say lift print program calls env heap stdout trace mret R_ret].
    rewrite Hsub. rewrite <- ?app_assoc. reflexivity.
Qed.

Section WholeMain.
Context {P : Platform} {L : Library}.

(** [Report.main] is [main] followed by the report on its three tables. *)
Lemma main_then_report (s : Session) :
  Report.main s
  = (tables ← lift main;
     match tables with
     | Some (base_df, rate_df, thresh_df) => report base_df rate_df thresh_df
     | None => mret tt
     end) s.
Proof.
  destruct s as [[e h o t] c].
  unfold Report.main, main, say, lift, mbind, R_bind, M_bind, path_exists.
  cbn [print program calls env heap stdout trace].
  destruct (os_path_exists code_file e);
    cbn [negb print program calls env heap stdout trace mret M_ret R_ret];
    [|reflexivity].
  destruct (gather_baselines _) as [[base_df|err] st1]; [|reflexivity].
  destruct (gather_attack_variants _) as [[rate_df|err] st2]; [|reflexivity].
  destruct (gather_threshold_tests _) as [[thresh_df|err] st3]; reflexivity.
Qed.

(** When every process fails no run yields a record. *)
Lemma failing_runs_no_record (command : string) (e : Env) :
  (forall command e, returncode_of command e <> 0%Z) ->
  run_result command e = None.
Proof.
  intros Hfail. unfold run_result.
  specialize (Hfail command e). unfold returncode_of in Hfail.
  apply Z.eqb_neq in Hfail. now rewrite Hfail.
Qed.

Lemma failing_runs_rates_rows (rs : list Z) (e : Env) :
  (forall command e, returncode_of command e <> 0%Z) ->
  concat (rates_rows rs e) = [].
Proof.
  intros Hfail. revert e. induction rs as [|r rs IH]; intros e; simpl;
    [reflexivity|].
  unfold rate_rows. rewrite !(failing_runs_no_record _ _ Hfail). simpl.
  apply IH.
Qed.

Lemma failing_runs_limits_rows (lims : list Z) (e : Env) :
  (forall command e, returncode_of command e <> 0%Z) ->
  all_printable (limits_rows lims e) = true /\
  recorded (limits_rows lims e) = [].
Proof.
  intros Hfail. revert e. induction lims as [|lim lims IH]; intros e; simpl;
    [auto|].
  unfold threshold_row. rewrite (failing_runs_no_record _ _ Hfail). simpl.
  apply IH.
Qed.

Lemma df_empty_no_rows : df_empty (frame_of []) = true.
Proof. reflexivity. Qed.

Lemma make_graphs_no_rows (baseline_df : Frame) (s : Session) :
  plt_raises (calls s) plt.rcParams_update = None ->
  make_graphs baseline_df (frame_of []) (frame_of []) s
  = (Done tt, mkSession (program s) (calls s ++ [Plt plt.rcParams_update])).
Proof.
  intros Hrc. unfold make_graphs, rate_figure, threshold_figure.
  rewrite df_empty_no_rows. cbn [negb].
  unfold mbind, R_bind, draw. now rewrite Hrc.
Qed.

Lemma make_comparison_chart_no_rows (s : Session) :
  make_comparison_chart (frame_of []) s = (Done tt, s).
Proof. unfold make_comparison_chart. now rewrite df_empty_no_rows. Qed.

Lemma summarize_results_no_rows (baseline_df : Frame) (s : Session) :
  df_empty baseline_df = true ->
  summarize_results baseline_df s
  = (Done tt,
     mkSession
       (mkState (env (program s)) (heap (program s))
          (stdout (program s)
           ++ [newline +:+ str_repeat "=" 80; "EXPERIMENT SUMMARY";
               str_repeat "=" 80])
          (trace (program s)))
       (calls s)).
Proof.
  intros Hempty. unfold summarize_results. rewrite Hempty.
  destruct s as [[e h o t] c].
  unfold mbind, R_bind. cbn [say lift print program calls env heap stdout
                               trace negb mret R_ret].
  rewrite <- ?app_assoc. reflexivity.
Qed.

End WholeMain.


(** One statement of a sequence that returns. *)
Tactic Notation "step_done" uconstr(H) :=
  match goal with
  | |- context [mbind ?k ?m ?s] => rewrite (R_bind_Done m k s _ _ H)
  end;
  cbn [program calls env heap stdout trace].

(** X18. A campaign in which every simulation fails still runs to its end,
    provided the three CSV files can be written: all 22 commands are run,
    the three tables are empty and are written as they are, no figure is
    drawn or saved (the only call into matplotlib is the update of its font
    settings), the summary consists of its header, and [main] returns after
    its closing lines. *)
Theorem failed_campaign_still_reports {P : Platform} {L : Library}
    (s : Session) :
  os_path_exists code_file (env (program s)) = true ->
  (forall command e, returncode_of command e <> 0%Z) ->
  (forall df path e, exists e', df_to_csv df path e = inr e') ->
  (forall made, plt_raises made plt.rcParams_update = None) ->
  exists (s' : Session) (log : list string),
    Report.main s = (Done tt, s') /\
    trace (program s') = trace (program s) ++ campaign_commands /\
    calls s'
    = calls s ++ [ToCsv (frame_of []) (OUTPUT_DIR +:+ "/baseline.csv");
                  ToCsv (frame_of []) (OUTPUT_DIR +:+ "/attack_rate.csv");
                  ToCsv (frame_of []) (OUTPUT_DIR +:+ "/thresholds.csv");
                  Plt plt.rcParams_update] /\
    stdout (program s')
    = log ++ [newline +:+ "💾 Data stored in " +:+ OUTPUT_DIR +:+ "/";
              newline +:+ "📊 Creating figures...";
              newline +:+ str_repeat "=" 80;
              "EXPERIMENT SUMMARY";
              str_repeat "=" 80;
              newline +:+ "✅==============================================================✅";
              "   ANALYSIS FINISHED. Graphs exported to:" +:+ " " +:+ OUTPUT_DIR;
              "✅==============================================================✅" +:+ newline].
Proof.
  intros Hfile Hfail Hcsv Hrc.
  destruct (failing_runs_limits_rows limits
              (attack_world rates (baseline_world (env (program s)))) Hfail)
    as [Hprintable Hnone].
  assert (Hbase : baseline_rows (env (program s)) = [None; None; None]).
  { unfold baseline_rows. now rewrite !(failing_runs_no_record _ _ Hfail). }
  destruct (main_sweeps_run (program s) Hfile) as (st' & Hrun & Htrace).
  { now rewrite Hbase. }
  { exact Hprintable. }
  rewrite Hnone, Hbase in Hrun.
  assert (Hrate : attack_rows rates (baseline_world (env (program s))) = []).
  { unfold attack_rows, reference_rows.
    rewrite (failing_runs_rates_rows _ _ Hfail).
    now rewrite (failing_runs_no_record _ _ Hfail). }
  rewrite Hrate in Hrun. change (recorded [None; None; None]) with (@nil dict) in Hrun.
  rewrite main_then_report.
  rewrite (R_bind_Done _ _ _ _ _ (lift_Ret _ _ _ _ Hrun)).
  destruct st' as [e1 h1 o1 t1]. cbn [trace] in Htrace.
  unfold report.
  destruct (Hcsv (frame_of []) (OUTPUT_DIR +:+ "/baseline.csv") e1)
    as [e2 Hcsv1].
  destruct (Hcsv (frame_of []) (OUTPUT_DIR +:+ "/attack_rate.csv") e2)
    as [e3 Hcsv2].
  destruct (Hcsv (frame_of []) (OUTPUT_DIR +:+ "/thresholds.csv") e3)
    as [e4 Hcsv3].
  rewrite to_csv_then. cbn [program calls env heap stdout trace].
  rewrite Hcsv1.
  rewrite to_csv_then. cbn [program calls env heap stdout trace].
  rewrite Hcsv2.
  rewrite to_csv_then. cbn [program calls env heap stdout trace].
  rewrite Hcsv3.
  step_done (say_run _ _).
  step_done (say_run _ _).
  step_done (make_graphs_no_rows _ _ (Hrc _)).
  step_done (make_comparison_chart_no_rows _).
  step_done (summarize_results_no_rows _ _ df_empty_no_rows).
  step_done (say_run _ _).
  step_done (say_run _ _).
  rewrite say_run.
  cbn [program calls env heap stdout trace].
  exists (mkSession
            (mkState e4 h1
               (((((o1 ++ [newline +:+ "💾 Data stored in " +:+ OUTPUT_DIR +:+ "/"])
                   ++ [newline +:+ "📊 Creating figures..."])
                  ++ [newline +:+ str_repeat "=" 80; "EXPERIMENT SUMMARY";
                      str_repeat "=" 80])
                 ++ [newline +:+ "✅==============================================================✅"])
                ++ ["   ANALYSIS FINISHED. Graphs exported to:" +:+ " " +:+ OUTPUT_DIR]
                ++ ["✅==============================================================✅" +:+ newline])
               t1)
            ((((calls s ++ [ToCsv (frame_of []) (OUTPUT_DIR +:+ "/baseline.csv")])
               ++ [ToCsv (frame_of []) (OUTPUT_DIR +:+ "/attack_rate.csv")])
              ++ [ToCsv (frame_of []) (OUTPUT_DIR +:+ "/thresholds.csv")])
             ++ [Plt plt.rcParams_update])), o1.
  cbn [program calls env heap stdout trace].
  split; [|split; [exact Htrace|split]].
  - rewrite <- ?app_assoc. reflexivity.
  - rewrite <- ?app_assoc. reflexivity.
  - rewrite <- ?app_assoc. reflexivity.
Qed.

Lemma failed_campaign_still_reports_witness :
  exists s' : @Session offline_platform,
    @Report.main offline_platform offline_library
      (offline_session [code_file])
    = (Done tt, s') /\
    length (trace (program s')) = 22 /\
    saved_files (calls s') = [].
Proof.
  destruct (@failed_campaign_still_reports offline_platform offline_library
              (offline_session [code_file]))
    as (s' & log & Hrun & Htrace & Hcalls & _).
  - vm_compute. reflexivity.
  - intros command e. discriminate.
  - intros df path e. exists e. reflexivity.
  - reflexivity.
  - exists s'. split; [exact Hrun|]. rewrite Htrace, Hcalls.
    split; reflexivity.
Defined.

(** X19. A recorded run whose packet-delivery ratio is text leaves the
    campaign without any output: when it is one of the baselines, or one of
    the threshold runs after printable baselines, [main] ends with
    [ValueError] before the report stage is reached, so no CSV file is
    written and nothing is drawn, whatever the other runs produced. *)
Theorem unprintable_pdr_leaves_no_output {P : Platform} {L : Library}
    (s : Session) :
  let e0 := env (program s) in
  let e2 := attack_world rates (baseline_world e0) in
  os_path_exists code_file e0 = true ->
  all_printable (baseline_rows e0) = false \/
  all_printable (baseline_rows e0) = true /\
  all_printable (limits_rows limits e2) = false ->
  exists s' : Session,
    Report.main s = (Failed (Python ValueError), s') /\
    calls s' = calls s.
Proof.
  intros e0 e2 Hfile Hcase. rewrite main_then_report.
  assert (Hmain : exists st', main (program s) = (Raise ValueError, st')).
  { destruct Hcase as [Hbase | [Hbase Hthresh]].
    - destruct (main_baseline_raises (program s) Hfile Hbase)
        as (st' & n & Hrun & _). eauto.
    - destruct (main_threshold_raises (program s) Hfile Hbase Hthresh)
        as (st' & n & Hrun & _). eauto. }
  destruct Hmain as [st' Hrun].
  rewrite (R_bind_Failed _ _ _ _ _ (lift_Raise _ _ _ _ Hrun)).
  eexists. split; reflexivity.
Qed.

Lemma unprintable_pdr_leaves_no_output_witness :
  exists s' : @Session sim_platform,
    @Report.main sim_platform sim_library
      (sim_session [OUTPUT_DIR; code_file] []
         (scripted_runs 17 [] ++ (0%Z, text_files) :: scripted_runs 4 []))
    = (Failed (Python ValueError), s') /\
    calls s' = [].
Proof.
  destruct (@unprintable_pdr_leaves_no_output sim_platform sim_library
              (sim_session [OUTPUT_DIR; code_file] []
                 (scripted_runs 17 [] ++ (0%Z, text_files)
                  :: scripted_runs 4 [])))
    as (s' & Hrun & Hcalls).
  - vm_compute. reflexivity.
  - right. split; vm_compute; reflexivity.
  - exists s'. split; [exact Hrun | exact Hcalls].
Defined.
(** ** [make_comparison_chart]: what is printed and what is saved *)

Section SilentFragments.
Context {P : Platform} {L : Library}.

Lemma silent_ret {A} (a : A) : silent (mret a : R A).
Proof. intros s. exists []. simpl. rewrite app_nil_r. auto. Qed.

Lemma silent_throw {A} (e : failure) : silent (throw e : R A).
Proof. intros s. exists []. simpl. rewrite app_nil_r. auto. Qed.

Lemma silent_bind {A B} (m : R A) (k : A -> R B) :
  silent m -> (forall a, silent (k a)) -> silent (x ← m; k x).
Proof.
  intros Hm Hk s. destruct (Hm s) as (made1 & Hcalls1 & Hsaved1 & Hout1).
  unfold mbind, R_bind. destruct (m s) as [[a|e] s1]; simpl in *.
  - destruct (Hk a s1) as (made2 & Hcalls2 & Hsaved2 & Hout2).
    exists (made1 ++ made2).
    rewrite Hcalls2, Hcalls1, <- app_assoc, saved_files_app, Hsaved1, Hsaved2.
    split; [reflexivity|]. split; [reflexivity | congruence].
  - exists made1. auto.
Qed.

Lemma silent_of_library {A} (r : string + A) : silent (of_library r).
Proof. destruct r; [apply silent_throw | apply silent_ret]. Qed.

Lemma silent_draw (c : plt.call) :
  (forall path, c <> plt.savefig path) -> silent (draw c).
Proof.
  intros Hc s. unfold draw. destruct (plt_raises (calls s) c); simpl.
  - exists []. rewrite app_nil_r. auto.
  - exists [Plt c]. split; [reflexivity|]. split; [|reflexivity].
    destruct c; try reflexivity. now destruct (Hc path).
Qed.

Lemma silent_for_in {A} (xs : list A) (body : A -> R unit) :
  (forall x, silent (body x)) -> silent (for_in xs body).
Proof.
  intros Hbody. induction xs as [|x xs IH]; simpl.
  - apply silent_ret.
  - apply silent_bind; [apply Hbody | intros _; exact IH].
Qed.

Lemma silent_comprehension {A B} (f : A -> R B) (xs : list A) :
  (forall x, silent (f x)) -> silent (comprehension f xs).
Proof.
  intros Hf. induction xs as [|x xs IH]; simpl.
  - apply silent_ret.
  - apply silent_bind; [apply Hf | intros y].
    apply silent_bind; [exact IH | intros ys; apply silent_ret].
Qed.

End SilentFragments.

Ltac keep_silent :=
  repeat first
    [ apply silent_ret
    | apply silent_throw
    | apply silent_of_library
    | apply silent_draw; discriminate
    | apply silent_for_in; intros
    | apply silent_comprehension; intros
    | apply silent_bind; [|intros]
    | match goal with
      | |- silent (if ?b then _ else _) => destruct b
      | |- silent (match ?x with _ => _ end) => destruct x
      end ].

Section ChartFacts.
Context {P : Platform} {L : Library}.

Lemma prints_after_silent {A} (m : R A) (k : A -> R unit)
    (file line : string) :
  silent m -> (forall a, prints_after_saving (k a) file line) ->
  prints_after_saving (x ← m; k x) file line.
Proof.
  intros Hm Hk s. destruct (Hm s) as (made1 & Hcalls1 & Hsaved1 & Hout1).
  unfold mbind, R_bind. destruct (m s) as [[a|e] s1]; simpl in *.
  - destruct (Hk a s1) as (made2 & Hcalls2 & Hcase).
    exists (made1 ++ made2).
    rewrite Hcalls2, Hcalls1, <- app_assoc, saved_files_app, Hsaved1.
    split; [reflexivity|]. rewrite <- Hout1. exact Hcase.
  - exists made1. split; [exact Hcalls1|]. left.
    split; [exact Hsaved1|]. split; [exact Hout1 | discriminate].
Qed.

Lemma prints_after_tail (file line : string) :
  prints_after_saving (savefig file;; say line;; draw plt.close) file line.
Proof.
  intros s. unfold mbind, R_bind, savefig.
  destruct (plt_savefig (calls s) file (env (program s))) as [msg|e'].
  - exists []. simpl. rewrite app_nil_r. split; [reflexivity|].
    left. repeat split; auto.
  - cbn [say lift print program calls env heap stdout trace]. unfold draw.
    cbn [program calls].
    destruct (plt_raises _ plt.close).
    + exists [Plt (plt.savefig file)]. split; [reflexivity|]. right. auto.
    + exists [Plt (plt.savefig file); Plt plt.close].
      cbn [snd calls program stdout]. rewrite <- app_assoc.
      split; [reflexivity|]. right. auto.
Qed.

Lemma silent_getitem_column (df : Frame) (col : string) :
  silent (getitem_column df col).
Proof. unfold getitem_column. keep_silent. Qed.

Lemma silent_literal_getitem (d : list (string * string)) (key : pyval) :
  silent (literal_getitem d key).
Proof. unfold literal_getitem. keep_silent. Qed.

Lemma silent_bar_texts (a : plt.axes) (bars : nat) (values : list pyval)
    (format : pyval -> R string) :
  (forall v, silent (format v)) -> silent (bar_texts a bars values format).
Proof.
  intros Hformat. unfold bar_texts. apply silent_for_in. intros i.
  apply silent_bind; [unfold item; keep_silent | intros v].
  apply silent_bind; [apply Hformat | intros text].
  apply silent_draw. discriminate.
Qed.

Lemma silent_format_with (float_format : float -> string) (v : pyval) :
  silent (format_with float_format v).
Proof. unfold format_with. keep_silent. Qed.

End ChartFacts.

(** X20. [make_comparison_chart] prints "Saved: comparison_overview.png"
    only after the file has been saved: whatever is raised on the way, it
    has either printed nothing and saved nothing, or saved the chart under
    that name in the output directory and then printed this one line; when
    it returns on a table that is not empty it has done both.  On an empty
    table it returns at once: nothing is drawn, saved or printed. *)
Theorem comparison_chart_reports_only_what_it_saved {P : Platform}
    {L : Library} (baseline_df : Frame) (s : Session) :
  let result := make_comparison_chart baseline_df s in
  let file := OUTPUT_DIR +:+ "/comparison_overview.png" in
  (df_empty baseline_df = true -> result = (Done tt, s)) /\
  exists made : list library_call,
    calls (snd result) = calls s ++ made /\
    (saved_files made = [] /\
     stdout (program (snd result)) = stdout (program s) /\
     (df_empty baseline_df = false -> fst result <> Done tt) \/
     saved_files made = [file] /\
     stdout (program (snd result))
     = stdout (program s) ++ ["✓ Saved: comparison_overview.png"]).
Proof.
  intros result file. subst result. split.
  { intros Hempty. unfold make_comparison_chart. now rewrite Hempty. }
  unfold make_comparison_chart.
  destruct (df_empty baseline_df) eqn:Hempty.
  { exists []. simpl. rewrite app_nil_r. split; [reflexivity|].
    left. repeat split; auto. }
  match goal with
  | |- context [calls (snd (?m s))] =>
      assert (Hm : prints_after_saving m file
                     "✓ Saved: comparison_overview.png")
  end.
  { repeat first
      [ apply prints_after_tail
      | apply prints_after_silent;
        [ first [ apply silent_draw; discriminate
                | apply silent_getitem_column
                | apply silent_comprehension; intros;
                  apply silent_literal_getitem
                | apply silent_bar_texts; intros;
                  first [ apply silent_format_with
                        | apply silent_bind;
                          [apply silent_of_library | intros; apply silent_ret] ] ]
        | intros ] ]. }
  destruct (Hm s) as (made & Hcalls & Hcase). exists made.
  split; [exact Hcalls|].
  destruct Hcase as [(H1 & H2 & H3) | H]; [left | right; exact H].
  split; [exact H1|]. split; [exact H2 | intros _; exact H3].
Qed.

(** The campaign in which all 22 runs succeed, on the scripted platform
    and library: the three tables are written, the five figures are saved
    in order, and [main] returns after its closing line. *)
Example campaign_with_all_runs_succeeding :
  let s := sim_session [OUTPUT_DIR; code_file] [] (scripted_runs 22 []) in
  let s' := snd (@Report.main sim_platform sim_library s) in
  fst (@Report.main sim_platform sim_library s) = Done tt /\
  omap (fun c => match c with ToCsv df path => Some (length (frame_rows df), path)
                         | Plt _ => None end) (calls s')
  = [(3, OUTPUT_DIR +:+ "/baseline.csv");
     (18, OUTPUT_DIR +:+ "/attack_rate.csv");
     (6, OUTPUT_DIR +:+ "/thresholds.csv")] /\
  saved_files (calls s')
  = [OUTPUT_DIR +:+ "/dao_overhead.png"; OUTPUT_DIR +:+ "/pdr_vs_attack.png";
     OUTPUT_DIR +:+ "/delay_vs_attack.png";
     OUTPUT_DIR +:+ "/pdr_vs_threshold.png";
     OUTPUT_DIR +:+ "/comparison_overview.png"] /\
  last (stdout (program s'))
  = Some ("✅==============================================================✅" +:+ newline).
Proof. vm_compute. repeat split. Qed.
